(** * DisasterDash backend ([backend/server.py]): a shallow embedding

    The request handlers of [server.py] are embedded as computations in a
    state-and-exception monad over a [World]: the five collections of the
    document store, the process environment, the clock, the uuid source
    and the external session-exchange service.

    Conventions.
    - A Python value is a [value]; a stored document and a JSON object at
      top level is a [gmap string value], a nested dict an association
      list.  The storage-assigned [_id] is left out: every read either
      projects it away ([{"_id": 0}]) or never looks at it.
    - A [datetime] is the number of microseconds since the epoch; a
      [timedelta] is a number of microseconds.  The handlers build aware
      UTC datetimes; the store hands a datetime back without a time zone,
      the client of [server.py] being created without [tz_aware].
    - A Python [float] is an exact rational.
    - [raise] is [Raise]; an exception leaves the effects performed so far
      in place, as in Python.

    - A request body reaches a handler as the model the framework has
      validated it into; how pydantic turns JSON into a model is not
      modelled, a route takes the outcome of that validation.

    All the routes of [server.py] are embedded, with the two
    authentication dependencies.  The definitions come first, the
    properties after them. *)

From Stdlib Require Import ZArith QArith Strings.String Strings.Ascii Lia.
From Stdlib Require Import Structures.OrderedTypeEx Sorting.Sorted.
From stdpp Require Import base option list gmap strings sorting pretty.

Local Open Scope Z_scope.
Local Open Scope string_scope.

(** ** Python values *)

#[local] Set Warnings "-register-all".

Inductive value : Type :=
| VNone
| VBool (b : bool)
| VInt (z : Z)
| VFloat (q : Q)
| VStr (s : string)
| VDatetime (t : Z)
| VDict (kvs : list (string * value))
| VList (vs : list value).

Abbreviation doc := (gmap string value).

(** Python truthiness ([if v:], [a and b]). *)
Definition truthy (v : value) : bool :=
  match v with
  | VNone => false
  | VBool b => b
  | VInt z => negb (Z.eqb z 0)
  | VFloat q => negb (Qeq_bool q 0)
  | VStr s => negb (String.eqb s "")
  | VDatetime _ => true
  | VDict kvs => match kvs with [] => false | _ => true end
  | VList vs => match vs with [] => false | _ => true end
  end.

(** The store's equality match on values. *)
Fixpoint value_eqb (a b : value) : bool :=
  match a, b with
  | VNone, VNone => true
  | VBool x, VBool y => Bool.eqb x y
  | VInt x, VInt y => Z.eqb x y
  | VInt x, VFloat y => Qeq_bool (inject_Z x) y
  | VFloat x, VInt y => Qeq_bool x (inject_Z y)
  | VFloat x, VFloat y => Qeq_bool x y
  | VStr x, VStr y => String.eqb x y
  | VDatetime x, VDatetime y => Z.eqb x y
  | VDict xs, VDict ys =>
      (fix go (xs ys : list (string * value)) : bool :=
         match xs, ys with
         | [], [] => true
         | (k, x) :: xs', (k', y) :: ys' =>
             String.eqb k k' && value_eqb x y && go xs' ys'
         | _, _ => false
         end) xs ys
  | VList xs, VList ys =>
      (fix go (xs ys : list value) : bool :=
         match xs, ys with
         | [], [] => true
         | x :: xs', y :: ys' => value_eqb x y && go xs' ys'
         | _, _ => false
         end) xs ys
  | _, _ => false
  end.

(** Python's [==].  It differs from the store's equality on booleans,
    which Python counts as the numbers 0 and 1.  (Python compares dicts
    regardless of key order; the handlers never compare two dicts.) *)
Definition py_number (v : value) : option Q :=
  match v with
  | VBool b => Some (if b then 1%Q else 0%Q)
  | VInt z => Some (inject_Z z)
  | VFloat q => Some q
  | _ => None
  end.

Definition py_eqb (a b : value) : bool :=
  match py_number a, py_number b with
  | Some x, Some y => Qeq_bool x y
  | None, None => value_eqb a b
  | _, _ => false
  end.

(** [type(v).__name__] *)
Definition type_name (v : value) : string :=
  match v with
  | VNone => "NoneType"
  | VBool _ => "bool"
  | VInt _ => "int"
  | VFloat _ => "float"
  | VStr _ => "str"
  | VDatetime _ => "datetime.datetime"
  | VDict _ => "dict"
  | VList _ => "list"
  end.

(** ** [datetime]: [isoformat] and [timedelta.days] *)

Definition digit (z : Z) : string :=
  String (ascii_of_N (Z.to_N (48 + z mod 10))) "".

(** [z] written with exactly [n] decimal digits. *)
Fixpoint pad (n : nat) (z : Z) : string :=
  match n with
  | O => ""
  | S n' => pad n' (z / 10) ++ digit z
  end.

Definition usec_per_sec : Z := 1000000.
Definition usec_per_day : Z := 86400 * usec_per_sec.

(** Year, month and day of the day numbered [days] from 1970-01-01. *)
Definition civil_from_days (days : Z) : Z * Z * Z :=
  let z := days + 719468 in
  let era := z / 146097 in
  let doe := z - era * 146097 in
  let yoe := (doe - doe / 1460 + doe / 36524 - doe / 146096) / 365 in
  let doy := doe - (365 * yoe + yoe / 4 - yoe / 100) in
  let mp := (5 * doy + 2) / 153 in
  let d := doy - (153 * mp + 2) / 5 + 1 in
  let m := if Z.ltb mp 10 then mp + 3 else mp - 9 in
  let y := yoe + era * 400 + (if Z.leb m 2 then 1 else 0) in
  (y, m, d).

(** [datetime.isoformat()] of an aware UTC datetime. *)
Definition isoformat (t : Z) : string :=
  let secs := t / usec_per_sec in
  let us := t mod usec_per_sec in
  let '(y, m, d) := civil_from_days (secs / 86400) in
  let sod := secs mod 86400 in
  pad 4 y ++ "-" ++ pad 2 m ++ "-" ++ pad 2 d ++ "T"
    ++ pad 2 (sod / 3600) ++ ":" ++ pad 2 (sod mod 3600 / 60) ++ ":"
    ++ pad 2 (sod mod 60)
    ++ (if Z.eqb us 0 then "" else "." ++ pad 6 us)
    ++ "+00:00".

(** [timedelta.days]: timedeltas are normalised so that the seconds and
    microseconds are non-negative, hence [days] is the floor. *)
Definition timedelta_days (delta : Z) : Z := delta / usec_per_day.

(** ** The document store

    The store is an external collaborator; it is modelled by the
    operations the handlers call.  A collection is the list of its
    documents in insertion order. *)

(** The store's comparison order on values of different types
    (null < numbers < strings < objects < arrays < booleans < dates). *)
Definition type_rank (v : value) : Z :=
  match v with
  | VNone => 1
  | VInt _ | VFloat _ => 2
  | VStr _ => 3
  | VDict _ => 4
  | VList _ => 5
  | VBool _ => 8
  | VDatetime _ => 9
  end.

Definition number_of (v : value) : Q :=
  match v with
  | VInt z => inject_Z z
  | VFloat q => q
  | _ => 0%Q
  end.

(** [value_leb a b]: [a] sorts no later than [b].  Strings compare byte
    by byte.  Two objects, or two arrays, are not told apart: no field
    the handlers sort or compare on holds one. *)
Definition value_leb (a b : value) : bool :=
  if Z.ltb (type_rank a) (type_rank b) then true
  else if Z.ltb (type_rank b) (type_rank a) then false
  else match a, b with
       | VStr x, VStr y => String.leb x y
       | VBool x, VBool y => implb x y
       | VDatetime x, VDatetime y => Z.leb x y
       | (VInt _ | VFloat _), (VInt _ | VFloat _) =>
           Qle_bool (number_of a) (number_of b)
       | _, _ => true
       end.

Definition value_ltb (a b : value) : bool := negb (value_leb b a).

Inductive cond : Type :=
| Eq (v : value)      (* {field: v} *)
| Gte (v : value).    (* {field: {"$gte": v}} *)

Abbreviation query := (list (string * cond)).

(** A missing field matches an equality with null and nothing else; a
    comparison operator only matches values of the operand's type.  (The
    store also lets an array field match a value it contains; no field
    the handlers query on holds an array.) *)
Definition cond_holds (d : doc) (k : string) (c : cond) : bool :=
  match c, d !! k with
  | Eq v, Some x => value_eqb x v
  | Eq v, None => value_eqb VNone v
  | Gte v, Some x => Z.eqb (type_rank x) (type_rank v) && value_leb v x
  | Gte v, None => false
  end.

Definition doc_matches (q : query) (d : doc) : bool :=
  forallb (fun kc => cond_holds d kc.1 kc.2) q.

Definition find (q : query) (coll : list doc) : list doc :=
  List.filter (doc_matches q) coll.

Definition find_one (q : query) (coll : list doc) : option doc :=
  head (find q coll).

(** The sort key of a document: a missing field sorts as null. *)
Definition sort_key (field : string) (d : doc) : value :=
  default VNone (d !! field).

(** [.sort(field, -1)]: a stable insertion sort, largest key first. *)
Fixpoint insert_desc (field : string) (x : doc) (l : list doc) : list doc :=
  match l with
  | [] => [x]
  | y :: l' =>
      if value_ltb (sort_key field x) (sort_key field y)
      then y :: insert_desc field x l'
      else x :: l
  end.

Definition sort_desc (field : string) (l : list doc) : list doc :=
  foldr (insert_desc field) [] l.

(** [.to_list(n)] *)
Definition to_list (n : nat) (l : list doc) : list doc := take n l.

(** [{"$set": upd}] on one document: the fields of [upd] win. *)
Definition apply_set (upd d : doc) : doc := upd ∪ d.

(** [update_one(q, {"$set": upd})]: the first matching document is
    updated; the result is the new collection and [matched_count]. *)
Fixpoint update_one (q : query) (upd : doc) (coll : list doc) : list doc * nat :=
  match coll with
  | [] => ([], O)
  | d :: coll' =>
      if doc_matches q d then (apply_set upd d :: coll', 1%nat)
      else let '(coll'', n) := update_one q upd coll' in (d :: coll'', n)
  end.

Definition insert_one (d : doc) (coll : list doc) : list doc := coll ++ [d].

Record Database : Type := mkDatabase {
  users : list doc;
  reports : list doc;
  shelters : list doc;
  ai_updates : list doc;
  sessions : list doc
}.

(** ** Exceptions and the world *)

Inductive exn : Type :=
| HTTPException (status_code : Z) (detail : string)
| TypeError (msg : string)
| AttributeError (msg : string)
| KeyError (key : string)
| IndexError (msg : string)
| ValidationError (msg : string)
| RequestException (msg : string)
| JSONDecodeError (msg : string)
| OverflowError (msg : string).

(** [str(e)] *)
Definition exn_str (e : exn) : string :=
  match e with
  | HTTPException c d => pad 3 c ++ ": " ++ d
  | KeyError k => "'" ++ k ++ "'"
  | TypeError m | AttributeError m | IndexError m | ValidationError m
  | RequestException m | JSONDecodeError m | OverflowError m => m
  end.

Inductive result (A : Type) : Type :=
| Ok (a : A)
| Raise (e : exn).
Arguments Ok {A} a.
Arguments Raise {A} e.

(** What [requests.get] does on the session-exchange endpoint: the call
    fails, or a response comes back whose body may or may not be JSON. *)
Inductive http_reply : Type :=
| ConnectionFailed
| Response (status_code : Z) (json : option value).

Record World : Type := mkWorld {
  db : Database;
  environ : gmap string string;          (* os.environ *)
  clock : nat -> Z;                      (* successive datetime.now readings *)
  ticks : nat;
  uuid_source : nat -> string;           (* successive uuid4 draws *)
  drawn : nat;
  emergent_auth : string -> http_reply   (* reply for an X-Session-ID *)
}.

Definition set_db (f : Database -> Database) (w : World) : World :=
  mkWorld (f (db w)) (environ w) (clock w) (ticks w) (uuid_source w) (drawn w)
          (emergent_auth w).

Definition set_users (f : list doc -> list doc) (d : Database) : Database :=
  mkDatabase (f (users d)) (reports d) (shelters d) (ai_updates d) (sessions d).
Definition set_reports (f : list doc -> list doc) (d : Database) : Database :=
  mkDatabase (users d) (f (reports d)) (shelters d) (ai_updates d) (sessions d).
Definition set_ai_updates (f : list doc -> list doc) (d : Database) : Database :=
  mkDatabase (users d) (reports d) (shelters d) (f (ai_updates d)) (sessions d).
Definition set_sessions (f : list doc -> list doc) (d : Database) : Database :=
  mkDatabase (users d) (reports d) (shelters d) (ai_updates d) (f (sessions d)).

(** ** The handler monad: state and exceptions *)

Definition M (A : Type) : Type := World -> result A * World.

Definition ret {A} (a : A) : M A := fun w => (Ok a, w).

Definition bind {A B} (m : M A) (k : A -> M B) : M B :=
  fun w => match m w with
           | (Ok a, w') => k a w'
           | (Raise e, w') => (Raise e, w')
           end.

Definition raise {A} (e : exn) : M A := fun w => (Raise e, w).

(** [try: m except Exception as e: h e] *)
Definition try_except {A} (m : M A) (h : exn -> M A) : M A :=
  fun w => match m w with
           | (Raise e, w') => h e w'
           | r => r
           end.

Definition gets {A} (f : World -> A) : M A := fun w => (Ok (f w), w).
Definition modify (f : World -> World) : M unit := fun w => (Ok tt, f w).

Declare Scope handler_scope.
Delimit Scope handler_scope with handler.
Notation "x <- m ;; k" := (bind m (fun x => k))
  (at level 100, m at next level, right associativity) : handler_scope.
Notation "m ;;; k" := (bind m (fun _ => k))
  (at level 100, right associativity) : handler_scope.
Local Open Scope handler_scope.

(** [datetime.now(timezone.utc)] *)
Definition datetime_now : M Z :=
  fun w => (Ok (clock w (ticks w)),
            mkWorld (db w) (environ w) (clock w) (S (ticks w)) (uuid_source w)
                    (drawn w) (emergent_auth w)).

(** [str(uuid.uuid4())] *)
Definition uuid4 : M string :=
  fun w => (Ok (uuid_source w (drawn w)),
            mkWorld (db w) (environ w) (clock w) (ticks w) (uuid_source w)
                    (S (drawn w)) (emergent_auth w)).

(** [d[k]] on a document *)
Definition getitem (d : doc) (k : string) : M value :=
  match d !! k with
  | Some v => ret v
  | None => raise (KeyError k)
  end.

(** [d.get(k, dflt)] on a document *)
Definition get_default (d : doc) (k : string) (dflt : value) : value :=
  default dflt (d !! k).

(** Monadic iteration over a list, in order. *)
Fixpoint for_each {A} (l : list A) (body : A -> M unit) : M unit :=
  match l with
  | [] => ret tt
  | x :: l' => body x ;;; for_each l' body
  end.

(** [datetime.now(timezone.utc) - v] for a value [v] read from the
    store.  The left operand is aware.  A stored datetime comes back
    naive, and Python refuses to subtract a naive datetime from an aware
    one; nothing else the store holds can be subtracted from a datetime.
    So the subtraction raises for every stored value. *)
Definition datetime_sub (now : Z) (v : value) : M Z :=
  match v with
  | VDatetime _ =>
      raise (TypeError "can't subtract offset-naive and offset-aware datetimes")
  | _ => raise (TypeError ("unsupported operand type(s) for -: 'datetime.datetime' and '"
                           ++ type_name v ++ "'"))
  end.

(** [datetime.timedelta(days=n)] as [server.py] writes it.  The module
    imports [from datetime import datetime, timezone], so [datetime] is
    the class [datetime.datetime]; it has no attribute [timedelta] and the
    attribute lookup raises. *)
Definition datetime_timedelta (days : Z) : M Z :=
  raise (AttributeError "type object 'datetime.datetime' has no attribute 'timedelta'").

(** [not d] for the result of [find_one]: [None] and the empty dict. *)
Definition not_doc (o : option doc) : bool :=
  match o with
  | None => true
  | Some d => Nat.eqb (size d) 0
  end.

(** Store operations as handler steps. *)
Definition db_find_one (coll : Database -> list doc) (q : query) : M (option doc) :=
  gets (fun w => find_one q (coll (db w))).

Definition db_insert_one (set : (list doc -> list doc) -> Database -> Database)
    (d : doc) : M unit :=
  modify (set_db (set (insert_one d))).

Definition db_update_one (coll : Database -> list doc)
    (set : (list doc -> list doc) -> Database -> Database)
    (q : query) (upd : doc) : M nat :=
  fun w => let '(coll', n) := update_one q upd (coll (db w)) in
           (Ok n, set_db (set (fun _ => coll')) w).

(** ** Session authentication *)

Definition verify_session (authorization : option string) : M value :=
  match authorization with
  | None => raise (HTTPException 401 "No authorization token provided")
  | Some session_token =>
      session <- db_find_one sessions [("session_token", Eq (VStr session_token))] ;;
      if not_doc session
      then raise (HTTPException 401 "Invalid session token")
      else
        let session := default ∅ session in
        let created_at := get_default session "created_at" VNone in
        expired <- (if truthy created_at
                    then now <- datetime_now ;;
                         age <- datetime_sub now created_at ;;
                         ret (Z.ltb 7 (timedelta_days age))
                    else ret false) ;;
        if (expired : bool)
        then raise (HTTPException 401 "Session expired")
        else getitem session "user_id"
  end.

Definition verify_admin (user_id : value) : M value :=
  user <- db_find_one users [("id", Eq user_id)] ;;
  if not_doc user
     || negb (py_eqb (from_option (fun u => get_default u "role" VNone) VNone user)
                     (VStr "admin"))
  then raise (HTTPException 403 "Admin access required")
  else ret user_id.

(** ** [prepare_for_mongo] *)

(** [prepare_for_mongo] on a nested value: a dict is rebuilt with its
    datetimes written in ISO form, anything else is returned as it is. *)
Fixpoint prepare_nested (data : value) : value :=
  match data with
  | VDict kvs =>
      VDict (List.map
               (fun kv =>
                  match kv with
                  | (key, v) =>
                      (key,
                       match v with
                       | VDatetime t => VStr (isoformat t)
                       | VDict _ => prepare_nested v
                       | VList items =>
                           VList (List.map
                                    (fun item =>
                                       match item with
                                       | VDict _ | VDatetime _ => prepare_nested item
                                       | _ => item
                                       end) items)
                       | _ => v
                       end)
                  end) kvs)
  | _ => data
  end.

(** What [prepare_for_mongo] does to one value of the dict it is given. *)
Definition prepare_field (v : value) : value :=
  match v with
  | VDatetime t => VStr (isoformat t)
  | VDict _ => prepare_nested v
  | VList items =>
      VList (List.map
               (fun item =>
                  match item with
                  | VDict _ | VDatetime _ => prepare_nested item
                  | _ => item
                  end) items)
  | _ => v
  end.

Definition prepare_for_mongo (data : doc) : doc := prepare_field <$> data.

(** ** The pydantic models

    A model is a record of its declared fields; a field typed
    [Optional[...] = None] is an [option].  A request body that names no
    value for such a field, or names null, validates to [None]; keys that
    the model does not declare are dropped (no model of [server.py] sets
    [extra]).  A [Dict[str, float]] is an association list of
    rationals. *)

Definition opt_value {A} (inj : A -> value) (o : option A) : value :=
  from_option inj VNone o.

Definition float_dict (d : list (string * Q)) : value :=
  VDict (List.map (fun kv => (kv.1, VFloat kv.2)) d).

Module User.
Record t : Type := mk {
    id : string;
    email : string;
    name : string;
    picture : option string;
    preferred_city : option string;
    role : string;
    created_at : Z;
    last_seen_at : Z
  }.

Definition dict (u : t) : doc :=
    list_to_map
      [("id", VStr (id u)); ("email", VStr (email u)); ("name", VStr (name u));
       ("picture", opt_value VStr (picture u));
       ("preferred_city", opt_value VStr (preferred_city u));
       ("role", VStr (role u));
       ("created_at", VDatetime (created_at u));
       ("last_seen_at", VDatetime (last_seen_at u))].
End User.

Module ReportCreate.
Record t : Type := mk {
    title : string;
    description : string;
    location : list (string * Q);
    address : option string;
    city : option string;
    country : option string;
    image_url : option string;
    severity : string
  }.
End ReportCreate.

Module Report.
Record t : Type := mk {
    id : string;
    reporter_id : string;
    title : string;
    description : string;
    location : list (string * Q);
    address : option string;
    city : option string;
    country : option string;
    image_url : option string;
    severity : string;
    ai_severity_score : option Q;
    status : string;
    created_at : Z;
    updated_at : Z;
    ai_auto_flag : bool
  }.

Definition dict (r : t) : doc :=
    list_to_map
      [("id", VStr (id r)); ("reporter_id", VStr (reporter_id r));
       ("title", VStr (title r)); ("description", VStr (description r));
       ("location", float_dict (location r));
       ("address", opt_value VStr (address r));
       ("city", opt_value VStr (city r));
       ("country", opt_value VStr (country r));
       ("image_url", opt_value VStr (image_url r));
       ("severity", VStr (severity r));
       ("ai_severity_score", opt_value VFloat (ai_severity_score r));
       ("status", VStr (status r));
       ("created_at", VDatetime (created_at r));
       ("updated_at", VDatetime (updated_at r));
       ("ai_auto_flag", VBool (ai_auto_flag r))].
End Report.

Module ReportUpdate.
Record t : Type := mk {
    status : string;
    ai_severity_score : option Q;
    ai_auto_flag : option bool
  }.

Definition dict (u : t) : doc :=
    list_to_map
      [("status", VStr (status u));
       ("ai_severity_score", opt_value VFloat (ai_severity_score u));
       ("ai_auto_flag", opt_value VBool (ai_auto_flag u))].
End ReportUpdate.

Module AIUpdate.
Record t : Type := mk {
    id : string;
    region : string;
    region_name : string;
    summary : string;
    severity_data : list value;
    last_run_at : Z
  }.

Definition dict (a : t) : doc :=
    list_to_map
      [("id", VStr (id a)); ("region", VStr (region a));
       ("region_name", VStr (region_name a)); ("summary", VStr (summary a));
       ("severity_data", VList (severity_data a));
       ("last_run_at", VDatetime (last_run_at a))].
End AIUpdate.

(** *** Request bodies *)

(** The value a handler passes to a [str] field of a model it builds
    itself. *)
Definition as_str (v : value) : option string :=
  match v with VStr s => Some s | _ => None end.

(** The framework validates the JSON body against the model of the
    route before the handler runs, and answers 422 when that fails.
    [body] is the outcome of the validation: the model, or [None]. *)
Definition request_body {A} (body : option A) : M A :=
  match body with
  | Some a => ret a
  | None => raise (HTTPException 422 "Unprocessable Entity")
  end.

(** ** Login: [POST /auth/session] *)

(** [requests.get(url, headers={"X-Session-ID": session_id})] *)
Definition requests_get (session_id : string) : M (Z * option value) :=
  fun w => match emergent_auth w session_id with
           | ConnectionFailed => (Raise (RequestException "connection failed"), w)
           | Response status_code json => (Ok (status_code, json), w)
           end.

(** [response.json()] *)
Definition response_json (json : option value) : M value :=
  match json with
  | Some v => ret v
  | None => raise (JSONDecodeError "Expecting value")
  end.

Fixpoint assoc (k : string) (kvs : list (string * value)) : option value :=
  match kvs with
  | [] => None
  | (k', v) :: kvs' => if String.eqb k k' then Some v else assoc k kvs'
  end.

(** [v[k]] on a decoded JSON value, for a str [k]. *)
Definition subscript (v : value) (k : string) : M value :=
  match v with
  | VDict kvs => match assoc k kvs with
                 | Some x => ret x
                 | None => raise (KeyError k)
                 end
  | VList _ => raise (TypeError "list indices must be integers or slices, not str")
  | VStr _ => raise (TypeError "string indices must be integers")
  | _ => raise (TypeError ("'" ++ type_name v ++ "' object is not subscriptable"))
  end.

(** [v.get(k)] on a value that [subscript] has shown to be a dict. *)
Definition dict_get (v : value) (k : string) : value :=
  match v with
  | VDict kvs => default VNone (assoc k kvs)
  | _ => VNone
  end.

Definition validated {A} (o : option A) (what : string) : M A :=
  match o with
  | Some a => ret a
  | None => raise (ValidationError what)
  end.

(** [User(email=..., name=..., picture=...)]: the default factories run,
    then the three given values are checked. *)
Definition User_new (email name picture : value) : M User.t :=
  id <- uuid4 ;;
  created_at <- datetime_now ;;
  last_seen_at <- datetime_now ;;
  email <- validated (as_str email) "email" ;;
  name <- validated (as_str name) "name" ;;
  picture <- validated (match picture with
                        | VNone => Some None
                        | VStr s => Some (Some s)
                        | _ => None
                        end) "picture" ;;
  ret (User.mk id email name picture None "user" created_at last_seen_at).

Definition process_session (session_id : string) : M (string * option doc) :=
  try_except
    (response <- requests_get session_id ;;
     if negb (Z.eqb response.1 200)
     then raise (HTTPException 401 "Invalid session")
     else
       user_data <- response_json response.2 ;;
       email <- subscript user_data "email" ;;
       existing_user <- db_find_one users [("email", Eq email)] ;;
       user_id <- (if not_doc existing_user
                   then
                     email <- subscript user_data "email" ;;
                     name <- subscript user_data "name" ;;
                     new_user <- User_new email name (dict_get user_data "picture") ;;
                     db_insert_one set_users (prepare_for_mongo (User.dict new_user)) ;;;
                     ret (VStr (User.id new_user))
                   else
                     user_id <- getitem (default ∅ existing_user) "id" ;;
                     now <- datetime_now ;;
                     db_update_one users set_users [("id", Eq user_id)]
                       {[ "last_seen_at" := VStr (isoformat now) ]} ;;;
                     ret user_id) ;;
       uuid <- uuid4 ;;
       let session_token := "session_" ++ uuid in
       now <- datetime_now ;;
       db_insert_one set_sessions
         (list_to_map [("session_token", VStr session_token);
                       ("user_id", user_id);
                       ("created_at", VStr (isoformat now))]) ;;;
       user <- db_find_one users [("id", Eq user_id)] ;;
       ret (session_token, user))
    (fun e => raise (HTTPException 500 "Session processing failed")).

(** ** Reports *)

(** The [Report] built from [report_data], which is [report.dict()] with
    [reporter_id] added: every field that [ReportCreate] does not have
    takes its default. *)
Definition Report_new (report : ReportCreate.t) (reporter_id : value) : M Report.t :=
  id <- uuid4 ;;
  created_at <- datetime_now ;;
  updated_at <- datetime_now ;;
  reporter_id <- validated (as_str reporter_id) "reporter_id" ;;
  ret (Report.mk id reporter_id
         (ReportCreate.title report) (ReportCreate.description report)
         (ReportCreate.location report) (ReportCreate.address report)
         (ReportCreate.city report) (ReportCreate.country report)
         (ReportCreate.image_url report) (ReportCreate.severity report)
         None "pending" created_at updated_at false).

Definition create_report (report : ReportCreate.t) (user_id : value) : M Report.t :=
  new_report <- Report_new report user_id ;;
  let report_dict := prepare_for_mongo (Report.dict new_report) in
  db_insert_one set_reports report_dict ;;;
  ret new_report.

(** [if s:] for an optional str query parameter. *)
Definition given (s : option string) : bool :=
  match s with
  | Some x => negb (String.eqb x "")
  | None => false
  end.

Definition get_reports (city status : option string) : M (list doc) :=
  let query : query := [] in
  let query := if given city then (query ++ [("city", Eq (opt_value VStr city))])%list else query in
  let query := if given status then (query ++ [("status", Eq (opt_value VStr status))])%list else query in
  gets (fun w => to_list 1000 (sort_desc "created_at" (find query (reports (db w))))).

Definition is_not_none (v : value) : bool :=
  match v with VNone => false | _ => true end.

Definition update_report (report_id : string) (update : ReportUpdate.t)
    (user_id : value) : M doc :=
  let update_data : doc :=
    filter (fun kv => is_not_none kv.2 = true) (ReportUpdate.dict update) in
  now <- datetime_now ;;
  let update_data := <[ "updated_at" := VStr (isoformat now) ]> update_data in
  matched_count <- db_update_one reports set_reports
                     [("id", Eq (VStr report_id))] update_data ;;
  if Nat.eqb matched_count 0
  then raise (HTTPException 404 "Report not found")
  else ret {[ "message" := VStr "Report updated successfully" ]}.

(** *** The routes with their dependencies *)

(** [POST /reports]: [Depends(verify_session)], then the body. *)
Definition post_reports (authorization : option string)
    (body : option ReportCreate.t) : M Report.t :=
  user_id <- verify_session authorization ;;
  report <- request_body body ;;
  create_report report user_id.

(** [PUT /reports/{report_id}]: [Depends(verify_admin)], then the body. *)
Definition put_report (authorization : option string) (report_id : string)
    (body : option ReportUpdate.t) : M doc :=
  user_id <- verify_session authorization ;;
  user_id <- verify_admin user_id ;;
  update <- request_body body ;;
  update_report report_id update user_id.

(** ** The aggregation stub: [POST /ai/analyze] *)

(** [os.environ.get(k)] *)
Definition environ_get (k : string) : M (option string) :=
  gets (fun w => environ w !! k).

(** [f"{v}"] for the values a [city] field holds in a document written by
    the application (a str or null); a boolean and an int are formatted
    too.  Any other value is cut to its type name: the only string built
    from it is then dropped, [AIUpdate] refusing a [region_name] that is
    not a str. *)
Definition format_value (v : value) : string :=
  match v with
  | VStr s => s
  | VNone => "None"
  | VBool b => if b then "True" else "False"
  | VInt z => pretty z
  | _ => type_name v
  end.

(** A dict key has to be hashable. *)
Definition hashable (v : value) : bool :=
  match v with
  | VDict _ | VList _ => false
  | _ => true
  end.

(** [city_reports], a dict from a city to its reports, in insertion
    order. *)
Abbreviation groups := (list (value * list doc)).

(** [if city not in city_reports: city_reports[city] = []] followed by
    [city_reports[city].append(report)]. *)
Fixpoint group_append (city_reports : groups) (city : value) (report : doc) : groups :=
  match city_reports with
  | [] => [(city, [report])]
  | (c, rs) :: rest =>
      if py_eqb c city then (c, (rs ++ [report])%list) :: rest
      else (c, rs) :: group_append rest city report
  end.

Fixpoint group_by_city (city_reports : groups) (recent_reports : list doc) : M groups :=
  match recent_reports with
  | [] => ret city_reports
  | report :: rest =>
      let city := get_default report "city" (VStr "Unknown") in
      if hashable city
      then group_by_city (group_append city_reports city report) rest
      else raise (TypeError ("unhashable type: '" ++ type_name city ++ "'"))
  end.

(** The mock response: [severity_score] and the [critical_incidents]. *)
Definition severity_score : Q := 6 # 10.

(** [AIUpdate(region="city", region_name=city, summary=..., severity_data=...)] *)
Definition AIUpdate_new (region : string) (region_name : value) (summary : string)
    (severity_data : list value) : M AIUpdate.t :=
  id <- uuid4 ;;
  last_run_at <- datetime_now ;;
  region_name <- validated (as_str region_name) "region_name" ;;
  ret (AIUpdate.mk id region region_name summary severity_data last_run_at).

(** The body of [for city, reports in city_reports.items()]; it returns
    the AIUpdate that is appended to the local list [ai_updates]. *)
Definition analyze_city (city : value) (reports_of_city : list doc) : M AIUpdate.t :=
  (* reports_text: every report is read for its title, description and severity *)
  for_each reports_of_city
    (fun report => getitem report "title" ;;; getitem report "description" ;;;
                   getitem report "severity" ;;; ret tt) ;;;
  first_title <- match reports_of_city with
                 | report :: _ => getitem report "title"
                 | [] => raise (IndexError "list index out of range")
                 end ;;
  let critical_incidents :=
    [VDict [("title", first_title); ("severity", VStr "moderate"); ("priority", VInt 1)]] in
  let summary := "Monitoring " ++ pretty (length reports_of_city) ++ " incidents in "
                 ++ format_value city ++ ". Situation under control." in
  ai_update <- AIUpdate_new "city" city summary critical_incidents ;;
  db_insert_one set_ai_updates (prepare_for_mongo (AIUpdate.dict ai_update)) ;;;
  for_each reports_of_city
    (fun report =>
       id <- getitem report "id" ;;
       now <- datetime_now ;;
       db_update_one reports set_reports [("id", Eq id)]
         (list_to_map [("ai_severity_score", VFloat severity_score);
                       ("ai_auto_flag", VBool (negb (Qle_bool severity_score (7 # 10))));
                       ("updated_at", VStr (isoformat now))]) ;;;
       ret tt) ;;;
  ret ai_update.

Fixpoint analyze_cities (city_reports : groups) (ai_updates : list AIUpdate.t)
  : M (list AIUpdate.t) :=
  match city_reports with
  | [] => ret ai_updates
  | (city, reports_of_city) :: rest =>
      ai_update <- analyze_city city reports_of_city ;;
      analyze_cities rest (ai_updates ++ [ai_update])%list
  end.

Definition trigger_ai_analysis (user_id : value) : M doc :=
  try_except
    (emergent_key <- environ_get "EMERGENT_LLM_KEY" ;;
     if negb (given emergent_key)
     then raise (HTTPException 500 "AI service not configured")
     else
       now <- datetime_now ;;
       one_day <- datetime_timedelta 1 ;;
       recent_reports <-
         gets (fun w => to_list 100
                          (find [("created_at", Gte (VStr (isoformat (now - one_day))))]
                                (reports (db w)))) ;;
       match recent_reports with
       | [] => ret {[ "message" := VStr "No recent reports to analyze" ]}
       | _ :: _ =>
           city_reports <- group_by_city [] recent_reports ;;
           ai_updates <- analyze_cities city_reports [] ;;
           ret (list_to_map
                  [("message", VStr "AI analysis completed");
                   ("cities_analyzed", VInt (Z.of_nat (length city_reports)));
                   ("updates_created", VInt (Z.of_nat (length ai_updates)))])
       end)
    (fun e => raise (HTTPException 500 ("AI analysis failed: " ++ exn_str e))).

(** [POST /ai/analyze] with [Depends(verify_admin)]. *)
Definition post_ai_analyze (authorization : option string) : M doc :=
  user_id <- verify_session authorization ;;
  user_id <- verify_admin user_id ;;
  trigger_ai_analysis user_id.

(** ** The dashboard aggregator: [GET /dashboard/data] *)

Record buckets : Type := mkBuckets {
  city_critical : list doc;
  city_moderate : list doc;
  city_low : list doc;
  world_critical : list doc;
  world_moderate : list doc;
  world_low : list doc
}.

Definition no_buckets : buckets := mkBuckets [] [] [] [] [] [].

(** The compact projection of a report. *)
Definition item_of (report : doc) : M doc :=
  id <- getitem report "id" ;;
  title <- getitem report "title" ;;
  let city := get_default report "city" (VStr "Unknown") in
  let country := get_default report "country" (VStr "Unknown") in
  severity <- getitem report "severity" ;;
  created_at <- getitem report "created_at" ;;
  location <- getitem report "location" ;;
  ret (list_to_map [("id", id); ("title", title); ("city", city);
                    ("country", country); ("severity", severity);
                    ("created_at", created_at); ("location", location)]).

(** One turn of [for report in reports]. *)
Definition categorize (b : buckets) (report : doc) : M buckets :=
  item <- item_of report ;;
  severity <- getitem report "severity" ;;
  if py_eqb severity (VStr "critical")
  then ret (mkBuckets (city_critical b ++ [item]) (city_moderate b) (city_low b)
                      (world_critical b ++ [item]) (world_moderate b) (world_low b))
  else if py_eqb severity (VStr "moderate")
  then ret (mkBuckets (city_critical b) (city_moderate b ++ [item]) (city_low b)
                      (world_critical b) (world_moderate b ++ [item]) (world_low b))
  else ret (mkBuckets (city_critical b) (city_moderate b) (city_low b ++ [item])
                      (world_critical b) (world_moderate b) (world_low b ++ [item])).

Fixpoint categorize_all (b : buckets) (rs : list doc) : M buckets :=
  match rs with
  | [] => ret b
  | report :: rest => b' <- categorize b report ;; categorize_all b' rest
  end.

Record severity_lists : Type := mkSeverityLists {
  critical : list doc;
  moderate : list doc;
  low : list doc
}.

Record dashboard : Type := mkDashboard {
  dash_reports : list doc;
  dash_shelters : list doc;
  dash_ai_updates : list doc;
  city_data : severity_lists;
  world_data : severity_lists;
  last_ai_update : value
}.

Definition get_dashboard_data : M dashboard :=
  reports <- gets (fun w => to_list 100 (sort_desc "created_at" (find [] (reports (db w))))) ;;
  shelters <- gets (fun w => to_list 100 (find [] (shelters (db w)))) ;;
  ai_updates <- gets (fun w => to_list 20 (sort_desc "last_run_at" (find [] (ai_updates (db w))))) ;;
  b <- categorize_all no_buckets reports ;;
  last <- match ai_updates with
          | latest :: _ => getitem latest "last_run_at"
          | [] => ret VNone
          end ;;
  ret (mkDashboard reports shelters ai_updates
         (mkSeverityLists (take 5 (city_critical b)) (take 5 (city_moderate b))
                          (take 5 (city_low b)))
         (mkSeverityLists (take 5 (world_critical b)) (take 5 (world_moderate b))
                          (take 5 (world_low b)))
         last).

(** ** A small deployment, used to run the handlers *)

Definition example_clock (n : nat) : Z := 1700000000000000 + Z.of_nat n * 1000.

Definition example_uuid (n : nat) : string := "uuid-" ++ pretty n.

(** The session-exchange service knows the session id [good]; it is
    unreachable for [down] and answers 401 to anything else. *)
Definition example_auth (session_id : string) : http_reply :=
  if String.eqb session_id "good"
  then Response 200 (Some (VDict [("email", VStr "ada@example.org");
                                  ("name", VStr "Ada")]))
  else if String.eqb session_id "down" then ConnectionFailed
  else Response 401 None.

Definition empty_db : Database := mkDatabase [] [] [] [] [].

Definition world0 : World :=
  mkWorld empty_db {[ "EMERGENT_LLM_KEY" := "sk-test" ]} example_clock 0
          example_uuid 0 example_auth.

Definition example_report : ReportCreate.t :=
  ReportCreate.mk "Flood" "Water rising" [("lat", 48.85%Q); ("lng", 2.35%Q)]
                  None (Some "Paris") (Some "France") None "critical".

(** [world0] after the user [user-1] has filed [example_report]. *)
Definition world1 : World := (create_report example_report (VStr "user-1") world0).2.

(** ** Notions used in the statements *)

(** What [trigger_ai_analysis] raises when [datetime.timedelta] fails. *)
Definition analysis_failure : exn :=
  HTTPException 500
    "AI analysis failed: type object 'datetime.datetime' has no attribute 'timedelta'".

(** The query the handler means to run: the reports whose [created_at]
    is at most one day before the reading [now] of the clock. *)
Definition recent_reports_at (now : Z) (w : World) : list doc :=
  to_list 100 (find [("created_at", Gte (VStr (isoformat (now - usec_per_day))))]
                    (reports (db w))).

(** The three severity buckets, and the bucket of a [severity] value:
    anything that is neither "critical" nor "moderate" is low. *)
Inductive severity_class : Type := Critical | Moderate | Low.

#[global] Instance severity_class_eq_dec : EqDecision severity_class.
Proof. solve_decision. Defined.

Definition classify (severity : value) : severity_class :=
  if py_eqb severity (VStr "critical") then Critical
  else if py_eqb severity (VStr "moderate") then Moderate
  else Low.

Definition class_of (report : doc) : option severity_class :=
  classify <$> report !! "severity".

(** The compact projection as a partial function: it is undefined on a
    document that lacks one of the five fields read with [report[...]]. *)
Definition project (report : doc) : option doc :=
  id ← report !! "id";
  title ← report !! "title";
  severity ← report !! "severity";
  created_at ← report !! "created_at";
  location ← report !! "location";
  Some (list_to_map [("id", id); ("title", title);
                     ("city", get_default report "city" (VStr "Unknown"));
                     ("country", get_default report "country" (VStr "Unknown"));
                     ("severity", severity); ("created_at", created_at);
                     ("location", location)]).

(** The projections of the reports of class [c], in the order of [rs]. *)
Definition bucket (c : severity_class) (rs : list doc) : list doc :=
  omap project (filter (fun r => class_of r = Some c) rs).

Definition city_bucket (c : severity_class) (b : buckets) : list doc :=
  match c with
  | Critical => city_critical b
  | Moderate => city_moderate b
  | Low => city_low b
  end.

Definition world_bucket (c : severity_class) (b : buckets) : list doc :=
  match c with
  | Critical => world_critical b
  | Moderate => world_moderate b
  | Low => world_low b
  end.

Definition severity_list (c : severity_class) (l : severity_lists) : list doc :=
  match c with
  | Critical => critical l
  | Moderate => moderate l
  | Low => low l
  end.

(** The reports the dashboard fetches. *)
Definition fetched_reports (w : World) : list doc :=
  to_list 100 (sort_desc "created_at" (find [] (reports (db w)))).

Definition fetched_ai_updates (w : World) : list doc :=
  to_list 20 (sort_desc "last_run_at" (find [] (ai_updates (db w)))).

(** The effect of one turn of the loop on the six lists. *)
Definition place (b : buckets) (c : severity_class) (item : doc) : buckets :=
  match c with
  | Critical =>
      mkBuckets (city_critical b ++ [item]) (city_moderate b) (city_low b)
                (world_critical b ++ [item]) (world_moderate b) (world_low b)
  | Moderate =>
      mkBuckets (city_critical b) (city_moderate b ++ [item]) (city_low b)
                (world_critical b) (world_moderate b ++ [item]) (world_low b)
  | Low =>
      mkBuckets (city_critical b) (city_moderate b) (city_low b ++ [item])
                (world_critical b) (world_moderate b) (world_low b ++ [item])
  end.

(** [a] comes no later than [b] in a listing sorted on [field], largest
    key first. *)
Definition desc_on (field : string) (a b : doc) : Prop :=
  value_leb (sort_key field b) (sort_key field a) = true.

(** The store can be shown on the dashboard: every stored report has the
    fields the projection reads, and the latest AI update, if there is
    one, has its [last_run_at]. *)
Definition dashboard_readable (w : World) : Prop :=
  Forall (fun r => is_Some (project r)) (reports (db w))
  /\ match fetched_ai_updates w with
     | latest :: _ => is_Some (latest !! "last_run_at")
     | [] => True
     end.

(** The record [create_report] builds for the caller [caller] in the
    world [w]: the next uuid and the next two readings of the clock. *)
Definition new_report_at (report : ReportCreate.t) (caller : string) (w : World)
  : Report.t :=
  Report.mk (uuid_source w (drawn w)) caller
    (ReportCreate.title report) (ReportCreate.description report)
    (ReportCreate.location report) (ReportCreate.address report)
    (ReportCreate.city report) (ReportCreate.country report)
    (ReportCreate.image_url report) (ReportCreate.severity report)
    None "pending" (clock w (ticks w)) (clock w (S (ticks w))) false.

(** [world0] after a report that names no city has been filed. *)
Definition world_no_city : World :=
  (create_report
     (ReportCreate.mk "Landslide" "Road blocked" [("lat", 45.9%Q); ("lng", 6.9%Q)]
                      None None None None "low")
     (VStr "user-1") world0).2.

(** [n] users file [example_report], one after the other. *)
Fixpoint file_reports (n : nat) (w : World) : World :=
  match n with
  | O => w
  | S n' => (create_report example_report (VStr "user-1") (file_reports n' w)).2
  end.

Definition world7 : World := file_reports 7 world0.

(** [world1] with an administrator and a user.  The sessions
    [tok-admin] and [tok-user] have no [created_at]; the user has two more
    sessions, [tok-old] with a datetime eight days back and [tok-login]
    with the text that a login stores. *)
Definition example_users : list doc :=
  [list_to_map [("id", VStr "admin-1"); ("email", VStr "root@example.org");
                ("name", VStr "Root"); ("role", VStr "admin")];
   list_to_map [("id", VStr "user-1"); ("email", VStr "ada@example.org");
                ("name", VStr "Ada"); ("role", VStr "user")]].

Definition example_sessions : list doc :=
  [list_to_map [("session_token", VStr "tok-admin"); ("user_id", VStr "admin-1")];
   list_to_map [("session_token", VStr "tok-user"); ("user_id", VStr "user-1")];
   list_to_map [("session_token", VStr "tok-old"); ("user_id", VStr "user-1");
                ("created_at", VDatetime (example_clock 0 - 8 * usec_per_day))];
   list_to_map [("session_token", VStr "tok-login"); ("user_id", VStr "user-1");
                ("created_at", VStr (isoformat (example_clock 0 - usec_per_day)))]].

Definition world2 : World :=
  set_db (fun d => mkDatabase example_users (reports d) (shelters d) (ai_updates d)
                              example_sessions) world1.

(** A store whose five reports, all critical, were filed while the clock
    read a date in 2030; the clock now reads 2023. *)
Definition clock_2030 (n : nat) : Z := 1900000000000000 + Z.of_nat n * 1000.

Definition world_ahead : World :=
  mkWorld (db (file_reports 5
                 (mkWorld empty_db ∅ clock_2030 0 (fun n => "early-" ++ pretty n) 0
                          example_auth)))
          {[ "EMERGENT_LLM_KEY" := "sk-test" ]} example_clock 0 example_uuid 0
          example_auth.

(** The fields an admin update can write. *)
Definition updated_fields : list string :=
  ["status"; "ai_severity_score"; "ai_auto_flag"; "updated_at"].

(** An update that sets the status and names no score and no flag. *)
Definition example_update : ReportUpdate.t := ReportUpdate.mk "validated" None None.

(** An update that sets the status and the score, and names no flag. *)
Definition example_rescore : ReportUpdate.t :=
  ReportUpdate.mk "resolved" (Some (9 # 10)) None.

(** The listing as the specification words it: exactly the stored
    reports whose fields equal the filter values that are supplied,
    sorted on [created_at], latest first. *)
Definition exact_match (w : World) (city status : option string) (r : doc) : Prop :=
  r ∈ reports (db w)
  /\ (forall c, city = Some c -> r !! "city" = Some (VStr c))
  /\ (forall s, status = Some s -> r !! "status" = Some (VStr s)).

Definition listing_as_specified (w : World) (city status : option string)
    (result : list doc) : Prop :=
  (forall r, r ∈ result <-> exact_match w city status r)
  /\ StronglySorted (desc_on "created_at") result.

(** The listing as the handler computes it: a filter that is absent or
    the empty string holds of every report. *)
Definition filter_holds (f : option string) (k : string) (r : doc) : bool :=
  match f with
  | Some c =>
      if String.eqb c "" then true
      else match r !! k with
           | Some (VStr x) => String.eqb x c
           | _ => false
           end
  | None => true
  end.

Definition matching (w : World) (city status : option string) : list doc :=
  List.filter (fun r => filter_holds city "city" r && filter_holds status "status" r)
              (reports (db w)).

(** A store with 1001 reports, filed while the clock stands still: they
    all bear the same [created_at]. *)
Definition world_frozen : World :=
  mkWorld empty_db {[ "EMERGENT_LLM_KEY" := "sk-test" ]}
          (fun _ => 1700000000000000) 0 example_uuid 0 example_auth.

Definition world1001 : World := file_reports 1001 world_frozen.

(** [m] never changes the observation [obs] of the world. *)
Definition keeps {A X} (obs : World -> X) (m : M A) : Prop :=
  forall w, obs (m w).2 = obs w.

(** ** The other routes of [server.py] *)

Definition set_shelters (f : list doc -> list doc) (d : Database) : Database :=
  mkDatabase (users d) (reports d) (f (shelters d)) (ai_updates d) (sessions d).

(** [delete_many(q)] *)
Definition delete_many (q : query) (coll : list doc) : list doc :=
  List.filter (fun d => negb (doc_matches q d)) coll.

(** [DELETE /auth/logout]: every session of the user goes, not only the
    one presented. *)
Definition logout (user_id : value) : M doc :=
  modify (set_db (set_sessions (delete_many [("user_id", Eq user_id)]))) ;;;
  ret {[ "message" := VStr "Logged out successfully" ]}.

(** [GET /auth/me] *)
Definition get_current_user (user_id : value) : M doc :=
  user <- db_find_one users [("id", Eq user_id)] ;;
  if not_doc user
  then raise (HTTPException 404 "User not found")
  else ret (default ∅ user).

(** [GET /users] *)
Definition get_users (user_id : value) : M (list doc) :=
  gets (fun w => to_list 1000 (find [] (users (db w)))).

(** [GET /reports/{report_id}] *)
Definition get_report (report_id : string) : M doc :=
  report <- db_find_one reports [("id", Eq (VStr report_id))] ;;
  if not_doc report
  then raise (HTTPException 404 "Report not found")
  else ret (default ∅ report).

Module ShelterCreate.
Record t : Type := mk {
  name : string;
  location : list (string * Q);
  capacity : Z;
  contact : string;
  type : string
}.
End ShelterCreate.

Module Shelter.
Record t : Type := mk {
  id : string;
  name : string;
  location : list (string * Q);
  capacity : Z;
  contact : string;
  type : string;
  created_at : Z
}.

Definition dict (s : t) : doc :=
  list_to_map
    [("id", VStr (id s)); ("name", VStr (name s));
     ("location", float_dict (location s)); ("capacity", VInt (capacity s));
     ("contact", VStr (contact s)); ("type", VStr (type s));
     ("created_at", VDatetime (created_at s))].
End Shelter.

(** The [Shelter] built from [shelter.dict()]: [id] and [created_at] take
    their defaults. *)
Definition Shelter_new (shelter : ShelterCreate.t) : M Shelter.t :=
  id <- uuid4 ;;
  created_at <- datetime_now ;;
  ret (Shelter.mk id (ShelterCreate.name shelter) (ShelterCreate.location shelter)
         (ShelterCreate.capacity shelter) (ShelterCreate.contact shelter)
         (ShelterCreate.type shelter) created_at).

(** The store keeps an int in eight bytes. *)
Definition int64 (z : Z) : bool := Z.leb (- 2 ^ 63) z && Z.ltb z (2 ^ 63).

(** [POST /shelters].  A Python int has no bound, and [capacity] is the
    one int that a handler takes from a request into a document:
    [insert_one] encodes the document before it sends it, and raises on
    an int that does not fit. *)
Definition create_shelter (shelter : ShelterCreate.t) (user_id : value) : M Shelter.t :=
  new_shelter <- Shelter_new shelter ;;
  let shelter_dict := prepare_for_mongo (Shelter.dict new_shelter) in
  (if int64 (Shelter.capacity new_shelter)
   then db_insert_one set_shelters shelter_dict
   else raise (OverflowError "MongoDB can only handle up to 8-byte ints")) ;;;
  ret new_shelter.

(** [GET /shelters] *)
Definition get_shelters : M (list doc) :=
  gets (fun w => to_list 1000 (find [] (shelters (db w)))).

(** [GET /ai/updates] *)
Definition get_ai_updates (region : option string) : M (list doc) :=
  let query : query := [] in
  let query := if given region
               then (query ++ [("region", Eq (opt_value VStr region))])%list
               else query in
  gets (fun w => to_list 50 (sort_desc "last_run_at" (find query (ai_updates (db w))))).

(** [GET /] and [GET /health] *)
Definition root : M doc := ret {[ "message" := VStr "DisasterDash API v1.0" ]}.

Definition health_check : M doc :=
  now <- datetime_now ;;
  ret (list_to_map [("status", VStr "healthy"); ("timestamp", VStr (isoformat now))]).

(** The routes with their dependencies. *)
Definition delete_logout (authorization : option string) : M doc :=
  user_id <- verify_session authorization ;;
  logout user_id.

Definition get_me (authorization : option string) : M doc :=
  user_id <- verify_session authorization ;;
  get_current_user user_id.

Definition get_users_route (authorization : option string) : M (list doc) :=
  user_id <- verify_session authorization ;;
  user_id <- verify_admin user_id ;;
  get_users user_id.

Definition post_shelters (authorization : option string)
    (body : option ShelterCreate.t) : M Shelter.t :=
  user_id <- verify_session authorization ;;
  user_id <- verify_admin user_id ;;
  shelter <- request_body body ;;
  create_shelter shelter user_id.

(** ** More small deployments *)

(** The user document has the role "admin". *)
Definition is_admin (usr : doc) : bool :=
  match usr !! "role" with
  | Some (VStr r) => String.eqb r "admin"
  | _ => false
  end.

(** The user [process_session] creates for an email it does not know,
    in the world [w]: the next uuid and the next two readings of the
    clock. *)
Definition new_user_at (email name : string) (picture : option string) (w : World)
  : User.t :=
  User.mk (uuid_source w (drawn w)) email name picture None "user"
          (clock w (ticks w)) (clock w (S (ticks w))).

(** The session document [process_session] stores. *)
Definition session_doc (token : string) (user_id : value) (created_at : Z) : doc :=
  list_to_map [("session_token", VStr token); ("user_id", user_id);
               ("created_at", VStr (isoformat created_at))].

(** [m] only draws further uuids from the same source. *)
Definition advances {A} (m : M A) : Prop :=
  forall w, (drawn w <= drawn (m w).2)%nat /\ uuid_source (m w).2 = uuid_source w.

(** When [m] raises, the store is as it was. *)
Definition quiet_fail {A} (m : M A) : Prop :=
  forall w e, (m w).1 = Raise e -> db (m w).2 = db w.

Definition never_raises {A} (m : M A) : Prop :=
  forall w, exists a, (m w).1 = Ok a.

(** The record [create_shelter] builds in the world [w]. *)
Definition new_shelter_at (shelter : ShelterCreate.t) (w : World) : Shelter.t :=
  Shelter.mk (uuid_source w (drawn w)) (ShelterCreate.name shelter)
             (ShelterCreate.location shelter) (ShelterCreate.capacity shelter)
             (ShelterCreate.contact shelter) (ShelterCreate.type shelter)
             (clock w (ticks w)).

Definition example_shelter : ShelterCreate.t :=
  ShelterCreate.mk "Town hall" [("lat", 48.85%Q); ("lng", 2.35%Q)] 300
                   "+33-1-00-00-00-00" "flood".

(** The AI updates of a region, as [get_ai_updates] selects them. *)
Definition matching_updates (w : World) (region : option string) : list doc :=
  List.filter (fun a => filter_holds region "region" a) (ai_updates (db w)).

(** The five fields the dashboard reads with [report[...]]. *)
Definition projected_fields : list string :=
  ["id"; "title"; "severity"; "created_at"; "location"].

(** [world1] with a second report, newer than the first, that has no
    title. *)
Definition world_untitled : World :=
  set_db (set_reports
            (fun rs => (rs ++ [list_to_map
                                 [("id", VStr "r-2"); ("severity", VStr "low");
                                  ("created_at", VStr "2024-01-01T00:00:00+00:00");
                                  ("location", VDict [])]])%list))
         world1.

(** The city under which the aggregation groups a report. *)
Definition city_of (report : doc) : value := get_default report "city" (VStr "Unknown").

(** Each group is not empty and holds reports of the group's city only;
    no two groups have the same city. *)
Definition well_grouped (g : groups) : Prop :=
  Forall (fun cg => cg.2 <> [] /\ Forall (fun r => py_eqb cg.1 (city_of r) = true) cg.2) g
  /\ ForallOrdPairs (fun cg cg' => py_eqb cg.1 cg'.1 = false) g.

Definition grouped_reports (g : groups) : list doc := concat (g.*2).

(** The three fields the aggregation writes into a report, a report that
    carries them, and what one pass of the patching may do to a stored
    report: nothing outside the three fields, and a patched report stays
    patched. *)
Definition patched_fields : list string :=
  ["ai_severity_score"; "ai_auto_flag"; "updated_at"].

Definition patched (d : doc) : Prop :=
  d !! "ai_severity_score" = Some (VFloat severity_score)
  /\ d !! "ai_auto_flag" = Some (VBool false)
  /\ exists t, d !! "updated_at" = Some (VStr (isoformat t)).

Definition patch_step (d d' : doc) : Prop :=
  (forall k, k ∉ patched_fields -> d' !! k = d !! k) /\ (patched d -> patched d').

(** A report the loop body can read. *)
Definition analysable (r : doc) : Prop :=
  is_Some (r !! "title") /\ is_Some (r !! "description")
  /\ is_Some (r !! "severity") /\ is_Some (r !! "id").

(** The [$set] the aggregation sends for each report of a group. *)
Definition score_patch (now : Z) : doc :=
  list_to_map [("ai_severity_score", VFloat severity_score);
               ("ai_auto_flag", VBool (negb (Qle_bool severity_score (7 # 10))));
               ("updated_at", VStr (isoformat now))].

(** * Properties *)

Local Open Scope list_scope.

(** ** [isoformat] on known dates *)

Example isoformat_epoch : isoformat 0 = "1970-01-01T00:00:00+00:00".
Proof. reflexivity. Qed.

Example isoformat_2023 :
  isoformat 1700000000123456 = "2023-11-14T22:13:20.123456+00:00".
Proof. reflexivity. Qed.

Example isoformat_leap : isoformat (1709164800 * 1000000) = "2024-02-29T00:00:00+00:00".
Proof. reflexivity. Qed.

(** ** Running a handler *)

Lemma bind_ok {A B} (m : M A) (k : A -> M B) w a w' :
  m w = (Ok a, w') -> bind m k w = k a w'.
Proof. intros H. unfold bind. by rewrite H. Qed.

Lemma bind_gets {A B} (f : World -> A) (k : A -> M B) w :
  bind (gets f) k w = k (f w) w.
Proof. reflexivity. Qed.

Lemma bind_inv_ok {A B} (m : M A) (k : A -> M B) w b w'' :
  bind m k w = (Ok b, w'') ->
  exists a w', m w = (Ok a, w') /\ k a w' = (Ok b, w'').
Proof.
  unfold bind. destruct (m w) as [[a|e] w'] eqn:E; [eauto | discriminate].
Qed.

(** ** The store *)

Lemma value_eqb_str_r (x : value) (s : string) :
  value_eqb x (VStr s) = true <-> x = VStr s.
Proof.
  split.
  - destruct x; simpl; try discriminate. intros H. f_equal. by apply String.eqb_eq.
  - intros ->. simpl. apply String.eqb_refl.
Qed.

Lemma cond_holds_eq_str (d : doc) (k s : string) :
  cond_holds d k (Eq (VStr s)) = true <-> d !! k = Some (VStr s).
Proof.
  unfold cond_holds. destruct (d !! k) as [x|].
  - rewrite value_eqb_str_r. split; congruence.
  - simpl. split; discriminate.
Qed.

Lemma find_one_Some (q : query) (coll : list doc) (d : doc) :
  find_one q coll = Some d -> doc_matches q d = true /\ d ∈ coll.
Proof.
  unfold find_one, find. intros H.
  assert (Hin : In d (List.filter (doc_matches q) coll)).
  { destruct (List.filter (doc_matches q) coll); simplify_eq/=. by left. }
  apply filter_In in Hin as [Hin Hm]. split; [done | by apply list_elem_of_In].
Qed.

Lemma lookup_Some_size_ne (d : doc) (k : string) (v : value) :
  d !! k = Some v -> Nat.eqb (size d) 0 = false.
Proof.
  intros H. apply Nat.eqb_neq. intros Hs.
  apply map_size_empty_iff in Hs. subst d. by rewrite lookup_empty in H.
Qed.

(** ** Session verification *)

Lemma session_found_truthy (coll : list doc) (token : string) (session : doc) :
  find_one [("session_token", Eq (VStr token))] coll = Some session ->
  not_doc (Some session) = false.
Proof.
  intros H. apply find_one_Some in H as [Hm _].
  unfold doc_matches in Hm. simpl in Hm. rewrite andb_true_r in Hm.
  apply cond_holds_eq_str in Hm. simpl. by eapply lookup_Some_size_ne.
Qed.

(** A session whose [created_at] is missing or falsy is not checked for
    its age: it verifies and yields its [user_id]. *)
Lemma verify_session_undated (w : World) (token : string) (session : doc)
    (user_id : value) :
  find_one [("session_token", Eq (VStr token))] (sessions (db w)) = Some session ->
  truthy (get_default session "created_at" VNone) = false ->
  session !! "user_id" = Some user_id ->
  verify_session (Some token) w = (Ok user_id, w).
Proof.
  intros Hf Hc Hu. unfold verify_session, db_find_one, gets, bind.
  rewrite Hf, (session_found_truthy _ _ _ Hf).
  change (default ∅ (Some session)) with session. cbv zeta.
  rewrite Hc. unfold ret, getitem. by rewrite Hu.
Qed.

(** A session whose [created_at] is truthy never verifies: the
    subtraction raises [TypeError] before the age is looked at. *)
Lemma verify_session_dated (w : World) (token : string) (session : doc) :
  find_one [("session_token", Eq (VStr token))] (sessions (db w)) = Some session ->
  truthy (get_default session "created_at" VNone) = true ->
  exists msg, (verify_session (Some token) w).1 = Raise (TypeError msg).
Proof.
  intros Hf Hc. unfold verify_session, db_find_one, gets, bind.
  rewrite Hf, (session_found_truthy _ _ _ Hf).
  change (default ∅ (Some session)) with session. cbv zeta.
  rewrite Hc. unfold datetime_now, datetime_sub.
  destruct (get_default session "created_at" VNone); eexists; reflexivity.
Qed.

(** Seven days and one second is still seven whole days; eight days is
    eight. *)
Example seven_days_one_second :
  timedelta_days (7 * usec_per_day + usec_per_sec) = 7
  /\ timedelta_days (8 * usec_per_day) = 8.
Proof. split; reflexivity. Qed.

(** On [world2]: the session without [created_at] verifies, the session
    with a stored datetime and the session with the text of a login both
    raise [TypeError], an unknown token and a missing header are
    refused. *)
Example verify_session_on_world2 :
  (verify_session (Some "tok-user") world2).1 = Ok (VStr "user-1")
  /\ (verify_session (Some "tok-old") world2).1
     = Raise (TypeError "can't subtract offset-naive and offset-aware datetimes")
  /\ (verify_session (Some "tok-login") world2).1
     = Raise (TypeError
                "unsupported operand type(s) for -: 'datetime.datetime' and 'str'")
  /\ (verify_session (Some "tok-unknown") world2).1
     = Raise (HTTPException 401 "Invalid session token")
  /\ (verify_session None world2).1
     = Raise (HTTPException 401 "No authorization token provided").
Proof. repeat split; vm_compute; reflexivity. Qed.

(** A stored [created_at] that is a non-empty str makes the subtraction
    raise [TypeError], whatever the age of the session. *)
Lemma verify_session_str_created_at (w : World) (token : string) (session : doc)
    (s : string) :
  find_one [("session_token", Eq (VStr token))] (sessions (db w)) = Some session ->
  session !! "created_at" = Some (VStr s) ->
  s <> "" ->
  (verify_session (Some token) w).1 =
    Raise (TypeError "unsupported operand type(s) for -: 'datetime.datetime' and 'str'").
Proof.
  intros Hf Hc Hs. unfold verify_session, db_find_one, gets, bind.
  rewrite Hf, (session_found_truthy _ _ _ Hf). simpl.
  unfold get_default. rewrite Hc. simpl.
  apply String.eqb_neq in Hs. rewrite Hs. reflexivity.
Qed.

(** ** Frame properties: what a step leaves alone *)

Lemma keeps_run {A X} (obs : World -> X) (m : M A) w r w' :
  keeps obs m -> m w = (r, w') -> obs w' = obs w.
Proof. intros H E. specialize (H w). by rewrite E in H. Qed.

Lemma keeps_ret {A X} (obs : World -> X) (a : A) : keeps obs (ret a).
Proof. by intros w. Qed.

Lemma keeps_raise {A X} (obs : World -> X) (e : exn) : keeps obs (@raise A e).
Proof. by intros w. Qed.

Lemma keeps_gets {A X} (obs : World -> X) (f : World -> A) : keeps obs (gets f).
Proof. by intros w. Qed.

Lemma keeps_bind {A B X} (obs : World -> X) (m : M A) (k : A -> M B) :
  keeps obs m -> (forall a, keeps obs (k a)) -> keeps obs (bind m k).
Proof.
  intros Hm Hk w. unfold bind. specialize (Hm w).
  destruct (m w) as [[a|e] w1]; simpl in *; [|done].
  by rewrite Hk.
Qed.

Lemma keeps_try_except {A X} (obs : World -> X) (m : M A) (h : exn -> M A) :
  keeps obs m -> (forall e, keeps obs (h e)) -> keeps obs (try_except m h).
Proof.
  intros Hm Hh w. unfold try_except. specialize (Hm w).
  destruct (m w) as [[a|e] w1]; simpl in *; [done|].
  by rewrite Hh.
Qed.

Lemma keeps_if {A X} (obs : World -> X) (b : bool) (m1 m2 : M A) :
  keeps obs m1 -> keeps obs m2 -> keeps obs (if b then m1 else m2).
Proof. by destruct b. Qed.

Lemma keeps_for_each {A X} (obs : World -> X) (l : list A) (body : A -> M unit) :
  (forall a, keeps obs (body a)) -> keeps obs (for_each l body).
Proof.
  intros H. induction l as [|x l IH]; simpl; [apply keeps_ret|].
  apply keeps_bind; [apply H | by intros _].
Qed.

Lemma keeps_db_now {X} (f : Database -> X) : keeps (fun w => f (db w)) datetime_now.
Proof. by intros w. Qed.

Lemma keeps_db_uuid4 {X} (f : Database -> X) : keeps (fun w => f (db w)) uuid4.
Proof. by intros w. Qed.

Lemma keeps_requests_get {X} (obs : World -> X) sid : keeps obs (requests_get sid).
Proof. intros w. unfold requests_get. by destruct (emergent_auth w sid). Qed.

Lemma keeps_getitem {X} (obs : World -> X) d k : keeps obs (getitem d k).
Proof. intros w. unfold getitem. by destruct (d !! k). Qed.

Lemma keeps_subscript {X} (obs : World -> X) v k : keeps obs (subscript v k).
Proof.
  intros w. unfold subscript. destruct v; try done. by destruct (assoc k kvs).
Qed.

Lemma keeps_response_json {X} (obs : World -> X) json : keeps obs (response_json json).
Proof. intros w. by destruct json. Qed.

Lemma keeps_db_find_one {X} (obs : World -> X) coll q : keeps obs (db_find_one coll q).
Proof. by intros w. Qed.

Lemma keeps_validated {A X} (obs : World -> X) (o : option A) what :
  keeps obs (validated o what).
Proof. intros w. by destruct o. Qed.

Lemma keeps_datetime_sub {X} (obs : World -> X) now v : keeps obs (datetime_sub now v).
Proof. intros w. by destruct v. Qed.

Create HintDb keeps.

#[local] Hint Resolve keeps_ret keeps_raise keeps_gets keeps_db_now keeps_db_uuid4
  keeps_requests_get keeps_getitem keeps_subscript keeps_validated
  keeps_response_json keeps_db_find_one
  keeps_datetime_sub : keeps.

Ltac keeps_step :=
  first [ apply keeps_bind; [|intros ?]
        | apply keeps_if
        | apply keeps_try_except; [|intros ?]
        | apply keeps_for_each; intros ?
        | solve [auto with keeps]
        | done ].

Lemma keeps_sessions_users_insert d :
  keeps (fun w => sessions (db w)) (db_insert_one set_users d).
Proof. by intros w. Qed.

Lemma keeps_sessions_users_update q upd :
  keeps (fun w => sessions (db w)) (db_update_one users set_users q upd).
Proof.
  intros w. unfold db_update_one. by destruct (update_one q upd (users (db w))).
Qed.

Lemma keeps_sessions_User_new email name picture :
  keeps (fun w => sessions (db w)) (User_new email name picture).
Proof. unfold User_new. repeat keeps_step. Qed.

#[local] Hint Resolve keeps_sessions_users_insert keeps_sessions_users_update
  keeps_sessions_User_new : keeps.

(** The verification steps read the store and the clock; they write
    nothing to the store. *)
Lemma keeps_db_verify_session {X} (f : Database -> X) authorization :
  keeps (fun w => f (db w)) (verify_session authorization).
Proof.
  unfold verify_session. destruct authorization; [|auto with keeps].
  repeat keeps_step.
Qed.

Lemma keeps_db_verify_admin {X} (f : Database -> X) user_id :
  keeps (fun w => f (db w)) (verify_admin user_id).
Proof. unfold verify_admin. repeat keeps_step. Qed.

(** ** Login stores the session's [created_at] as an ISO string *)

Lemma append_nonempty_r (a b : string) : b <> "" -> (a ++ b)%string <> "".
Proof. intros Hb. destruct a; simpl; [done | discriminate]. Qed.

Lemma isoformat_nonempty (t : Z) : isoformat t <> "".
Proof.
  unfold isoformat. destruct (civil_from_days _) as [[y m] d].
  repeat (apply append_nonempty_r). discriminate.
Qed.

Lemma find_one_app_new (q : query) (coll : list doc) (d : doc) :
  find_one q coll = None -> doc_matches q d = true ->
  find_one q (coll ++ [d]) = Some d.
Proof.
  unfold find_one, find. intros Hn Hm. rewrite List.filter_app. simpl. rewrite Hm.
  destruct (List.filter (doc_matches q) coll); [done | discriminate].
Qed.

Lemma requests_get_ok sid w r w' : requests_get sid w = (Ok r, w') -> w' = w.
Proof. unfold requests_get. destruct (emergent_auth w sid); congruence. Qed.

Lemma process_session_ok_session (sid : string) (w : World) token user :
  (process_session sid w).1 = Ok (token, user) ->
  exists user_id now,
    sessions (db (process_session sid w).2) =
      (sessions (db w) ++
         [list_to_map [("session_token", VStr token); ("user_id", user_id);
                       ("created_at", VStr (isoformat now))]])%list.
Proof.
  unfold process_session, try_except.
  match goal with |- context [match ?m w with _ => _ end] =>
    destruct (m w) as [[r|e] w'] eqn:E end; simpl; [|discriminate].
  intros [= ->].
  set (obs := fun w : World => sessions (db w)).
  change (exists user_id now, obs w' =
    (obs w ++ [list_to_map [("session_token", VStr token); ("user_id", user_id);
                            ("created_at", VStr (isoformat now))]])%list).
  apply bind_inv_ok in E as (resp & w1 & E1 & E).
  apply requests_get_ok in E1 as ->.
  destruct (negb _); [discriminate|].
  apply bind_inv_ok in E as (user_data & w1 & E1 & E).
  apply (keeps_run obs) in E1; [rewrite <- E1; clear E1 | auto with keeps].
  apply bind_inv_ok in E as (email & w2 & E1 & E).
  apply (keeps_run obs) in E1; [rewrite <- E1; clear E1 | auto with keeps].
  apply bind_inv_ok in E as (existing & w3 & E1 & E).
  apply (keeps_run obs) in E1; [rewrite <- E1; clear E1 | auto with keeps].
  apply bind_inv_ok in E as (user_id & w4 & E1 & E).
  apply (keeps_run obs) in E1; [rewrite <- E1; clear E1 |].
  2:{ unfold obs. repeat keeps_step. }
  apply bind_inv_ok in E as (uuid & w5 & E1 & E).
  apply (keeps_run obs) in E1; [rewrite <- E1; clear E1 | apply keeps_db_uuid4].
  apply bind_inv_ok in E as (now & w6 & E1 & E).
  apply (keeps_run obs) in E1; [rewrite <- E1; clear E1 | apply keeps_db_now].
  apply bind_inv_ok in E as ([] & w7 & E1 & E).
  apply bind_inv_ok in E as (u & w8 & E2 & E).
  apply (keeps_run obs) in E2; [| auto with keeps].
  injection E as <- <- <-. rewrite E2.
  injection E1 as <-. exists user_id, now. reflexivity.
Qed.

(** C1 (session expiry), on the sessions the application creates.
    [process_session] stores [created_at] as an ISO string, so the
    subtraction in [verify_session] raises [TypeError] for the token a
    successful login has just returned, whatever the age of the session:
    the verification neither succeeds nor answers 401. *)
Theorem login_session_fails_verification (w : World) (sid token : string)
    (user : option doc) :
  (process_session sid w).1 = Ok (token, user) ->
  find_one [("session_token", Eq (VStr token))] (sessions (db w)) = None ->
  (verify_session (Some token) (process_session sid w).2).1 =
    Raise (TypeError "unsupported operand type(s) for -: 'datetime.datetime' and 'str'").
Proof.
  intros Hok Hfresh.
  destruct (process_session_ok_session _ _ _ _ Hok) as (user_id & now & Hs).
  eapply verify_session_str_created_at.
  - rewrite Hs. apply find_one_app_new; [done|].
    unfold doc_matches. simpl. rewrite andb_true_r.
    apply cond_holds_eq_str. reflexivity.
  - reflexivity.
  - apply isoformat_nonempty.
Qed.

Lemma login_session_fails_verification_witness :
  (verify_session (Some "session_uuid-1") (process_session "good" world0).2).1 =
    Raise (TypeError "unsupported operand type(s) for -: 'datetime.datetime' and 'str'").
Proof.
  apply (login_session_fails_verification world0 "good" "session_uuid-1"
           (head (users (db (process_session "good" world0).2))));
    vm_compute; reflexivity.
Defined.

(** ** Login: the failure statuses *)

(** C6 (login failures), the non-200 half.  The 401 that the handler
    raises for a non-200 reply is raised inside the [try] block, whose
    [except Exception] clause catches it: the request is answered with
    500 "Session processing failed", not with 401, and nothing is
    written. *)
Theorem process_session_non_200_is_500 (w : World) (sid : string) (status : Z)
    (json : option value) :
  emergent_auth w sid = Response status json ->
  status <> 200 ->
  process_session sid w = (Raise (HTTPException 500 "Session processing failed"), w).
Proof.
  intros Hr Hs. unfold process_session, try_except, bind, requests_get.
  rewrite Hr. simpl. apply Z.eqb_neq in Hs. rewrite Hs. reflexivity.
Qed.

Lemma process_session_non_200_is_500_witness :
  process_session "expired-id" world0 =
    (Raise (HTTPException 500 "Session processing failed"), world0).
Proof.
  apply (process_session_non_200_is_500 world0 "expired-id" 401 None);
    [reflexivity | lia].
Defined.

(** The other half of C6 holds: a call that fails at the network level,
    and a 200 reply whose body is not JSON, are answered with 500. *)
Lemma process_session_network_failure (w : World) (sid : string) :
  emergent_auth w sid = ConnectionFailed ->
  process_session sid w = (Raise (HTTPException 500 "Session processing failed"), w).
Proof.
  intros Hr. unfold process_session, try_except, bind, requests_get.
  rewrite Hr. reflexivity.
Qed.

Lemma process_session_parse_failure (w : World) (sid : string) :
  emergent_auth w sid = Response 200 None ->
  process_session sid w = (Raise (HTTPException 500 "Session processing failed"), w).
Proof.
  intros Hr. unfold process_session, try_except, bind, requests_get.
  rewrite Hr. reflexivity.
Qed.

(** Whatever goes wrong in [process_session], the status is 500. *)
Lemma process_session_raises_only_500 (w : World) (sid : string) (e : exn) :
  (process_session sid w).1 = Raise e ->
  e = HTTPException 500 "Session processing failed".
Proof.
  unfold process_session, try_except.
  match goal with |- context [match ?m w with _ => _ end] =>
    destruct (m w) as [[r|e'] w'] end; simpl; congruence.
Qed.

(** ** The aggregation stub *)

(** With the credential configured, every run of [trigger_ai_analysis]
    stops at [datetime.timedelta]: the clock has been read once, the store
    is as it was, and the [except] clause turns the [AttributeError] into
    a 500. *)
Lemma trigger_ai_analysis_raises (w : World) (user_id : value) :
  given (environ w !! "EMERGENT_LLM_KEY") = true ->
  (trigger_ai_analysis user_id w).1 = Raise analysis_failure
  /\ db (trigger_ai_analysis user_id w).2 = db w.
Proof.
  intros Hk. unfold trigger_ai_analysis, try_except, bind, environ_get, gets.
  rewrite Hk. simpl. done.
Qed.

(** C7 (nothing to analyse).  With the credential configured and no report
    of the last 24 hours, the run creates no AIUpdate record, but it is
    not the successful no-op of the specification: [datetime.timedelta]
    raises before the reports are fetched and the request is answered
    with 500. *)
Theorem trigger_ai_analysis_no_recent_reports (w : World) (user_id : value) :
  given (environ w !! "EMERGENT_LLM_KEY") = true ->
  recent_reports_at (clock w (ticks w)) w = [] ->
  (trigger_ai_analysis user_id w).1 = Raise analysis_failure
  /\ ai_updates (db (trigger_ai_analysis user_id w).2) = ai_updates (db w).
Proof.
  intros Hk _. destruct (trigger_ai_analysis_raises w user_id Hk) as [H1 H2].
  by rewrite H1, H2.
Qed.

Lemma trigger_ai_analysis_no_recent_reports_witness :
  (trigger_ai_analysis (VStr "admin-1") world0).1 = Raise analysis_failure
  /\ ai_updates (db (trigger_ai_analysis (VStr "admin-1") world0).2)
     = ai_updates (db world0).
Proof.
  apply (trigger_ai_analysis_no_recent_reports world0 (VStr "admin-1"));
    vm_compute; reflexivity.
Defined.

(** C8 (one AIUpdate per city group, reports patched).  With the
    credential configured and a report of the last 24 hours in the store,
    the run is answered with 500 for the same reason: no AIUpdate record
    is persisted and no report is patched. *)
Theorem trigger_ai_analysis_recent_reports (w : World) (user_id : value) :
  given (environ w !! "EMERGENT_LLM_KEY") = true ->
  recent_reports_at (clock w (ticks w)) w <> [] ->
  (trigger_ai_analysis user_id w).1 = Raise analysis_failure
  /\ ai_updates (db (trigger_ai_analysis user_id w).2) = ai_updates (db w)
  /\ reports (db (trigger_ai_analysis user_id w).2) = reports (db w).
Proof.
  intros Hk _. destruct (trigger_ai_analysis_raises w user_id Hk) as [H1 H2].
  by rewrite H1, H2.
Qed.

(** Past the failing line, the loop body does what the specification
    says for a group whose city is a str: on [world1] the group of Paris
    gets one AIUpdate with [region] "city" and its report is patched with
    the score 0.6, the flag false and a new [updated_at].  A group of
    reports without a city is keyed by null (the key is there, so the
    default of [get] is not used), which [AIUpdate] refuses as
    [region_name]. *)
Example analyze_city_on_paris :
  let out := analyze_city (VStr "Paris") (reports (db world1)) world1 in
  ((fun d : doc => (d !! "region", d !! "region_name", d !! "summary"))
     <$> ai_updates (db out.2))
  = [(Some (VStr "city"), Some (VStr "Paris"),
      Some (VStr "Monitoring 1 incidents in Paris. Situation under control."))]
  /\ ((fun d : doc => (d !! "ai_severity_score", d !! "ai_auto_flag", d !! "updated_at"))
        <$> reports (db out.2))
     = [(Some (VFloat (6 # 10)), Some (VBool false),
         Some (VStr "2023-11-14T22:13:20.003000+00:00"))].
Proof. split; vm_compute; reflexivity. Qed.

Example analyze_city_without_city :
  (group_by_city [] (reports (db world_no_city)) world_no_city).1
  = Ok [(VNone, reports (db world_no_city))]
  /\ (analyze_city VNone (reports (db world_no_city)) world_no_city).1
     = Raise (ValidationError "region_name").
Proof. split; vm_compute; reflexivity. Qed.

Lemma trigger_ai_analysis_recent_reports_witness :
  length (recent_reports_at (clock world1 (ticks world1)) world1) = 1%nat
  /\ (trigger_ai_analysis (VStr "admin-1") world1).1 = Raise analysis_failure
  /\ ai_updates (db (trigger_ai_analysis (VStr "admin-1") world1).2)
     = ai_updates (db world1)
  /\ reports (db (trigger_ai_analysis (VStr "admin-1") world1).2) = reports (db world1).
Proof.
  split; [vm_compute; reflexivity|].
  apply (trigger_ai_analysis_recent_reports world1 (VStr "admin-1")).
  - vm_compute. reflexivity.
  - intros H. apply (f_equal length) in H. revert H. vm_compute. discriminate.
Defined.

(** ** The dashboard aggregator *)

Lemma getitem_ok (d : doc) (k : string) (v : value) w :
  d !! k = Some v -> getitem d k w = (Ok v, w).
Proof. intros H. unfold getitem. by rewrite H. Qed.

Lemma getitem_inv (d : doc) (k : string) (v : value) w w' :
  getitem d k w = (Ok v, w') -> d !! k = Some v /\ w' = w.
Proof.
  unfold getitem. destruct (d !! k); simpl; [|discriminate].
  unfold ret. by intros [= -> ->].
Qed.

Lemma item_of_ok (report item : doc) w :
  project report = Some item -> item_of report w = (Ok item, w).
Proof.
  unfold project, item_of. intros H.
  destruct (report !! "id") as [id|] eqn:E1; simpl in H; [|done].
  destruct (report !! "title") as [title|] eqn:E2; simpl in H; [|done].
  destruct (report !! "severity") as [severity|] eqn:E3; simpl in H; [|done].
  destruct (report !! "created_at") as [created_at|] eqn:E4; simpl in H; [|done].
  destruct (report !! "location") as [location|] eqn:E5; simpl in H; [|done].
  injection H as <-.
  unfold bind, getitem. rewrite E1, E2, E3, E4, E5. reflexivity.
Qed.

Lemma item_of_inv (report item : doc) w w' :
  item_of report w = (Ok item, w') -> project report = Some item /\ w' = w.
Proof.
  unfold project, item_of, bind, getitem.
  destruct (report !! "id") as [id|]; simpl; [|discriminate].
  destruct (report !! "title") as [title|]; simpl; [|discriminate].
  destruct (report !! "severity") as [severity|]; simpl; [|discriminate].
  destruct (report !! "created_at") as [created_at|]; simpl; [|discriminate].
  destruct (report !! "location") as [location|]; simpl; [|discriminate].
  unfold ret. by intros [= <- <-].
Qed.

(** A document has a projection exactly when it has a class. *)
Lemma project_class (report item : doc) :
  project report = Some item -> is_Some (class_of report).
Proof.
  unfold project, class_of. intros H.
  destruct (report !! "id"); simpl in H; [|done].
  destruct (report !! "title"); simpl in H; [|done].
  destruct (report !! "severity"); simpl in H; [|done].
  by eexists.
Qed.

Lemma categorize_ok (b : buckets) (report item : doc) (c : severity_class) w :
  project report = Some item -> class_of report = Some c ->
  categorize b report w = (Ok (place b c item), w).
Proof.
  intros Hp Hc. unfold categorize, bind. rewrite (item_of_ok _ _ _ Hp).
  unfold class_of in Hc. destruct (report !! "severity") as [sev|] eqn:E; [|done].
  injection Hc as <-. rewrite (getitem_ok _ _ _ _ E).
  unfold classify, place. by repeat case_match.
Qed.

Lemma categorize_inv (b b' : buckets) (report : doc) w w' :
  categorize b report w = (Ok b', w') ->
  exists item c, project report = Some item /\ class_of report = Some c
                 /\ b' = place b c item /\ w' = w.
Proof.
  intros H. pose proof H as H0. unfold categorize in H.
  apply bind_inv_ok in H as (item & w1 & H1 & _).
  apply item_of_inv in H1 as [Hp ->].
  destruct (project_class _ _ Hp) as [c Hc].
  rewrite (categorize_ok b _ _ c w Hp Hc) in H0. injection H0 as <- <-.
  by exists item, c.
Qed.

(** ** The store's order and its sort *)

Lemma string_leb_iff (a b : string) :
  String.leb a b = true <-> a = b \/ String_as_OT.lt a b.
Proof.
  unfold String.leb. rewrite <- String_as_OT.cmp_eq, <- String_as_OT.cmp_lt.
  unfold String_as_OT.cmp. destruct (String.compare a b); split; intros H;
    try done; auto. by destruct H.
Qed.

Lemma string_leb_trans (a b c : string) :
  String.leb a b = true -> String.leb b c = true -> String.leb a c = true.
Proof.
  rewrite !string_leb_iff. intros [->|H1] [->|H2]; auto.
  right. eapply String_as_OT.lt_trans; eauto.
Qed.

Lemma Qle_bool_total (x y : Q) : Qle_bool x y = false -> Qle_bool y x = true.
Proof.
  intros H. apply Qle_bool_iff. apply Qlt_le_weak, Qnot_le_lt.
  intros Hle. apply Qle_bool_iff in Hle. congruence.
Qed.

Lemma Qle_bool_trans (x y z : Q) :
  Qle_bool x y = true -> Qle_bool y z = true -> Qle_bool x z = true.
Proof. rewrite !Qle_bool_iff. apply Qle_trans. Qed.

Lemma value_leb_total (a b : value) : value_leb a b = false -> value_leb b a = true.
Proof.
  destruct a, b; unfold value_leb; simpl; try done;
    try apply Qle_bool_total.
  - destruct b, b0; done.
  - intros H. destruct (String.leb_total s s0) as [H'|H']; congruence.
  - intros H. apply Z.leb_gt in H. apply Z.leb_le. lia.
Qed.

Lemma value_leb_trans (a b c : value) :
  value_leb a b = true -> value_leb b c = true -> value_leb a c = true.
Proof.
  destruct a, b, c; unfold value_leb; simpl; try done;
    try apply Qle_bool_trans; try apply string_leb_trans.
  - destruct b, b0, b1; done.
  - rewrite !Z.leb_le. lia.
Qed.

Lemma value_ltb_leb (a b : value) : value_ltb a b = true -> value_leb a b = true.
Proof.
  unfold value_ltb. intros H. apply negb_true_iff in H. by apply value_leb_total.
Qed.

#[local] Instance desc_on_trans field : Transitive (desc_on field).
Proof. intros a b c H1 H2. unfold desc_on in *. eapply value_leb_trans; eauto. Qed.

Lemma find_nil (coll : list doc) : find [] coll = coll.
Proof.
  unfold find. induction coll as [|x l IH]; simpl; [done|]. by rewrite IH.
Qed.

Lemma insert_desc_Permutation field x l : insert_desc field x l ≡ₚ x :: l.
Proof.
  induction l as [|y l IH]; simpl; [done|].
  destruct (value_ltb _ _); [|done].
  rewrite IH. apply Permutation_swap.
Qed.

Lemma sort_desc_Permutation field l : sort_desc field l ≡ₚ l.
Proof.
  induction l as [|x l IH]; simpl; [done|].
  rewrite insert_desc_Permutation. by rewrite IH.
Qed.

Lemma insert_desc_HdRel field x y l :
  desc_on field y x -> HdRel (desc_on field) y l ->
  HdRel (desc_on field) y (insert_desc field x l).
Proof.
  intros Hyx Hl. destruct l as [|z l]; simpl; [by constructor|].
  inversion_clear Hl. destruct (value_ltb _ _); by constructor.
Qed.

Lemma insert_desc_Sorted field x l :
  Sorted (desc_on field) l -> Sorted (desc_on field) (insert_desc field x l).
Proof.
  induction 1 as [|y l Hs IH Hhd]; simpl; [by repeat constructor|].
  destruct (value_ltb (sort_key field x) (sort_key field y)) eqn:E.
  - constructor; [done|]. apply insert_desc_HdRel; [|done].
    unfold desc_on. by apply value_ltb_leb.
  - constructor; [by constructor|]. constructor.
    unfold desc_on. unfold value_ltb in E. by apply negb_false_iff in E.
Qed.

Lemma sort_desc_Sorted field l : Sorted (desc_on field) (sort_desc field l).
Proof.
  induction l as [|x l IH]; simpl; [constructor|]. by apply insert_desc_Sorted.
Qed.

(** Every document of a sorted listing comes no later than all the
    documents after it. *)
Lemma sort_desc_StronglySorted field l :
  StronglySorted (desc_on field) (sort_desc field l).
Proof. apply Sorted_StronglySorted; [apply _ | apply sort_desc_Sorted]. Qed.

(** A document whose key is strictly the largest is listed first. *)
Lemma sort_desc_newest field x l :
  Forall (fun y => value_ltb (sort_key field y) (sort_key field x) = true) l ->
  sort_desc field (l ++ [x]) = x :: sort_desc field l.
Proof.
  induction 1 as [|y l Hy Hl IH]; simpl; [done|].
  rewrite IH. simpl. by rewrite Hy.
Qed.

(** ** Bucketing *)

Lemma bucket_nil c : bucket c [] = [].
Proof. done. Qed.

Lemma bucket_cons c (r item : doc) c' rs :
  project r = Some item -> class_of r = Some c' ->
  bucket c (r :: rs) = (if decide (c' = c) then [item] else []) ++ bucket c rs.
Proof.
  intros Hp Hc. unfold bucket. rewrite filter_cons, Hc.
  destruct (decide (c' = c)) as [->|Hne].
  - rewrite decide_True by done. simpl. by rewrite Hp.
  - rewrite decide_False by congruence. done.
Qed.

Lemma place_city_bucket b c item c' :
  city_bucket c' (place b c item)
  = city_bucket c' b ++ (if decide (c = c') then [item] else []).
Proof. destruct c, c'; simpl; by rewrite ?app_nil_r. Qed.

Lemma place_world_bucket b c item c' :
  world_bucket c' (place b c item)
  = world_bucket c' b ++ (if decide (c = c') then [item] else []).
Proof. destruct c, c'; simpl; by rewrite ?app_nil_r. Qed.

Lemma categorize_all_inv (rs : list doc) (b b' : buckets) w w' :
  categorize_all b rs w = (Ok b', w') ->
  w' = w
  /\ Forall (fun r => is_Some (project r)) rs
  /\ forall c, city_bucket c b' = city_bucket c b ++ bucket c rs
               /\ world_bucket c b' = world_bucket c b ++ bucket c rs.
Proof.
  revert b w. induction rs as [|r rs IH]; intros b w H; simpl in H.
  - injection H as <- <-. split; [done|]. split; [constructor|].
    intros c. by rewrite bucket_nil, !app_nil_r.
  - apply bind_inv_ok in H as (b1 & w1 & H1 & H).
    apply categorize_inv in H1 as (item & c1 & Hp & Hc & -> & ->).
    apply IH in H as (-> & Hwf & Hb). split; [done|]. split.
    + constructor; [by eexists | done].
    + intros c. destruct (Hb c) as [Hb1 Hb2].
      rewrite Hb1, Hb2, place_city_bucket, place_world_bucket.
      rewrite (bucket_cons c r item c1 rs Hp Hc), <- !app_assoc. done.
Qed.

Lemma categorize_all_ok (rs : list doc) (b : buckets) w :
  Forall (fun r => is_Some (project r)) rs ->
  exists b', categorize_all b rs w = (Ok b', w).
Proof.
  intros Hwf. revert b. induction Hwf as [|r rs [item Hp] _ IH]; intros b; simpl.
  - by eexists.
  - destruct (project_class _ _ Hp) as [c Hc].
    unfold bind. rewrite (categorize_ok b r item c w Hp Hc). apply IH.
Qed.

(** Every report with a projection is counted in exactly one bucket. *)
Lemma bucket_partition (rs : list doc) :
  Forall (fun r => is_Some (project r)) rs ->
  (length (bucket Critical rs) + length (bucket Moderate rs)
   + length (bucket Low rs) = length rs)%nat.
Proof.
  induction 1 as [|r rs [item Hp] _ IH]; [done|].
  destruct (project_class _ _ Hp) as [c Hc].
  rewrite !(bucket_cons _ r item c rs Hp Hc). destruct c; simpl; lia.
Qed.

(** What the handler returns, when it returns. *)
Lemma get_dashboard_data_inv (w w' : World) (d : dashboard) :
  get_dashboard_data w = (Ok d, w') ->
  w' = w
  /\ dash_reports d = fetched_reports w
  /\ Forall (fun r => is_Some (project r)) (fetched_reports w)
  /\ forall c, severity_list c (city_data d) = take 5 (bucket c (fetched_reports w))
               /\ severity_list c (world_data d) = take 5 (bucket c (fetched_reports w)).
Proof.
  unfold get_dashboard_data. rewrite !bind_gets. intros H.
  apply bind_inv_ok in H as (b & w1 & H1 & H).
  apply categorize_all_inv in H1 as (-> & Hwf & Hb).
  apply bind_inv_ok in H as (last & w1 & H1 & H).
  assert (w1 = w) as ->.
  { destruct (to_list 20 _) as [|latest ?].
    - unfold ret in H1. congruence.
    - by apply getitem_inv in H1 as [_ ->]. }
  injection H as <- <-. split; [done|]. split; [done|]. split; [done|].
  intros c. destruct (Hb c) as [Hb1 Hb2].
  destruct c; cbn [severity_list city_data world_data critical moderate low];
    cbn [city_bucket world_bucket no_buckets city_critical city_moderate city_low
         world_critical world_moderate world_low app] in Hb1, Hb2;
    by rewrite Hb1, Hb2.
Qed.

(** The handler returns on every store that can be shown. *)
Lemma get_dashboard_data_ok (w : World) :
  Forall (fun r => is_Some (project r)) (fetched_reports w) ->
  match fetched_ai_updates w with
  | latest :: _ => is_Some (latest !! "last_run_at")
  | [] => True
  end ->
  exists d, get_dashboard_data w = (Ok d, w).
Proof.
  intros Hwf Hai. unfold get_dashboard_data. rewrite !bind_gets.
  destruct (categorize_all_ok _ no_buckets w Hwf) as [b Hb].
  unfold fetched_reports in Hb. rewrite (bind_ok _ _ _ _ _ Hb).
  unfold fetched_ai_updates in Hai.
  destruct (to_list 20 _) as [|latest ?].
  - rewrite (bind_ok _ _ w VNone w); [by eexists | done].
  - destruct Hai as [v Hv]. rewrite (bind_ok _ _ w v w); [by eexists|].
    by apply getitem_ok.
Qed.

Lemma to_list_Forall (P : doc -> Prop) n l : Forall P l -> Forall P (to_list n l).
Proof. apply Forall_take. Qed.

Lemma sort_desc_Forall (P : doc -> Prop) field l :
  Forall P l -> Forall P (sort_desc field l).
Proof. intros H. by rewrite sort_desc_Permutation. Qed.

Lemma dashboard_readable_ok (w : World) :
  dashboard_readable w -> exists d, get_dashboard_data w = (Ok d, w).
Proof.
  intros [Hwf Hai]. apply get_dashboard_data_ok; [|done].
  unfold fetched_reports. rewrite find_nil.
  by apply to_list_Forall, sort_desc_Forall.
Qed.

(** ** Creating a report *)

Lemma create_report_run (report : ReportCreate.t) (caller : string) (w : World) :
  create_report report (VStr caller) w
  = (Ok (new_report_at report caller w),
     mkWorld
       (set_reports
          (insert_one (prepare_for_mongo (Report.dict (new_report_at report caller w))))
          (db w))
       (environ w) (clock w) (S (S (ticks w))) (uuid_source w) (S (drawn w))
       (emergent_auth w)).
Proof. reflexivity. Qed.

Lemma stored_report_fields (r : Report.t) :
  let stored := prepare_for_mongo (Report.dict r) in
  stored !! "id" = Some (VStr (Report.id r))
  /\ stored !! "reporter_id" = Some (VStr (Report.reporter_id r))
  /\ stored !! "title" = Some (VStr (Report.title r))
  /\ stored !! "severity" = Some (VStr (Report.severity r))
  /\ stored !! "ai_severity_score"
     = Some (opt_value VFloat (Report.ai_severity_score r))
  /\ stored !! "status" = Some (VStr (Report.status r))
  /\ stored !! "created_at" = Some (VStr (isoformat (Report.created_at r)))
  /\ stored !! "ai_auto_flag" = Some (VBool (Report.ai_auto_flag r)).
Proof.
  unfold prepare_for_mongo, Report.dict. cbn [list_to_map foldr uncurry].
  rewrite !lookup_fmap.
  repeat split; simplify_map_eq; try done.
  by destruct (Report.ai_severity_score r).
Qed.

Lemma stored_report_project (r : Report.t) :
  is_Some (project (prepare_for_mongo (Report.dict r))).
Proof.
  unfold project, prepare_for_mongo, Report.dict.
  cbn [list_to_map foldr uncurry]. rewrite !lookup_fmap.
  simplify_map_eq. by eexists.
Qed.

Lemma stored_report_class (r : Report.t) :
  class_of (prepare_for_mongo (Report.dict r))
  = Some (classify (VStr (Report.severity r))).
Proof.
  unfold class_of. by destruct (stored_report_fields r) as (_ & _ & _ & -> & _).
Qed.

(** ** The dashboard: the claims *)

Lemma length_take_le {A} (n : nat) (l : list A) : (length (take n l) <= n)%nat.
Proof. rewrite length_take. lia. Qed.

(** C2 (top-5 slices).  Whenever the dashboard handler returns, each of
    the six per-severity lists of [city_data] and [world_data] has at most
    5 items; and it does return on every store that can be shown. *)
Theorem dashboard_lists_at_most_five (w : World) :
  (dashboard_readable w -> exists d, get_dashboard_data w = (Ok d, w))
  /\ (forall d w', get_dashboard_data w = (Ok d, w') ->
        forall c, (length (severity_list c (city_data d)) <= 5)%nat
                  /\ (length (severity_list c (world_data d)) <= 5)%nat).
Proof.
  split; [apply dashboard_readable_ok|].
  intros d w' H c. apply get_dashboard_data_inv in H as (_ & _ & _ & Hb).
  destruct (Hb c) as [-> ->]. split; apply length_take_le.
Qed.

Lemma world7_readable : dashboard_readable world7.
Proof.
  split.
  - apply (bool_decide_unpack _). vm_compute. exact I.
  - vm_compute. exact I.
Qed.

(** Seven critical reports in the store: the dashboard shows five. *)
Lemma dashboard_lists_at_most_five_witness :
  length (bucket Critical (fetched_reports world7)) = 7%nat
  /\ exists d, get_dashboard_data world7 = (Ok d, world7)
               /\ forall c, (length (severity_list c (city_data d)) <= 5)%nat
                            /\ (length (severity_list c (world_data d)) <= 5)%nat.
Proof.
  split; [vm_compute; reflexivity|].
  destruct (dashboard_lists_at_most_five world7) as [Hret Hle].
  destruct (Hret world7_readable) as [d Hd].
  exists d. split; [exact Hd | exact (Hle d world7 Hd)].
Defined.

Lemma severity_lists_eq (a b : severity_lists) :
  (forall c, severity_list c a = severity_list c b) -> a = b.
Proof.
  intros H. destruct a, b.
  pose proof (H Critical). pose proof (H Moderate). pose proof (H Low).
  simpl in *. congruence.
Qed.

(** A report filed when every stored report is strictly older is the
    first one the dashboard fetches. *)
Lemma fetched_reports_after_create (report : ReportCreate.t) (caller : string)
    (w : World) :
  Forall (fun r => value_ltb (sort_key "created_at" r)
                             (VStr (isoformat (clock w (ticks w)))) = true)
         (reports (db w)) ->
  exists rest,
    fetched_reports (create_report report (VStr caller) w).2
    = prepare_for_mongo (Report.dict (new_report_at report caller w)) :: rest
    /\ forall x, x ∈ rest -> x ∈ reports (db w).
Proof.
  intros Hold. rewrite create_report_run. unfold fetched_reports. cbn [snd db].
  rewrite find_nil. cbn [set_reports reports]. unfold insert_one.
  rewrite sort_desc_newest.
  - exists (take 99 (sort_desc "created_at" (reports (db w)))). split; [done|].
    intros x Hx. apply elem_of_take in Hx as (i & Hx & _).
    apply list_elem_of_lookup_2 in Hx. by rewrite sort_desc_Permutation in Hx.
  - eapply Forall_impl; [exact Hold|]. intros r Hr. cbn beta.
    unfold sort_key at 2.
    by destruct (stored_report_fields (new_report_at report caller w))
      as (_ & _ & _ & _ & _ & _ & -> & _).
Qed.

(** C3 (bucketing by severity, city and world alike).  Whenever the
    dashboard handler returns, each per-severity list is the first five
    projections of the fetched reports of that class, where the class of
    a report is read off its [severity] (anything but "critical" and
    "moderate" is low), every fetched report is counted in exactly one
    class, and [city_data] equals [world_data].  Moreover a report with
    severity "critical", filed when all stored reports are strictly older,
    has its projection in both [city_data.critical] and
    [world_data.critical] of the dashboard that follows. *)
Theorem dashboard_buckets_by_severity (w : World) :
  (forall d w', get_dashboard_data w = (Ok d, w') ->
     let fetched := fetched_reports w in
     (forall c, severity_list c (city_data d) = take 5 (bucket c fetched)
                /\ severity_list c (world_data d) = take 5 (bucket c fetched))
     /\ (length (bucket Critical fetched) + length (bucket Moderate fetched)
         + length (bucket Low fetched) = length fetched)%nat
     /\ city_data d = world_data d)
  /\ (forall report caller,
        ReportCreate.severity report = "critical" ->
        dashboard_readable w ->
        Forall (fun r => value_ltb (sort_key "created_at" r)
                                   (VStr (isoformat (clock w (ticks w)))) = true)
               (reports (db w)) ->
        let w1 := (create_report report (VStr caller) w).2 in
        exists new d item,
          (create_report report (VStr caller) w).1 = Ok new
          /\ project (prepare_for_mongo (Report.dict new)) = Some item
          /\ get_dashboard_data w1 = (Ok d, w1)
          /\ item ∈ critical (city_data d)
          /\ item ∈ critical (world_data d)).
Proof.
  split.
  - intros d w' H fetched.
    apply get_dashboard_data_inv in H as (_ & _ & Hwf & Hb).
    split; [done|]. split; [by apply bucket_partition|].
    apply severity_lists_eq. intros c. destruct (Hb c) as [-> ->]. done.
  - intros report caller Hsev [Hwf Hai] Hold w1.
    set (new := new_report_at report caller w).
    destruct (stored_report_project new) as [item Hitem].
    destruct (fetched_reports_after_create report caller w Hold)
      as (rest & Hfetched & Hrest).
    assert (Hready : dashboard_readable w1).
    { split; [|exact Hai]. unfold w1. rewrite create_report_run.
      cbn [db set_reports reports]. unfold insert_one.
      apply Forall_app. split; [done|]. constructor; [|done].
      apply stored_report_project. }
    destruct (dashboard_readable_ok w1 Hready) as [d Hd].
    exists new, d, item. split; [by unfold new; rewrite create_report_run|].
    split; [done|]. split; [done|].
    apply get_dashboard_data_inv in Hd as (_ & _ & _ & Hb).
    destruct (Hb Critical) as [Hc Hw]. cbn [severity_list] in Hc, Hw.
    rewrite Hc, Hw. fold w1 new in Hfetched. rewrite Hfetched.
    assert (Hcls : class_of (prepare_for_mongo (Report.dict new)) = Some Critical).
    { rewrite stored_report_class. unfold new, new_report_at. cbn [Report.severity].
      by rewrite Hsev. }
    rewrite (bucket_cons Critical _ item Critical rest Hitem Hcls).
    rewrite decide_True by done. simpl. split; apply list_elem_of_here.
Qed.

Lemma world1_readable : dashboard_readable world1.
Proof.
  split.
  - apply (bool_decide_unpack _). vm_compute. exact I.
  - vm_compute. exact I.
Qed.

Lemma world1_older :
  Forall (fun r => value_ltb (sort_key "created_at" r)
                             (VStr (isoformat (clock world1 (ticks world1)))) = true)
         (reports (db world1)).
Proof. apply (bool_decide_unpack _). vm_compute. exact I. Qed.

(** A second critical report filed after the one of [world1]. *)
Lemma dashboard_buckets_by_severity_witness :
  let w1 := (create_report example_report (VStr "user-2") world1).2 in
  exists new d item,
    (create_report example_report (VStr "user-2") world1).1 = Ok new
    /\ project (prepare_for_mongo (Report.dict new)) = Some item
    /\ get_dashboard_data w1 = (Ok d, w1)
    /\ item ∈ critical (city_data d)
    /\ item ∈ critical (world_data d).
Proof.
  exact (proj2 (dashboard_buckets_by_severity world1) example_report "user-2"
           eq_refl world1_readable world1_older).
Defined.

(** A projection is told apart from the items of a list by its [id]. *)
Lemma project_id (report item : doc) :
  project report = Some item -> item !! "id" = report !! "id".
Proof.
  unfold project. intros H.
  destruct (report !! "id") as [id|]; [|done].
  destruct (report !! "title") as [title|]; [|done].
  destruct (report !! "severity") as [severity|]; [|done].
  destruct (report !! "created_at") as [created_at|]; [|done].
  destruct (report !! "location") as [location|]; [|done].
  simpl in H. injection H as <-. by simplify_map_eq.
Qed.

Lemma not_listed_by_id (item : doc) (l : list doc) (id : string) :
  item !! "id" = Some (VStr id) ->
  forallb (fun x => negb (cond_holds x "id" (Eq (VStr id)))) l = true ->
  item ∉ l.
Proof.
  intros Hid Hall Hin. apply list_elem_of_In in Hin.
  rewrite forallb_forall in Hall. apply Hall in Hin. apply negb_true_iff in Hin.
  apply cond_holds_eq_str in Hid. congruence.
Qed.

Lemma world_ahead_readable :
  dashboard_readable (create_report example_report (VStr "user-1") world_ahead).2.
Proof.
  split.
  - apply (bool_decide_unpack _). vm_compute. exact I.
  - vm_compute. exact I.
Qed.

(** C3 as the specification words it fails in its last part.  On
    [world_ahead], whose five critical reports bear dates of 2030, a
    critical report is filed.  The dashboard that follows fetches it
    sixth, and the two critical lists, cut to five, hold the five stored
    reports and not the new one. *)
Lemma fresh_critical_report_counterexample :
  let out := create_report example_report (VStr "user-1") world_ahead in
  exists new item d,
    out.1 = Ok new
    /\ Report.severity new = "critical"
    /\ project (prepare_for_mongo (Report.dict new)) = Some item
    /\ (get_dashboard_data out.2).1 = Ok d
    /\ length (critical (city_data d)) = 5%nat
    /\ (item ∉ critical (city_data d))
    /\ (item ∉ critical (world_data d)).
Proof.
  intros out.
  set (new := new_report_at example_report "user-1" world_ahead).
  destruct (stored_report_project new) as [item Hitem].
  destruct (dashboard_readable_ok _ world_ahead_readable) as [d Hd].
  exists new, item, d.
  split; [by unfold out; rewrite create_report_run|]. split; [done|].
  split; [done|]. split; [by unfold out; rewrite Hd|].
  assert (Hid : item !! "id" = Some (VStr "uuid-0")).
  { rewrite (project_id _ _ Hitem).
    by destruct (stored_report_fields new) as (-> & _). }
  apply get_dashboard_data_inv in Hd as (_ & _ & _ & Hb).
  destruct (Hb Critical) as [Hc Hw]. cbn [severity_list] in Hc, Hw.
  rewrite Hc, Hw. split; [vm_compute; reflexivity|].
  split; apply (not_listed_by_id item _ "uuid-0" Hid); vm_compute; reflexivity.
Qed.

(** ** Creating a report: the claim *)

(** C4 (server-set fields of a new report).  For a caller whose session
    verifies and whatever body validates as a [ReportCreate], [POST
    /reports] returns a record and appends its stored form to the
    reports, both with [reporter_id] the caller's user id, [status]
    "pending", [ai_severity_score] null and [ai_auto_flag] false.  The
    validated body has none of these four fields, so nothing that the
    client sends reaches them; the fields it does have are taken over. *)
Theorem post_reports_server_fields (w : World) (authorization : option string)
    (caller : string) (report : ReportCreate.t) :
  (verify_session authorization w).1 = Ok (VStr caller) ->
  exists new w',
    post_reports authorization (Some report) w = (Ok new, w')
    /\ Report.reporter_id new = caller
    /\ Report.status new = "pending"
    /\ Report.ai_severity_score new = None
    /\ Report.ai_auto_flag new = false
    /\ (exists stored,
          reports (db w') = reports (db w) ++ [stored]
          /\ stored !! "reporter_id" = Some (VStr caller)
          /\ stored !! "status" = Some (VStr "pending")
          /\ stored !! "ai_severity_score" = Some VNone
          /\ stored !! "ai_auto_flag" = Some (VBool false)
          /\ stored !! "title" = Some (VStr (ReportCreate.title report))
          /\ stored !! "severity" = Some (VStr (ReportCreate.severity report)))
    /\ Report.title new = ReportCreate.title report
    /\ Report.description new = ReportCreate.description report
    /\ Report.location new = ReportCreate.location report
    /\ Report.severity new = ReportCreate.severity report.
Proof.
  intros Hv.
  destruct (verify_session authorization w) as [r w1] eqn:Hrun.
  simpl in Hv. subst r. rename Hrun into Hv.
  pose proof (keeps_run (fun w => reports (db w)) _ _ _ _
                (keeps_db_verify_session reports authorization) Hv) as Hdb.
  eexists (new_report_at report caller w1), _. split.
  { unfold post_reports. rewrite (bind_ok _ _ _ _ _ Hv).
    unfold request_body, bind at 1, ret at 1. apply create_report_run. }
  do 4 (split; [reflexivity|]). split; [|done].
  eexists. split; [cbn [db set_reports reports]; unfold insert_one; by rewrite Hdb|].
  destruct (stored_report_fields (new_report_at report caller w1))
    as (_ & H1 & H5 & H6 & H2 & H3 & _ & H4).
  by rewrite H1, H2, H3, H4, H5, H6.
Qed.

Lemma post_reports_server_fields_witness :
  exists new w',
    post_reports (Some "tok-user") (Some example_report) world2 = (Ok new, w')
    /\ Report.reporter_id new = "user-1"
    /\ Report.status new = "pending"
    /\ Report.ai_severity_score new = None
    /\ Report.ai_auto_flag new = false
    /\ (exists stored,
          reports (db w') = reports (db world2) ++ [stored]
          /\ stored !! "reporter_id" = Some (VStr "user-1")
          /\ stored !! "status" = Some (VStr "pending")
          /\ stored !! "ai_severity_score" = Some VNone
          /\ stored !! "ai_auto_flag" = Some (VBool false)
          /\ stored !! "title" = Some (VStr (ReportCreate.title example_report))
          /\ stored !! "severity" = Some (VStr (ReportCreate.severity example_report)))
    /\ Report.title new = ReportCreate.title example_report
    /\ Report.description new = ReportCreate.description example_report
    /\ Report.location new = ReportCreate.location example_report
    /\ Report.severity new = ReportCreate.severity example_report.
Proof.
  apply (post_reports_server_fields world2 (Some "tok-user") "user-1" example_report).
  vm_compute. reflexivity.
Defined.

(** On [world2]: a body that does not validate is answered 422 once the
    session has verified, and a session that holds a date is answered
    with the [TypeError] of the verification whatever the body. *)
Example post_reports_outcomes :
  (post_reports (Some "tok-user") None world2).1
  = Raise (HTTPException 422 "Unprocessable Entity")
  /\ (post_reports (Some "tok-old") (Some example_report) world2).1
     = Raise (TypeError "can't subtract offset-naive and offset-aware datetimes")
  /\ (post_reports None None world2).1
     = Raise (HTTPException 401 "No authorization token provided").
Proof. repeat split; vm_compute; reflexivity. Qed.

(** ** Updating a report *)

Lemma bind_assoc {A B C} (m : M A) (k : A -> M B) (h : B -> M C) w :
  bind (bind m k) h w = bind m (fun a => bind (k a) h) w.
Proof.
  unfold bind. destruct (m w) as [[a|e] w1]; [|done].
  by destruct (k a w1) as [[b|e] w2].
Qed.

Lemma update_one_spec (q : query) (upd : doc) (coll : list doc) :
  match find_one q coll with
  | None => update_one q upd coll = (coll, O)
  | Some d =>
      exists l1 l2,
        coll = l1 ++ d :: l2
        /\ Forall (fun x => doc_matches q x = false) l1
        /\ update_one q upd coll = (l1 ++ apply_set upd d :: l2, 1%nat)
  end.
Proof.
  unfold find_one, find. induction coll as [|x coll IH]; simpl; [done|].
  destruct (doc_matches q x) eqn:E; simpl.
  - by exists [], coll.
  - destruct (head (List.filter (doc_matches q) coll)) as [d|].
    + destruct IH as (l1 & l2 & -> & Hl1 & ->).
      exists (x :: l1), l2. split; [done|]. split; [by constructor | done].
    + by rewrite IH.
Qed.

(** The fields [update_report] sends in its [$set]. *)
Lemma update_data_lookup (update : ReportUpdate.t) (stamp : value) (k : string) :
  (<["updated_at" := stamp]>
     (filter (fun kv => is_not_none kv.2 = true) (ReportUpdate.dict update))
   : doc) !! k
  = if decide (k = "updated_at") then Some stamp
    else if decide (k = "status") then Some (VStr (ReportUpdate.status update))
    else if decide (k = "ai_severity_score")
         then VFloat <$> ReportUpdate.ai_severity_score update
    else if decide (k = "ai_auto_flag")
         then VBool <$> ReportUpdate.ai_auto_flag update
    else None.
Proof.
  destruct (decide (k = "updated_at")) as [->|H1]; [by rewrite lookup_insert_eq|].
  rewrite lookup_insert_ne by done.
  unfold ReportUpdate.dict. cbn [list_to_map foldr uncurry].
  destruct (decide (k = "status")) as [->|H2].
  { apply map_lookup_filter_Some. by simplify_map_eq. }
  destruct (decide (k = "ai_severity_score")) as [->|H3].
  { destruct (ReportUpdate.ai_severity_score update) as [x|]; simpl.
    - apply map_lookup_filter_Some. by simplify_map_eq.
    - apply map_lookup_filter_None. right. intros v Hv. simplify_map_eq. by simpl. }
  destruct (decide (k = "ai_auto_flag")) as [->|H4].
  { destruct (ReportUpdate.ai_auto_flag update) as [x|]; simpl.
    - apply map_lookup_filter_Some. by simplify_map_eq.
    - apply map_lookup_filter_None. right. intros v Hv. simplify_map_eq. by simpl. }
  apply map_lookup_filter_None. left. by simplify_map_eq.
Qed.

Lemma apply_set_lookup (upd d : doc) (k : string) :
  apply_set upd d !! k = match upd !! k with Some v => Some v | None => d !! k end.
Proof.
  unfold apply_set. rewrite lookup_union. by destruct (upd !! k), (d !! k).
Qed.

Lemma keeps_db_admin_check authorization :
  keeps db (bind (verify_session authorization) verify_admin).
Proof.
  apply keeps_bind; [apply (keeps_db_verify_session (fun d => d))|].
  intros a. apply (keeps_db_verify_admin (fun d => d)).
Qed.

(** What [update_report] does, from the world in which it starts. *)
Lemma update_report_run (w : World) (report_id : string) (update : ReportUpdate.t)
    (user_id : value) :
  let out := update_report report_id update user_id w in
  let upd : doc :=
    <["updated_at" := VStr (isoformat (clock w (ticks w)))]>
      (filter (fun kv => is_not_none kv.2 = true) (ReportUpdate.dict update)) in
  users (db out.2) = users (db w)
  /\ shelters (db out.2) = shelters (db w)
  /\ ai_updates (db out.2) = ai_updates (db w)
  /\ sessions (db out.2) = sessions (db w)
  /\ match find_one [("id", Eq (VStr report_id))] (reports (db w)) with
     | None =>
         out.1 = Raise (HTTPException 404 "Report not found")
         /\ reports (db out.2) = reports (db w)
     | Some d =>
         out.1 = Ok {[ "message" := VStr "Report updated successfully" ]}
         /\ exists l1 l2,
              reports (db w) = l1 ++ d :: l2
              /\ Forall (fun x => doc_matches [("id", Eq (VStr report_id))] x = false) l1
              /\ reports (db out.2) = l1 ++ apply_set upd d :: l2
     end.
Proof.
  intros out upd. unfold out, update_report, bind, datetime_now, db_update_one.
  cbn [fst snd db ticks clock]. fold upd.
  pose proof (update_one_spec [("id", Eq (VStr report_id))] upd (reports (db w))) as H.
  destruct (find_one _ (reports (db w))) as [d|].
  - destruct H as (l1 & l2 & Hc & Hl1 & ->). cbn. do 4 (split; [done|]).
    split; [done|]. by exists l1, l2.
  - rewrite H. cbn. done.
Qed.

(** C5 (partial update by an administrator).  With the admin check passed
    and whatever body validates as a [ReportUpdate], [PUT /reports/{id}]
    on an id that no stored report has answers 404 and leaves the store
    as it was; on an id that a stored report has, it rewrites the first
    such report only, and in it only [status], [updated_at] (always, to
    the current time) and those of [ai_severity_score] and [ai_auto_flag]
    that the validated body holds a value for: a field that the request
    omits or sends as null, which validates to [None], keeps its stored
    value, and so does every field outside these four. *)
Theorem put_report_partial_update (w : World) (authorization : option string)
    (report_id : string) (admin : value) (update : ReportUpdate.t) :
  (bind (verify_session authorization) verify_admin w).1 = Ok admin ->
  let w1 := (bind (verify_session authorization) verify_admin w).2 in
  let out := put_report authorization report_id (Some update) w in
  users (db out.2) = users (db w)
  /\ shelters (db out.2) = shelters (db w)
  /\ ai_updates (db out.2) = ai_updates (db w)
  /\ sessions (db out.2) = sessions (db w)
  /\ match find_one [("id", Eq (VStr report_id))] (reports (db w)) with
     | None =>
         out.1 = Raise (HTTPException 404 "Report not found")
         /\ reports (db out.2) = reports (db w)
     | Some d =>
         out.1 = Ok {[ "message" := VStr "Report updated successfully" ]}
         /\ exists l1 l2 d',
              reports (db w) = l1 ++ d :: l2
              /\ Forall (fun x => x !! "id" <> Some (VStr report_id)) l1
              /\ reports (db out.2) = l1 ++ d' :: l2
              /\ d' !! "updated_at" = Some (VStr (isoformat (clock w1 (ticks w1))))
              /\ d' !! "status" = Some (VStr (ReportUpdate.status update))
              /\ d' !! "ai_severity_score"
                 = match ReportUpdate.ai_severity_score update with
                   | Some q => Some (VFloat q)
                   | None => d !! "ai_severity_score"
                   end
              /\ d' !! "ai_auto_flag"
                 = match ReportUpdate.ai_auto_flag update with
                   | Some b => Some (VBool b)
                   | None => d !! "ai_auto_flag"
                   end
              /\ (forall k, k ∉ updated_fields -> d' !! k = d !! k)
     end.
Proof.
  intros Hadmin w1 out.
  assert (Hout : out = update_report report_id update admin w1).
  { unfold out, put_report. rewrite <- (bind_assoc (verify_session authorization)).
    unfold w1. destruct (bind (verify_session authorization) verify_admin w)
      as [r w2] eqn:Hrun. simpl in Hadmin. subst r.
    by rewrite (bind_ok _ _ _ _ _ Hrun). }
  assert (Hdb : db w1 = db w) by apply (keeps_db_admin_check authorization w).
  destruct (update_report_run w1 report_id update admin) as (H1 & H2 & H3 & H4 & H5).
  cbv zeta in H1, H2, H3, H4, H5. rewrite <- Hout, Hdb in *.
  do 4 (split; [done|]).
  destruct (find_one _ (reports (db w))) as [d|]; [|done].
  destruct H5 as (Hok & l1 & l2 & Hc & Hl1 & Hnew). split; [done|].
  eexists l1, l2, _. split; [done|]. split.
  { eapply Forall_impl; [exact Hl1|]. intros x Hx Hid.
    apply cond_holds_eq_str in Hid. unfold doc_matches in Hx.
    cbn [forallb fst snd] in Hx. rewrite Hid in Hx. done. }
  split; [exact Hnew|].
  repeat split.
  - by rewrite apply_set_lookup, update_data_lookup.
  - by rewrite apply_set_lookup, update_data_lookup.
  - rewrite apply_set_lookup, update_data_lookup.
    by destruct (ReportUpdate.ai_severity_score update).
  - rewrite apply_set_lookup, update_data_lookup.
    by destruct (ReportUpdate.ai_auto_flag update).
  - intros k Hk. rewrite apply_set_lookup, update_data_lookup.
    unfold updated_fields in Hk. rewrite !not_elem_of_cons in Hk.
    destruct Hk as (? & ? & ? & ? & _). by rewrite !decide_False by done.
Qed.

Lemma put_report_partial_update_witness :
  let w1 := (bind (verify_session (Some "tok-admin")) verify_admin world2).2 in
  let out := put_report (Some "tok-admin") "uuid-0" (Some example_rescore) world2 in
  users (db out.2) = users (db world2)
  /\ shelters (db out.2) = shelters (db world2)
  /\ ai_updates (db out.2) = ai_updates (db world2)
  /\ sessions (db out.2) = sessions (db world2)
  /\ match find_one [("id", Eq (VStr "uuid-0"))] (reports (db world2)) with
     | None =>
         out.1 = Raise (HTTPException 404 "Report not found")
         /\ reports (db out.2) = reports (db world2)
     | Some d =>
         out.1 = Ok {[ "message" := VStr "Report updated successfully" ]}
         /\ exists l1 l2 d',
              reports (db world2) = l1 ++ d :: l2
              /\ Forall (fun x => x !! "id" <> Some (VStr "uuid-0")) l1
              /\ reports (db out.2) = l1 ++ d' :: l2
              /\ d' !! "updated_at" = Some (VStr (isoformat (clock w1 (ticks w1))))
              /\ d' !! "status" = Some (VStr (ReportUpdate.status example_rescore))
              /\ d' !! "ai_severity_score"
                 = match ReportUpdate.ai_severity_score example_rescore with
                   | Some q => Some (VFloat q)
                   | None => d !! "ai_severity_score"
                   end
              /\ d' !! "ai_auto_flag"
                 = match ReportUpdate.ai_auto_flag example_rescore with
                   | Some b => Some (VBool b)
                   | None => d !! "ai_auto_flag"
                   end
              /\ (forall k, k ∉ updated_fields -> d' !! k = d !! k)
     end.
Proof.
  apply (put_report_partial_update world2 (Some "tok-admin") "uuid-0"
           (VStr "admin-1") example_rescore).
  vm_compute. reflexivity.
Defined.

(** The outcomes of [PUT /reports/{id}] on [world2]: the report [uuid-0]
    is updated, an unknown id is not found, a caller who is not an
    administrator is refused, and so is a body that does not validate. *)
Example put_report_outcomes :
  (put_report (Some "tok-admin") "uuid-0" (Some example_update) world2).1
  = Ok {[ "message" := VStr "Report updated successfully" ]}
  /\ (put_report (Some "tok-admin") "no-such-id" (Some example_update) world2).1
     = Raise (HTTPException 404 "Report not found")
  /\ (put_report (Some "tok-user") "uuid-0" (Some example_update) world2).1
     = Raise (HTTPException 403 "Admin access required")
  /\ (put_report (Some "tok-admin") "uuid-0" None world2).1
     = Raise (HTTPException 422 "Unprocessable Entity").
Proof. repeat split; vm_compute; reflexivity. Qed.

(** The stored report of [world2] before and after the two example
    updates: [example_update] changes the status only, [example_rescore]
    the status and the score; the flag keeps its stored value. *)
Example put_report_stored_fields :
  let before := reports (db world2) in
  let after := reports (db (put_report (Some "tok-admin") "uuid-0"
                              (Some example_update) world2).2) in
  let rescored := reports (db (put_report (Some "tok-admin") "uuid-0"
                                 (Some example_rescore) world2).2) in
  ((fun d : doc => (d !! "status", d !! "ai_auto_flag", d !! "ai_severity_score"))
     <$> before)
  = [(Some (VStr "pending"), Some (VBool false), Some VNone)]
  /\ ((fun d : doc => (d !! "status", d !! "ai_auto_flag", d !! "ai_severity_score"))
        <$> after)
     = [(Some (VStr "validated"), Some (VBool false), Some VNone)]
  /\ ((fun d : doc => (d !! "status", d !! "ai_auto_flag", d !! "ai_severity_score"))
        <$> rescored)
     = [(Some (VStr "resolved"), Some (VBool false), Some (VFloat (9 # 10)))].
Proof. repeat split; vm_compute; reflexivity. Qed.

(** ** Listing reports *)

Lemma cond_holds_filter_holds (r : doc) (k c : string) :
  c <> "" -> cond_holds r k (Eq (VStr c)) = filter_holds (Some c) k r.
Proof.
  intros Hc. unfold cond_holds, filter_holds.
  apply String.eqb_neq in Hc. rewrite Hc.
  destruct (r !! k) as [x|]; [|done]. by destruct x.
Qed.

Lemma filter_holds_not_given (f : option string) (k : string) (r : doc) :
  given f = false -> filter_holds f k r = true.
Proof.
  unfold given, filter_holds. destruct f as [c|]; [|done].
  intros H. apply negb_false_iff in H. by rewrite H.
Qed.

Lemma given_Some (f : option string) :
  given f = true -> exists c, f = Some c /\ c <> "".
Proof.
  unfold given. destruct f as [c|]; [|done]. intros H. exists c. split; [done|].
  apply negb_true_iff in H. by apply String.eqb_neq.
Qed.

(** The query the handler builds selects the reports of [matching]. *)
Lemma get_reports_query (w : World) (city status : option string) :
  exists q : query,
    get_reports city status w
    = (Ok (to_list 1000 (sort_desc "created_at" (find q (reports (db w))))), w)
    /\ find q (reports (db w)) = matching w city status.
Proof.
  unfold get_reports, matching, find.
  destruct (given city) eqn:Ec, (given status) eqn:Es; eexists; (split; [reflexivity|]);
    apply List.filter_ext; intros r; unfold doc_matches; cbn [app forallb fst snd];
    repeat match goal with
      | H : given ?f = true |- _ => apply given_Some in H as (? & -> & ?)
      | H : given ?f = false |- _ => rewrite (filter_holds_not_given f _ r H); clear H
      end;
    cbn [opt_value from_option]; rewrite ?cond_holds_filter_holds by done;
    by rewrite ?andb_true_r.
Qed.

(** C9 as the code has it.  Listing reports needs no credentials and
    always returns: the result is the first 1000 of the reports that
    match every filter that is supplied and not the empty string (exact
    match on the stored str), sorted on [created_at], latest first. *)
Theorem get_reports_listing (w : World) (city status : option string) :
  exists sorted,
    get_reports city status w = (Ok (take 1000 sorted), w)
    /\ sorted ≡ₚ matching w city status
    /\ StronglySorted (desc_on "created_at") sorted.
Proof.
  destruct (get_reports_query w city status) as (q & Hrun & Hq).
  exists (sort_desc "created_at" (find q (reports (db w)))).
  split; [exact Hrun|]. split.
  - by rewrite sort_desc_Permutation, Hq.
  - apply sort_desc_StronglySorted.
Qed.

(** C10 (the empty string is no filter).  In every world, listing
    reports with the city filter equal to the empty string is the same
    computation as listing with the city filter absent, and likewise for
    the status filter: the handler tests [if city:] and [if status:], and
    the empty string is falsy. *)
Theorem get_reports_empty_filter (w : World) (city status : option string) :
  get_reports (Some "") status w = get_reports None status w
  /\ get_reports city (Some "") w = get_reports city None w.
Proof. split; reflexivity. Qed.

(** A listing that holds a report whose field differs from the supplied
    filter value is not the listing of the specification. *)
Lemma not_as_specified_city (w : World) (c : string) (status : option string)
    (result : list doc) (r : doc) (v : value) :
  r ∈ result -> r !! "city" = Some v -> value_eqb v (VStr c) = false ->
  ~ listing_as_specified w (Some c) status result.
Proof.
  intros Hr Hcity Hne [Hspec _]. apply Hspec in Hr as (_ & Hc & _).
  rewrite (Hc c eq_refl) in Hcity. injection Hcity as <-.
  simpl in Hne. by rewrite String.eqb_refl in Hne.
Qed.

(** A listing that misses a stored report, here one told apart from all
    the listed ones by its [id], is not the listing of the specification
    for absent filters. *)
Lemma not_as_specified_missing (w : World) (result : list doc) (r : doc) (id : string) :
  r ∈ reports (db w) -> r !! "id" = Some (VStr id) ->
  forallb (fun x => negb (cond_holds x "id" (Eq (VStr id)))) result = true ->
  ~ listing_as_specified w None None result.
Proof.
  intros Hr Hid Hall [Hspec _].
  assert (Hin : r ∈ result) by (apply Hspec; by repeat split).
  apply list_elem_of_In in Hin. rewrite forallb_forall in Hall.
  apply Hall in Hin. apply negb_true_iff in Hin.
  apply cond_holds_eq_str in Hid. congruence.
Qed.

(** C9 as the specification words it fails in two ways.  On [world1],
    whose only report is in Paris, the listing for [city=""] returns that
    report although its city is not the empty string.  On [world1001]
    the listing without filters returns 1000 reports and misses the one
    filed last. *)
Lemma get_reports_exact_match_counterexample :
  (exists result,
     (get_reports (Some "") None world1).1 = Ok result
     /\ ~ listing_as_specified world1 (Some "") None result)
  /\ (exists result,
        (get_reports None None world1001).1 = Ok result
        /\ length result = 1000%nat
        /\ length (reports (db world1001)) = 1001%nat
        /\ ~ listing_as_specified world1001 None None result).
Proof.
  split.
  - eexists. split; [reflexivity|].
    set (result := to_list 1000 _).
    assert (Hh : is_Some (head result)) by (apply (bool_decide_unpack _); by vm_compute).
    destruct Hh as [r Hr].
    apply (not_as_specified_city world1 "" None result r (VStr "Paris")).
    + by apply head_Some_elem_of.
    + transitivity (head result ≫= (.!! "city")); [by rewrite Hr|].
      vm_compute. reflexivity.
    + reflexivity.
  - eexists. split; [reflexivity|].
    set (result := to_list 1000 _).
    split; [vm_compute; reflexivity|]. split; [vm_compute; reflexivity|].
    assert (Hh : is_Some (last (reports (db world1001))))
      by (apply (bool_decide_unpack _); by vm_compute).
    destruct Hh as [r Hr].
    apply (not_as_specified_missing world1001 result r "uuid-1000").
    + apply last_Some in Hr as [l' ->]. apply elem_of_app. right. by left.
    + transitivity (last (reports (db world1001)) ≫= (.!! "id")); [by rewrite Hr|].
      vm_compute. reflexivity.
    + vm_compute. reflexivity.
Qed.

(** * Further properties of the handlers *)

(** ** Authentication *)

Lemma bind_find_one {B} (coll : Database -> list doc) (q : query) (k : option doc -> M B) w :
  bind (db_find_one coll q) k w = k (find_one q (coll (db w))) w.
Proof. reflexivity. Qed.

Lemma verify_session_ok_inv (authorization : option string) (w : World) (u : value) :
  (verify_session authorization w).1 = Ok u ->
  exists token session,
    authorization = Some token
    /\ find_one [("session_token", Eq (VStr token))] (sessions (db w)) = Some session
    /\ session !! "session_token" = Some (VStr token)
    /\ session !! "user_id" = Some u
    /\ truthy (get_default session "created_at" VNone) = false.
Proof.
  unfold verify_session. destruct authorization as [token|]; [|discriminate].
  rewrite bind_find_one.
  destruct (find_one _ (sessions (db w))) as [session|] eqn:Hf; [|discriminate].
  rewrite (session_found_truthy _ _ _ Hf).
  change (default ∅ (Some session)) with session.
  intros H. exists token, session. split; [done|]. split; [done|].
  apply find_one_Some in Hf as [Hm _]. unfold doc_matches in Hm.
  cbn [forallb fst snd] in Hm. rewrite andb_true_r in Hm.
  apply cond_holds_eq_str in Hm. split; [done|].
  cbv zeta in H.
  destruct (truthy (get_default session "created_at" VNone)) eqn:Ht.
  - exfalso. unfold bind, datetime_now, datetime_sub in H.
    destruct (get_default session "created_at" VNone); cbn in H; discriminate H.
  - unfold bind, ret in H. cbn in H. unfold getitem in H.
    destruct (session !! "user_id") as [x|]; [|discriminate H].
    cbn in H. by injection H as <-.
Qed.

Lemma verify_session_never_expired (authorization : option string) (w : World) :
  (verify_session authorization w).1 <> Raise (HTTPException 401 "Session expired").
Proof.
  unfold verify_session. destruct authorization as [token|]; [|discriminate].
  rewrite bind_find_one.
  destruct (find_one _ (sessions (db w))) as [session|] eqn:Hf; [|discriminate].
  rewrite (session_found_truthy _ _ _ Hf).
  change (default ∅ (Some session)) with session. cbv zeta.
  destruct (truthy (get_default session "created_at" VNone)) eqn:Ht.
  - unfold bind, datetime_now, datetime_sub.
    destruct (get_default session "created_at" VNone); cbn; discriminate.
  - unfold bind, ret. cbn. unfold getitem.
    destruct (session !! "user_id"); cbn; discriminate.
Qed.

(** [verify_session] succeeds with [u] exactly when the first stored
    session with the presented token has [u] as its [user_id] and has no
    [created_at], or a falsy one.  A session with any other [created_at],
    a datetime or the text that a login stores, does not verify whatever
    its age; and the answer 401 "Session expired" is never given, the
    subtraction raising before the age is compared. *)
Theorem verify_session_succeeds_iff (authorization : option string) (w : World)
    (u : value) :
  ((verify_session authorization w).1 = Ok u
   <-> exists token session,
         authorization = Some token
         /\ find_one [("session_token", Eq (VStr token))] (sessions (db w))
            = Some session
         /\ session !! "user_id" = Some u
         /\ truthy (get_default session "created_at" VNone) = false)
  /\ (verify_session authorization w).1
     <> Raise (HTTPException 401 "Session expired").
Proof.
  split; [|apply verify_session_never_expired]. split.
  - intros H. destruct (verify_session_ok_inv _ _ _ H)
      as (token & session & ? & ? & _ & ? & ?). by exists token, session.
  - intros (token & session & -> & Hf & Hu & Hfalsy).
    by rewrite (verify_session_undated w token session u Hf Hfalsy Hu).
Qed.

Lemma is_admin_role (usr : doc) :
  is_admin usr = true <-> usr !! "role" = Some (VStr "admin").
Proof.
  unfold is_admin. destruct (usr !! "role") as [[]|]; try (split; [discriminate|]; by intros [=]).
  rewrite String.eqb_eq. split; [by intros -> | by intros [= ->]].
Qed.

Lemma verify_admin_run (user_id : value) (w : World) :
  verify_admin user_id w
  = (match find_one [("id", Eq user_id)] (users (db w)) with
     | Some usr =>
         if is_admin usr then Ok user_id
         else Raise (HTTPException 403 "Admin access required")
     | None => Raise (HTTPException 403 "Admin access required")
     end, w).
Proof.
  unfold verify_admin. rewrite bind_find_one.
  destruct (find_one _ (users (db w))) as [usr|] eqn:Hf; [|done].
  cbn [from_option not_doc]. unfold get_default, is_admin.
  destruct (usr !! "role") as [r|] eqn:Hr.
  - rewrite (lookup_Some_size_ne _ _ _ Hr). simpl.
    destruct r; try done. unfold py_eqb. simpl.
    by destruct (s =? "admin")%string.
  - simpl. by rewrite orb_true_r.
Qed.

Lemma bind_raise {A B} (m : M A) (k : A -> M B) w e w' :
  m w = (Raise e, w') -> bind m k w = (Raise e, w').
Proof. intros H. unfold bind. by rewrite H. Qed.

Lemma verify_admin_admits_admins_only_aux (user_id : value) (w : World) :
  (exists usr, find_one [("id", Eq user_id)] (users (db w)) = Some usr
               /\ usr !! "role" = Some (VStr "admin"))
  /\ verify_admin user_id w = (Ok user_id, w)
  \/ ~ (exists usr, find_one [("id", Eq user_id)] (users (db w)) = Some usr
                   /\ usr !! "role" = Some (VStr "admin"))
     /\ verify_admin user_id w
        = (Raise (HTTPException 403 "Admin access required"), w).
Proof.
  rewrite verify_admin_run.
  destruct (find_one _ (users (db w))) as [usr|].
  - destruct (is_admin usr) eqn:E.
    + left. apply is_admin_role in E. split; [by exists usr | done].
    + right. split; [|done]. intros (? & [= <-] & Hr).
      apply is_admin_role in Hr. congruence.
  - right. split; [by intros (? & ? & _) | done].
Qed.

(** [verify_admin] lets a user id through exactly when the first stored
    user with that id has the role "admin"; otherwise it answers 403.  In
    both cases the world is as it was. *)
Theorem verify_admin_admits_admins_only (user_id : value) (w : World) :
  (exists usr, find_one [("id", Eq user_id)] (users (db w)) = Some usr
               /\ usr !! "role" = Some (VStr "admin"))
  /\ verify_admin user_id w = (Ok user_id, w)
  \/ ~ (exists usr, find_one [("id", Eq user_id)] (users (db w)) = Some usr
                   /\ usr !! "role" = Some (VStr "admin"))
     /\ verify_admin user_id w
        = (Raise (HTTPException 403 "Admin access required"), w).
Proof. apply verify_admin_admits_admins_only_aux. Qed.

(** ** The guards of the routes *)

Lemma verify_session_run_db (authorization : option string) (w : World) :
  db (verify_session authorization w).2 = db w.
Proof. apply (keeps_db_verify_session (fun d => d)). Qed.

Lemma verify_session_run_users (authorization : option string) (w : World) :
  users (db (verify_session authorization w).2) = users (db w).
Proof. by rewrite verify_session_run_db. Qed.

(** Without an [Authorization] header every guarded route answers 401
    and leaves the world as it was, whatever else the request carries:
    the body may validate or not. *)
Theorem unauthenticated_requests_401 (w : World) (report : option ReportCreate.t)
    (update : option ReportUpdate.t) (shelter : option ShelterCreate.t)
    (report_id : string) :
  let refused {A} : result A * World :=
    (Raise (HTTPException 401 "No authorization token provided"), w) in
  post_reports None report w = refused
  /\ put_report None report_id update w = refused
  /\ post_shelters None shelter w = refused
  /\ post_ai_analyze None w = refused
  /\ get_users_route None w = refused
  /\ get_me None w = refused
  /\ delete_logout None w = refused.
Proof. repeat split. Qed.

(** A caller whose session verifies but whose user is not an
    administrator gets 403 from each of the four admin routes, and the
    store is as it was. *)
Theorem non_admin_requests_403 (w : World) (authorization : option string)
    (user_id : value) (update : option ReportUpdate.t)
    (shelter : option ShelterCreate.t) (report_id : string) :
  (verify_session authorization w).1 = Ok user_id ->
  ~ (exists usr, find_one [("id", Eq user_id)] (users (db w)) = Some usr
                 /\ usr !! "role" = Some (VStr "admin")) ->
  let forbidden {A} : result A := Raise (HTTPException 403 "Admin access required") in
  ((put_report authorization report_id update w).1 = forbidden
   /\ db (put_report authorization report_id update w).2 = db w)
  /\ ((post_shelters authorization shelter w).1 = forbidden
      /\ db (post_shelters authorization shelter w).2 = db w)
  /\ ((post_ai_analyze authorization w).1 = forbidden
      /\ db (post_ai_analyze authorization w).2 = db w)
  /\ ((get_users_route authorization w).1 = forbidden
      /\ db (get_users_route authorization w).2 = db w).
Proof.
  intros Hv Hna forbidden.
  pose proof (verify_session_run_db authorization w) as Hdb.
  destruct (verify_session authorization w) as [r w1] eqn:Hrun.
  cbn [fst snd] in Hv, Hdb. subst r.
  assert (Hadm : verify_admin user_id w1
                 = (Raise (HTTPException 403 "Admin access required"), w1)).
  { destruct (verify_admin_admits_admins_only_aux user_id w1) as [[Hyes _]|[_ Hno]];
      [|done]. rewrite Hdb in Hyes. by destruct Hna. }
  unfold put_report, post_shelters, post_ai_analyze, get_users_route.
  rewrite !(bind_ok _ _ _ _ _ Hrun), !(bind_raise _ _ _ _ _ Hadm). cbn [fst snd].
  by rewrite Hdb.
Qed.

Lemma non_admin_requests_403_witness :
  let forbidden {A} : result A := Raise (HTTPException 403 "Admin access required") in
  ((put_report (Some "tok-user") "uuid-0" (Some example_update) world2).1 = forbidden
   /\ db (put_report (Some "tok-user") "uuid-0" (Some example_update) world2).2
      = db world2)
  /\ ((post_shelters (Some "tok-user") (Some example_shelter) world2).1 = forbidden
      /\ db (post_shelters (Some "tok-user") (Some example_shelter) world2).2
         = db world2)
  /\ ((post_ai_analyze (Some "tok-user") world2).1 = forbidden
      /\ db (post_ai_analyze (Some "tok-user") world2).2 = db world2)
  /\ ((get_users_route (Some "tok-user") world2).1 = forbidden
      /\ db (get_users_route (Some "tok-user") world2).2 = db world2).
Proof.
  apply (non_admin_requests_403 world2 (Some "tok-user") (VStr "user-1")).
  - vm_compute. reflexivity.
  - intros (usr & Hf & Hr).
    assert (Hrole : find_one [("id", Eq (VStr "user-1"))] (users (db world2))
                    ≫= (.!! "role") = Some (VStr "user")) by (vm_compute; reflexivity).
    rewrite Hf in Hrole. cbn in Hrole. congruence.
Defined.

(** ** Logout *)

Lemma delete_many_elem (q : query) (coll : list doc) (s : doc) :
  s ∈ delete_many q coll <-> s ∈ coll /\ doc_matches q s = false.
Proof.
  unfold delete_many. rewrite !list_elem_of_In, filter_In, negb_true_iff. done.
Qed.

Lemma logout_run (user_id : value) (w : World) :
  logout user_id w
  = (Ok {[ "message" := VStr "Logged out successfully" ]},
     set_db (set_sessions (delete_many [("user_id", Eq user_id)])) w).
Proof. reflexivity. Qed.

(** After [DELETE /auth/logout] by a caller whose session verifies as the
    user [uid], no token at all verifies as [uid] any more: every session
    of that user is gone, not only the one presented.  The sessions of
    the other users and the other collections are as they were. *)
Theorem logout_ends_every_session_of_user (w : World)
    (authorization : option string) (uid : string) :
  (verify_session authorization w).1 = Ok (VStr uid) ->
  let w' := (delete_logout authorization w).2 in
  (delete_logout authorization w).1
  = Ok {[ "message" := VStr "Logged out successfully" ]}
  /\ (forall token, (verify_session (Some token) w').1 <> Ok (VStr uid))
  /\ (forall s, s ∈ sessions (db w') <->
                s ∈ sessions (db w) /\ s !! "user_id" <> Some (VStr uid))
  /\ users (db w') = users (db w)
  /\ reports (db w') = reports (db w)
  /\ shelters (db w') = shelters (db w)
  /\ ai_updates (db w') = ai_updates (db w).
Proof.
  intros Hv w'.
  pose proof (verify_session_run_db authorization w) as Hdb.
  unfold w', delete_logout.
  destruct (verify_session authorization w) as [r w1] eqn:Hrun.
  cbn [fst snd] in Hv, Hdb. subst r.
  rewrite (bind_ok _ _ _ _ _ Hrun), logout_run. cbn [fst snd db set_db].
  assert (Hs : forall s, s ∈ delete_many [("user_id", Eq (VStr uid))] (sessions (db w))
                         <-> s ∈ sessions (db w) /\ s !! "user_id" <> Some (VStr uid)).
  { intros s. rewrite delete_many_elem. unfold doc_matches.
    cbn [forallb fst snd]. rewrite andb_true_r.
    pose proof (cond_holds_eq_str s "user_id" uid) as Hc.
    destruct (cond_holds s "user_id" (Eq (VStr uid))).
    - split; [by intros [_ ?]|]. intros [_ Hne]. destruct Hne. by apply Hc.
    - split; [|by intros [? _]]. intros [? _]. split; [done|]. intros Hu.
      apply Hc in Hu. discriminate. }
  rewrite Hdb. cbn [set_sessions sessions users reports shelters ai_updates].
  split; [done|]. split; [|done].
  intros token Hok.
  apply verify_session_ok_inv in Hok as (tok & s & _ & Hf & _ & Hu & _).
  apply find_one_Some in Hf as [_ Hin]. cbn [db set_db set_sessions sessions] in Hin.
  rewrite Hdb in Hin. apply Hs in Hin as [_ Hne]. done.
Qed.

(** On [world2] the user [user-1] has three sessions; logging out with
    the one that verifies ends them all and keeps the administrator's. *)
Lemma logout_ends_every_session_of_user_witness :
  let w' := (delete_logout (Some "tok-user") world2).2 in
  (delete_logout (Some "tok-user") world2).1
  = Ok {[ "message" := VStr "Logged out successfully" ]}
  /\ (forall token, (verify_session (Some token) w').1 <> Ok (VStr "user-1"))
  /\ (forall s, s ∈ sessions (db w') <->
                s ∈ sessions (db world2) /\ s !! "user_id" <> Some (VStr "user-1"))
  /\ users (db w') = users (db world2)
  /\ reports (db w') = reports (db world2)
  /\ shelters (db w') = shelters (db world2)
  /\ ai_updates (db w') = ai_updates (db world2).
Proof.
  apply (logout_ends_every_session_of_user world2 (Some "tok-user") "user-1").
  vm_compute. reflexivity.
Defined.

Example logout_on_world2 :
  let w' := (delete_logout (Some "tok-user") world2).2 in
  length (sessions (db world2)) = 4%nat
  /\ length (sessions (db w')) = 1%nat
  /\ (verify_session (Some "tok-old") w').1
     = Raise (HTTPException 401 "Invalid session token")
  /\ (verify_session (Some "tok-admin") w').1 = Ok (VStr "admin-1").
Proof. repeat split; vm_compute; reflexivity. Qed.

(** ** Login: the two successful paths *)

Lemma update_one_length (q : query) (upd : doc) (coll : list doc) :
  length (update_one q upd coll).1 = length coll.
Proof.
  induction coll as [|d coll IH]; simpl; [done|].
  destruct (doc_matches q d); simpl; [done|].
  destruct (update_one q upd coll) as [coll' n]. simpl in *. by rewrite IH.
Qed.

Lemma update_one_Forall2 (q : query) (upd : doc) (coll : list doc) :
  Forall2 (fun a b => b = a \/ b = apply_set upd a) coll (update_one q upd coll).1.
Proof.
  induction coll as [|d coll IH]; simpl; [constructor|].
  destruct (doc_matches q d); simpl.
  - constructor; [by right|]. apply Forall2_same_length_lookup.
    split; [done|]. intros i x y Hx Hy. left. congruence.
  - destruct (update_one q upd coll) as [coll' n]. simpl in *.
    constructor; [by left | done].
Qed.

(** A first login.  When the session exchange answers 200 with an email
    that no stored user has, [process_session] appends one user, with the
    role "user", and one session for that user, and returns the session
    token together with the user found under the new id. *)
Theorem process_session_creates_user (w : World) (sid : string)
    (kvs : list (string * value)) (email name : string) (picture : option string) :
  emergent_auth w sid = Response 200 (Some (VDict kvs)) ->
  assoc "email" kvs = Some (VStr email) ->
  assoc "name" kvs = Some (VStr name) ->
  default VNone (assoc "picture" kvs) = opt_value VStr picture ->
  find_one [("email", Eq (VStr email))] (users (db w)) = None ->
  let uid := uuid_source w (drawn w) in
  let token := ("session_" ++ uuid_source w (S (drawn w)))%string in
  let u := prepare_for_mongo (User.dict (new_user_at email name picture w)) in
  let out := process_session sid w in
  out.1 = Ok (token, find_one [("id", Eq (VStr uid))] (users (db w) ++ [u]))
  /\ users (db out.2) = users (db w) ++ [u]
  /\ sessions (db out.2)
     = sessions (db w) ++ [session_doc token (VStr uid) (clock w (S (S (ticks w))))]
  /\ reports (db out.2) = reports (db w)
  /\ shelters (db out.2) = shelters (db w)
  /\ ai_updates (db out.2) = ai_updates (db w)
  /\ u !! "id" = Some (VStr uid)
  /\ u !! "email" = Some (VStr email)
  /\ u !! "name" = Some (VStr name)
  /\ u !! "role" = Some (VStr "user").
Proof.
  intros Hr He Hn Hp Hf uid token u out.
  assert (Hout : out = (Ok (token, find_one [("id", Eq (VStr uid))] (users (db w) ++ [u])),
                        mkWorld (set_sessions
                                   (insert_one (session_doc token (VStr uid)
                                                  (clock w (S (S (ticks w))))))
                                   (set_users (insert_one u) (db w)))
                                (environ w) (clock w) (S (S (S (ticks w))))
                                (uuid_source w) (S (S (drawn w))) (emergent_auth w))).
  { unfold out, process_session, try_except, bind at 1, requests_get.
    rewrite Hr. cbn [fst snd Z.eqb Pos.eqb negb response_json].
    unfold bind at 1, ret at 1. unfold bind at 1, subscript at 1. rewrite He.
    unfold ret at 1. rewrite bind_find_one, Hf. cbn [not_doc].
    unfold bind at 1. unfold bind at 1, subscript at 1. rewrite He. unfold ret at 1.
    unfold bind at 1, subscript at 1. rewrite Hn. unfold ret at 1.
    unfold dict_get. rewrite Hp.
    destruct picture as [p|]; reflexivity. }
  rewrite Hout. cbn [fst snd db set_sessions set_users users sessions reports
                     shelters ai_updates]. unfold insert_one.
  repeat (split; [reflexivity|]).
  unfold u, prepare_for_mongo, User.dict, new_user_at.
  cbn [list_to_map foldr uncurry User.id User.email User.name User.role].
  rewrite !lookup_fmap. repeat split; by simplify_map_eq.
Qed.

Lemma process_session_creates_user_witness :
  let uid := uuid_source world0 (drawn world0) in
  let token := ("session_" ++ uuid_source world0 (S (drawn world0)))%string in
  let u := prepare_for_mongo (User.dict (new_user_at "ada@example.org" "Ada" None world0)) in
  let out := process_session "good" world0 in
  out.1 = Ok (token, find_one [("id", Eq (VStr uid))] (users (db world0) ++ [u]))
  /\ users (db out.2) = users (db world0) ++ [u]
  /\ sessions (db out.2)
     = sessions (db world0)
       ++ [session_doc token (VStr uid) (clock world0 (S (S (ticks world0))))]
  /\ reports (db out.2) = reports (db world0)
  /\ shelters (db out.2) = shelters (db world0)
  /\ ai_updates (db out.2) = ai_updates (db world0)
  /\ u !! "id" = Some (VStr uid)
  /\ u !! "email" = Some (VStr "ada@example.org")
  /\ u !! "name" = Some (VStr "Ada")
  /\ u !! "role" = Some (VStr "user").
Proof.
  apply (process_session_creates_user world0 "good"
           [("email", VStr "ada@example.org"); ("name", VStr "Ada")]
           "ada@example.org" "Ada" None); reflexivity.
Defined.

(** A later login.  When the session exchange answers 200 with the email
    of a stored user, no user is added: the first user with that user's
    id gets a new [last_seen_at] and nothing else changes in the users,
    and one session for that id is appended. *)
Theorem process_session_known_user (w : World) (sid : string)
    (kvs : list (string * value)) (email uid : value) (known : doc) :
  emergent_auth w sid = Response 200 (Some (VDict kvs)) ->
  assoc "email" kvs = Some email ->
  find_one [("email", Eq email)] (users (db w)) = Some known ->
  known !! "id" = Some uid ->
  let token := ("session_" ++ uuid_source w (drawn w))%string in
  let seen : doc := {[ "last_seen_at" := VStr (isoformat (clock w (ticks w))) ]} in
  let users' := (update_one [("id", Eq uid)] seen (users (db w))).1 in
  let out := process_session sid w in
  out.1 = Ok (token, find_one [("id", Eq uid)] users')
  /\ users (db out.2) = users'
  /\ length users' = length (users (db w))
  /\ Forall2 (fun a b : doc => forall k, k <> "last_seen_at" -> b !! k = a !! k)
             (users (db w)) users'
  /\ sessions (db out.2)
     = sessions (db w) ++ [session_doc token uid (clock w (S (ticks w)))]
  /\ reports (db out.2) = reports (db w)
  /\ shelters (db out.2) = shelters (db w)
  /\ ai_updates (db out.2) = ai_updates (db w).
Proof.
  intros Hr He Hf Hid token seen users' out.
  assert (Hout : out = (Ok (token, find_one [("id", Eq uid)] users'),
                        mkWorld (set_sessions
                                   (insert_one (session_doc token uid
                                                  (clock w (S (ticks w)))))
                                   (set_users (fun _ => users') (db w)))
                                (environ w) (clock w) (S (S (ticks w)))
                                (uuid_source w) (S (drawn w)) (emergent_auth w))).
  { unfold out, process_session, try_except, bind at 1, requests_get.
    rewrite Hr. cbn [fst snd Z.eqb Pos.eqb negb response_json].
    unfold bind at 1, ret at 1. unfold bind at 1, subscript at 1. rewrite He.
    unfold ret at 1. rewrite bind_find_one, Hf.
    cbn [not_doc]. rewrite (lookup_Some_size_ne _ _ _ Hid).
    change (default ∅ (Some known)) with known.
    unfold bind at 1. unfold bind at 1, getitem at 1. rewrite Hid. unfold ret at 1.
    unfold bind at 1, datetime_now at 1. unfold bind at 1, db_update_one at 1.
    cbn [db users set_db]. fold seen. unfold users'.
    destruct (update_one [("id", Eq uid)] seen (users (db w))) as [coll' n].
    reflexivity. }
  rewrite Hout. cbn [fst snd db set_sessions set_users users sessions reports
                     shelters ai_updates]. unfold insert_one.
  split; [done|]. split; [done|]. split; [apply update_one_length|].
  split; [|done].
  eapply Forall2_impl; [apply update_one_Forall2|].
  intros a b [->| ->] k Hk; [done|].
  rewrite apply_set_lookup. unfold seen. by rewrite lookup_singleton_ne.
Qed.

(** The same visitor logs in a second time. *)
Lemma process_session_known_user_witness :
  let w := (process_session "good" world0).2 in
  let token := ("session_" ++ uuid_source w (drawn w))%string in
  let seen : doc := {[ "last_seen_at" := VStr (isoformat (clock w (ticks w))) ]} in
  let users' := (update_one [("id", Eq (VStr "uuid-0"))] seen (users (db w))).1 in
  let out := process_session "good" w in
  out.1 = Ok (token, find_one [("id", Eq (VStr "uuid-0"))] users')
  /\ users (db out.2) = users'
  /\ length users' = length (users (db w))
  /\ Forall2 (fun a b : doc => forall k, k <> "last_seen_at" -> b !! k = a !! k)
             (users (db w)) users'
  /\ sessions (db out.2)
     = sessions (db w) ++ [session_doc token (VStr "uuid-0") (clock w (S (ticks w)))]
  /\ reports (db out.2) = reports (db w)
  /\ shelters (db out.2) = shelters (db w)
  /\ ai_updates (db out.2) = ai_updates (db w).
Proof.
  apply (process_session_known_user (process_session "good" world0).2 "good"
           [("email", VStr "ada@example.org"); ("name", VStr "Ada")]
           (VStr "ada@example.org") (VStr "uuid-0")
           (prepare_for_mongo
              (User.dict (new_user_at "ada@example.org" "Ada" None world0))));
    vm_compute; reflexivity.
Defined.

Example two_logins_one_user :
  let w2 := (process_session "good" (process_session "good" world0).2).2 in
  length (users (db w2)) = 1%nat /\ length (sessions (db w2)) = 2%nat
  /\ (fun s : doc => s !! "session_token") <$> sessions (db w2)
     = [Some (VStr "session_uuid-1"); Some (VStr "session_uuid-2")].
Proof. repeat split; vm_compute; reflexivity. Qed.

(** ** Session tokens are minted from fresh uuids *)

Lemma advances_run {A} (m : M A) w r w' :
  advances m -> m w = (r, w') ->
  (drawn w <= drawn w')%nat /\ uuid_source w' = uuid_source w.
Proof. intros H E. specialize (H w). by rewrite E in H. Qed.

Lemma advances_ret {A} (a : A) : advances (ret a).
Proof. by intros w. Qed.

Lemma advances_raise {A} (e : exn) : advances (@raise A e).
Proof. by intros w. Qed.

Lemma advances_gets {A} (f : World -> A) : advances (gets f).
Proof. by intros w. Qed.

Lemma advances_bind {A B} (m : M A) (k : A -> M B) :
  advances m -> (forall a, advances (k a)) -> advances (bind m k).
Proof.
  intros Hm Hk w. unfold bind. specialize (Hm w).
  destruct (m w) as [[a|e] w1]; simpl in *; [|done].
  destruct (Hk a w1) as [H1 H2]. destruct Hm as [H3 H4].
  split; [lia | congruence].
Qed.

Lemma advances_if {A} (b : bool) (m1 m2 : M A) :
  advances m1 -> advances m2 -> advances (if b then m1 else m2).
Proof. by destruct b. Qed.

Lemma advances_uuid4 : advances uuid4.
Proof. intros w. simpl. split; [lia | done]. Qed.

Lemma advances_now : advances datetime_now.
Proof. by intros w. Qed.

Lemma advances_insert set d : advances (db_insert_one set d).
Proof. by intros w. Qed.

Lemma advances_update coll set q upd : advances (db_update_one coll set q upd).
Proof.
  intros w. unfold db_update_one. by destruct (update_one q upd (coll (db w))).
Qed.

Lemma advances_find_one coll q : advances (db_find_one coll q).
Proof. by intros w. Qed.

Lemma advances_getitem d k : advances (getitem d k).
Proof. intros w. unfold getitem. by destruct (d !! k). Qed.

Lemma advances_subscript v k : advances (subscript v k).
Proof. intros w. unfold subscript. destruct v; try done. by destruct (assoc k kvs). Qed.

Lemma advances_validated {A} (o : option A) what : advances (validated o what).
Proof. intros w. by destruct o. Qed.

Lemma advances_response_json json : advances (response_json json).
Proof. intros w. by destruct json. Qed.

Lemma advances_requests_get sid : advances (requests_get sid).
Proof. intros w. unfold requests_get. by destruct (emergent_auth w sid). Qed.

Create HintDb advances.

#[local] Hint Resolve advances_ret advances_raise advances_gets advances_uuid4
  advances_now advances_insert advances_update advances_find_one advances_getitem
  advances_subscript advances_validated advances_response_json
  advances_requests_get : advances.

Ltac advances_step :=
  first [ apply advances_bind; [|intros ?]
        | apply advances_if
        | solve [auto with advances] ].

(** The token of a successful login is made of a uuid drawn during that
    login. *)
Lemma process_session_token (sid : string) (w : World) token user :
  (process_session sid w).1 = Ok (token, user) ->
  exists n,
    token = ("session_" ++ uuid_source w n)%string
    /\ (drawn w <= n < drawn (process_session sid w).2)%nat
    /\ uuid_source (process_session sid w).2 = uuid_source w.
Proof.
  unfold process_session, try_except.
  match goal with |- context [match ?m w with _ => _ end] =>
    destruct (m w) as [[r|e] w'] eqn:E end; simpl; [|discriminate].
  intros [= ->].
  apply bind_inv_ok in E as (resp & w1 & E1 & E).
  apply requests_get_ok in E1 as ->.
  destruct (negb _); [discriminate|].
  apply bind_inv_ok in E as (user_data & w1 & E1 & E).
  apply advances_run in E1 as [L1 U1]; [|auto with advances].
  apply bind_inv_ok in E as (email & w2 & E1 & E).
  apply advances_run in E1 as [L2 U2]; [|auto with advances].
  apply bind_inv_ok in E as (existing & w3 & E1 & E).
  apply advances_run in E1 as [L3 U3]; [|auto with advances].
  apply bind_inv_ok in E as (user_id & w4 & E1 & E).
  apply advances_run in E1 as [L4 U4].
  2:{ unfold User_new. repeat advances_step. }
  apply bind_inv_ok in E as (uuid & w5 & E1 & E).
  injection E1 as <- <-.
  apply bind_inv_ok in E as (now & w6 & E1 & E). injection E1 as <- <-.
  apply bind_inv_ok in E as ([] & w7 & E1 & E). injection E1 as <-.
  apply bind_inv_ok in E as (u & w8 & E1 & E). injection E1 as <- <-.
  injection E as <- <- <-. exists (drawn w4). cbn [drawn uuid_source set_db].
  split; [congruence|]. split; [lia | congruence].
Qed.

Lemma append_inj_l (p a b : string) : (p ++ a)%string = (p ++ b)%string -> a = b.
Proof. induction p as [|c p IH]; simpl; [done|]. intros [= H]. by apply IH. Qed.

(** Two logins in a row, with whatever session ids, return different
    tokens as long as the uuid source never repeats itself. *)
Theorem sequential_logins_distinct_tokens (w : World) (sid1 sid2 : string)
    (token1 token2 : string) (user1 user2 : option doc) :
  (forall i j, uuid_source w i = uuid_source w j -> i = j) ->
  (process_session sid1 w).1 = Ok (token1, user1) ->
  (process_session sid2 (process_session sid1 w).2).1 = Ok (token2, user2) ->
  token1 <> token2.
Proof.
  intros Hinj H1 H2.
  apply process_session_token in H1 as (n1 & -> & Hn1 & Hu1).
  apply process_session_token in H2 as (n2 & -> & Hn2 & _).
  rewrite Hu1. intros Heq. apply append_inj_l in Heq.
  apply Hinj in Heq. lia.
Qed.

Lemma example_uuid_inj (i j : nat) : example_uuid i = example_uuid j -> i = j.
Proof.
  unfold example_uuid. intros H. apply append_inj_l in H.
  by apply (inj pretty) in H.
Qed.

Lemma sequential_logins_distinct_tokens_witness :
  "session_uuid-1" <> "session_uuid-2".
Proof.
  apply (sequential_logins_distinct_tokens world0 "good" "good"
           "session_uuid-1" "session_uuid-2"
           (head (users (db (process_session "good" world0).2)))
           (head (users (db (process_session "good"
                                (process_session "good" world0).2).2)))).
  - exact example_uuid_inj.
  - vm_compute. reflexivity.
  - vm_compute. reflexivity.
Defined.

(** ** Requests that fail write nothing *)

Lemma keeps_quiet_fail {A} (m : M A) : keeps db m -> quiet_fail m.
Proof. intros H w e _. apply H. Qed.

Lemma quiet_fail_bind_keeps {A B} (m : M A) (k : A -> M B) :
  keeps db m -> (forall a, quiet_fail (k a)) -> quiet_fail (bind m k).
Proof.
  intros Hm Hk w e. unfold bind. specialize (Hm w).
  destruct (m w) as [[a|e'] w1]; simpl in *; [|done].
  intros H. by rewrite (Hk a w1 e H).
Qed.

Lemma quiet_fail_bind_total {A B} (m : M A) (k : A -> M B) :
  quiet_fail m -> (forall a, never_raises (k a)) -> quiet_fail (bind m k).
Proof.
  intros Hm Hk w e. unfold bind. specialize (Hm w).
  destruct (m w) as [[a|e'] w1] eqn:E; simpl in *.
  - destruct (Hk a w1) as [b Hb]. congruence.
  - intros _. by apply (Hm e').
Qed.

Lemma quiet_fail_if {A} (b : bool) (m1 m2 : M A) :
  quiet_fail m1 -> quiet_fail m2 -> quiet_fail (if b then m1 else m2).
Proof. by destruct b. Qed.

Lemma quiet_fail_try_except {A} (m : M A) (e' : exn) :
  quiet_fail m -> quiet_fail (try_except m (fun _ => raise e')).
Proof.
  intros Hm w e. unfold try_except. specialize (Hm w).
  destruct (m w) as [[a|e0] w1]; simpl in *; [done|]. intros _. by apply (Hm e0).
Qed.

Lemma never_raises_ret {A} (a : A) : never_raises (ret a).
Proof. intros w. by exists a. Qed.

Lemma never_raises_bind {A B} (m : M A) (k : A -> M B) :
  never_raises m -> (forall a, never_raises (k a)) -> never_raises (bind m k).
Proof.
  intros Hm Hk w. unfold bind. destruct (Hm w) as [a Ha].
  destruct (m w) as [[a'|e] w1]; simpl in *; [|done]. apply Hk.
Qed.

Lemma never_raises_gets {A} (f : World -> A) : never_raises (gets f).
Proof. intros w. by eexists. Qed.

Lemma never_raises_uuid4 : never_raises uuid4.
Proof. intros w. by eexists. Qed.

Lemma never_raises_now : never_raises datetime_now.
Proof. intros w. by eexists. Qed.

Lemma never_raises_insert set d : never_raises (db_insert_one set d).
Proof. intros w. by eexists. Qed.

Lemma never_raises_update coll set q upd : never_raises (db_update_one coll set q upd).
Proof.
  intros w. unfold db_update_one. destruct (update_one q upd (coll (db w))).
  by eexists.
Qed.

Lemma never_raises_find_one coll q : never_raises (db_find_one coll q).
Proof. intros w. by eexists. Qed.

Create HintDb total.

#[local] Hint Resolve never_raises_ret never_raises_gets never_raises_uuid4
  never_raises_now never_raises_insert never_raises_update
  never_raises_find_one : total.

Ltac total_step :=
  first [ apply never_raises_bind; [|intros ?] | solve [auto with total] ].

Ltac keeps_db_step :=
  first [ apply (keeps_db_verify_session (fun d => d))
        | apply (keeps_db_verify_admin (fun d => d))
        | apply (keeps_db_now (fun d => d))
        | apply (keeps_db_uuid4 (fun d => d))
        | keeps_step ].

Lemma Database_eq (a b : Database) :
  users a = users b -> reports a = reports b -> shelters a = shelters b ->
  ai_updates a = ai_updates b -> sessions a = sessions b -> a = b.
Proof. destruct a, b. simpl. by intros -> -> -> -> ->. Qed.

Lemma quiet_fail_process_session sid : quiet_fail (process_session sid).
Proof.
  unfold process_session. apply quiet_fail_try_except.
  apply quiet_fail_bind_keeps; [keeps_db_step|intros resp].
  apply quiet_fail_if; [apply keeps_quiet_fail; keeps_db_step|].
  apply quiet_fail_bind_keeps; [keeps_db_step|intros user_data].
  apply quiet_fail_bind_keeps; [keeps_db_step|intros email].
  apply quiet_fail_bind_keeps; [keeps_db_step|intros existing].
  apply quiet_fail_bind_total; [|intros user_id; repeat total_step].
  apply quiet_fail_if.
  - apply quiet_fail_bind_keeps; [keeps_db_step|intros email'].
    apply quiet_fail_bind_keeps; [keeps_db_step|intros name].
    apply quiet_fail_bind_total; [|intros u; repeat total_step].
    apply keeps_quiet_fail. unfold User_new. repeat keeps_db_step.
  - apply quiet_fail_bind_total; [|intros u; repeat total_step].
    apply keeps_quiet_fail. keeps_db_step.
Qed.

Lemma quiet_fail_create_report report user_id : quiet_fail (create_report report user_id).
Proof.
  unfold create_report.
  apply quiet_fail_bind_total; [|intros u; repeat total_step].
  apply keeps_quiet_fail. unfold Report_new. repeat keeps_db_step.
Qed.

Lemma keeps_request_body {A X} (obs : World -> X) (body : option A) :
  keeps obs (request_body body).
Proof. intros w. unfold request_body. by destruct body. Qed.

Lemma quiet_fail_update_report report_id update user_id :
  quiet_fail (update_report report_id update user_id).
Proof.
  intros w e He.
  destruct (update_report_run w report_id update user_id) as (H1 & H2 & H3 & H4 & H5).
  cbv zeta in *.
  destruct (find_one _ (reports (db w))) as [d|].
  - destruct H5 as [Hok _]. congruence.
  - destruct H5 as [_ H5]. by apply Database_eq.
Qed.

Lemma quiet_fail_create_shelter shelter user_id :
  quiet_fail (create_shelter shelter user_id).
Proof.
  intros w e. unfold create_shelter, Shelter_new, bind, uuid4, datetime_now, ret.
  cbn [fst snd Shelter.capacity].
  destruct (int64 (ShelterCreate.capacity shelter)); [discriminate | done].
Qed.

(** A request that is answered with an error has written nothing: this
    holds for the login, for [POST /reports], for [PUT /reports/{id}] and
    for [POST /shelters], each with its guards.  In particular a login
    that fails never leaves a user without a session behind. *)
Theorem failed_requests_write_nothing (w : World) (authorization : option string)
    (sid report_id : string) (report : option ReportCreate.t)
    (update : option ReportUpdate.t) (shelter : option ShelterCreate.t) (e : exn) :
  ((process_session sid w).1 = Raise e -> db (process_session sid w).2 = db w)
  /\ ((post_reports authorization report w).1 = Raise e ->
      db (post_reports authorization report w).2 = db w)
  /\ ((put_report authorization report_id update w).1 = Raise e ->
      db (put_report authorization report_id update w).2 = db w)
  /\ ((post_shelters authorization shelter w).1 = Raise e ->
      db (post_shelters authorization shelter w).2 = db w).
Proof.
  split; [apply quiet_fail_process_session|].
  split; [|split].
  - apply (quiet_fail_bind_keeps (verify_session authorization)); [keeps_db_step|].
    intros u. apply quiet_fail_bind_keeps; [apply keeps_request_body|].
    intros r. apply quiet_fail_create_report.
  - apply (quiet_fail_bind_keeps (verify_session authorization)); [keeps_db_step|].
    intros u. apply quiet_fail_bind_keeps; [keeps_db_step|].
    intros u'. apply quiet_fail_bind_keeps; [apply keeps_request_body|].
    intros r. apply quiet_fail_update_report.
  - apply (quiet_fail_bind_keeps (verify_session authorization)); [keeps_db_step|].
    intros u. apply quiet_fail_bind_keeps; [keeps_db_step|].
    intros u'. apply quiet_fail_bind_keeps; [apply keeps_request_body|].
    intros r. apply quiet_fail_create_shelter.
Qed.

(** On [world2]: a body that does not validate, sent with a session that
    verifies, is answered 422; an update for an unknown report 404; a
    shelter whose capacity does not fit eight bytes is refused by the
    store; a session that holds a date fails in the verification. *)
Example failed_requests_on_world2 :
  (post_reports (Some "tok-user") None world2).1
  = Raise (HTTPException 422 "Unprocessable Entity")
  /\ (put_report (Some "tok-admin") "no-such-id" (Some example_update) world2).1
     = Raise (HTTPException 404 "Report not found")
  /\ (post_shelters (Some "tok-admin")
        (Some (ShelterCreate.mk "Arena" [] (2 ^ 63) "none" "general")) world2).1
     = Raise (OverflowError "MongoDB can only handle up to 8-byte ints")
  /\ (post_reports (Some "tok-login") (Some example_report) world2).1
     = Raise (TypeError
                "unsupported operand type(s) for -: 'datetime.datetime' and 'str'").
Proof. repeat split; vm_compute; reflexivity. Qed.

(** [POST /ai/analyze] never succeeds: with the credential configured it
    stops at [datetime.timedelta], without it at the configuration check,
    whose 500 the same [except] clause wraps.  Either way the answer is a
    500 and the store is as it was. *)
Theorem trigger_ai_analysis_always_500 (w : World) (user_id : value) :
  (exists detail, (trigger_ai_analysis user_id w).1 = Raise (HTTPException 500 detail))
  /\ db (trigger_ai_analysis user_id w).2 = db w.
Proof.
  unfold trigger_ai_analysis, try_except, bind, environ_get, gets.
  destruct (given (environ w !! "EMERGENT_LLM_KEY")); simpl; split; eauto.
Qed.

(** ** Reports: what is written can be read back *)

Lemma find_one_middle (q : query) (l1 l2 : list doc) (x : doc) :
  Forall (fun d => doc_matches q d = false) l1 -> doc_matches q x = true ->
  find_one q (l1 ++ x :: l2) = Some x.
Proof.
  intros Hl Hx. unfold find_one, find. rewrite List.filter_app.
  assert (List.filter (doc_matches q) l1 = []) as ->.
  { induction Hl as [|d l Hd _ IH]; simpl; [done|]. by rewrite Hd. }
  simpl. by rewrite Hx.
Qed.

Lemma find_one_app_old (q : query) (coll : list doc) (d x : doc) :
  find_one q coll = Some x -> find_one q (coll ++ [d]) = Some x.
Proof.
  unfold find_one, find. rewrite List.filter_app.
  destruct (List.filter (doc_matches q) coll); [discriminate | done].
Qed.

Lemma find_one_app_none (q : query) (coll : list doc) (d : doc) :
  find_one q coll = None -> doc_matches q d = false ->
  find_one q (coll ++ [d]) = None.
Proof.
  unfold find_one, find. intros Hn Hm. rewrite List.filter_app. simpl. rewrite Hm.
  destruct (List.filter (doc_matches q) coll); [done | discriminate].
Qed.

Lemma get_report_run (report_id : string) (w : World) :
  get_report report_id w
  = (match find_one [("id", Eq (VStr report_id))] (reports (db w)) with
     | Some d => Ok d
     | None => Raise (HTTPException 404 "Report not found")
     end, w).
Proof.
  unfold get_report. rewrite bind_find_one.
  destruct (find_one _ (reports (db w))) as [d|] eqn:Hf; [|done].
  apply find_one_Some in Hf as [Hm _]. unfold doc_matches in Hm.
  cbn [forallb fst snd] in Hm. rewrite andb_true_r in Hm.
  apply cond_holds_eq_str in Hm. cbn [not_doc].
  by rewrite (lookup_Some_size_ne _ _ _ Hm).
Qed.

Lemma doc_matches_id (d : doc) (id : string) :
  doc_matches [("id", Eq (VStr id))] d = true <-> d !! "id" = Some (VStr id).
Proof.
  unfold doc_matches. cbn [forallb fst snd]. rewrite andb_true_r.
  apply cond_holds_eq_str.
Qed.

(** A report that has just been created is what [GET /reports/{id}]
    returns under its id, provided no stored report already had that id;
    a stored report keeps being returned under its own id, and an id that
    no report has is still answered 404. *)
Theorem created_report_is_retrievable (w : World) (report : ReportCreate.t)
    (caller : string) :
  find_one [("id", Eq (VStr (uuid_source w (drawn w))))] (reports (db w)) = None ->
  let new := new_report_at report caller w in
  let w' := (create_report report (VStr caller) w).2 in
  get_report (Report.id new) w' = (Ok (prepare_for_mongo (Report.dict new)), w')
  /\ (forall rid d, find_one [("id", Eq (VStr rid))] (reports (db w)) = Some d ->
                    get_report rid w' = (Ok d, w'))
  /\ (forall rid, rid <> Report.id new ->
                  find_one [("id", Eq (VStr rid))] (reports (db w)) = None ->
                  get_report rid w' = (Raise (HTTPException 404 "Report not found"), w')).
Proof.
  intros Hfresh new w'.
  assert (Hreports : reports (db w')
                     = reports (db w) ++ [prepare_for_mongo (Report.dict new)]).
  { unfold w'. by rewrite create_report_run. }
  assert (Hid : prepare_for_mongo (Report.dict new) !! "id" = Some (VStr (Report.id new))).
  { by destruct (stored_report_fields new) as (-> & _). }
  split; [|split].
  - rewrite get_report_run, Hreports.
    rewrite (find_one_app_new _ _ _ Hfresh); [done|]. by apply doc_matches_id.
  - intros rid d Hd. rewrite get_report_run, Hreports.
    by rewrite (find_one_app_old _ _ _ _ Hd).
  - intros rid Hne Hnone. rewrite get_report_run, Hreports.
    rewrite find_one_app_none; [done | done |].
    apply not_true_iff_false. rewrite doc_matches_id, Hid. congruence.
Qed.

Lemma created_report_is_retrievable_witness :
  let new := new_report_at example_report "user-1" world1 in
  let w' := (create_report example_report (VStr "user-1") world1).2 in
  get_report (Report.id new) w' = (Ok (prepare_for_mongo (Report.dict new)), w')
  /\ (forall rid d, find_one [("id", Eq (VStr rid))] (reports (db world1)) = Some d ->
                    get_report rid w' = (Ok d, w'))
  /\ (forall rid, rid <> Report.id new ->
                  find_one [("id", Eq (VStr rid))] (reports (db world1)) = None ->
                  get_report rid w' = (Raise (HTTPException 404 "Report not found"), w')).
Proof.
  apply (created_report_is_retrievable world1 example_report "user-1").
  vm_compute. reflexivity.
Defined.

(** After an update of a stored report, [GET /reports/{id}] returns that
    report as the update leaves it: with the status of the update, with
    the score and the flag of the update where it holds one and the
    stored ones where it does not, with the new [updated_at], and with
    every other field, the id among them, as it was stored. *)
Theorem updated_report_is_read_back (w : World) (report_id : string)
    (update : ReportUpdate.t) (user_id : value) (d : doc) :
  find_one [("id", Eq (VStr report_id))] (reports (db w)) = Some d ->
  let w' := (update_report report_id update user_id w).2 in
  exists d',
    get_report report_id w' = (Ok d', w')
    /\ d' !! "id" = Some (VStr report_id)
    /\ d' !! "status" = Some (VStr (ReportUpdate.status update))
    /\ d' !! "ai_severity_score"
       = match ReportUpdate.ai_severity_score update with
         | Some q => Some (VFloat q)
         | None => d !! "ai_severity_score"
         end
    /\ d' !! "ai_auto_flag"
       = match ReportUpdate.ai_auto_flag update with
         | Some b => Some (VBool b)
         | None => d !! "ai_auto_flag"
         end
    /\ d' !! "updated_at" = Some (VStr (isoformat (clock w (ticks w))))
    /\ (forall k, k ∉ updated_fields -> d' !! k = d !! k).
Proof.
  intros Hf w'.
  destruct (update_report_run w report_id update user_id) as (_ & _ & _ & _ & H).
  cbv zeta in H. rewrite Hf in H. destruct H as (_ & l1 & l2 & Hc & Hl1 & Hnew).
  fold w' in Hnew.
  apply find_one_Some in Hf as [Hm _]. apply doc_matches_id in Hm.
  eexists. split; [|split; [|split; [|split; [|split; [|split]]]]].
  - rewrite get_report_run, Hnew. rewrite find_one_middle; [done | done |].
    apply doc_matches_id. rewrite apply_set_lookup, update_data_lookup.
    by rewrite !decide_False by done.
  - rewrite apply_set_lookup, update_data_lookup. by rewrite !decide_False by done.
  - by rewrite apply_set_lookup, update_data_lookup.
  - rewrite apply_set_lookup, update_data_lookup.
    by destruct (ReportUpdate.ai_severity_score update).
  - rewrite apply_set_lookup, update_data_lookup.
    by destruct (ReportUpdate.ai_auto_flag update).
  - by rewrite apply_set_lookup, update_data_lookup.
  - intros k Hk. rewrite apply_set_lookup, update_data_lookup.
    unfold updated_fields in Hk. rewrite !not_elem_of_cons in Hk.
    destruct Hk as (? & ? & ? & ? & _). by rewrite !decide_False by done.
Qed.

Lemma updated_report_is_read_back_witness :
  let stored := prepare_for_mongo
                  (Report.dict (new_report_at example_report "user-1" world0)) in
  let w' := (update_report "uuid-0" example_rescore (VStr "admin-1") world2).2 in
  exists d',
    get_report "uuid-0" w' = (Ok d', w')
    /\ d' !! "id" = Some (VStr "uuid-0")
    /\ d' !! "status" = Some (VStr (ReportUpdate.status example_rescore))
    /\ d' !! "ai_severity_score"
       = match ReportUpdate.ai_severity_score example_rescore with
         | Some q => Some (VFloat q)
         | None => stored !! "ai_severity_score"
         end
    /\ d' !! "ai_auto_flag"
       = match ReportUpdate.ai_auto_flag example_rescore with
         | Some b => Some (VBool b)
         | None => stored !! "ai_auto_flag"
         end
    /\ d' !! "updated_at" = Some (VStr (isoformat (clock world2 (ticks world2))))
    /\ (forall k, k ∉ updated_fields -> d' !! k = stored !! k).
Proof.
  apply (updated_report_is_read_back world2 "uuid-0" example_rescore (VStr "admin-1")).
  vm_compute. reflexivity.
Defined.

Lemma filter_Forall_sub {A} (P : A -> Prop) (f : A -> bool) (l : list A) :
  Forall P l -> Forall P (List.filter f l).
Proof.
  induction 1 as [|x l Hx _ IH]; simpl; [constructor|].
  destruct (f x); [by constructor | done].
Qed.

(** A report filed when every stored report is strictly older is the
    first entry of every listing whose filters it satisfies, in
    particular of the listing for its own city and the status "pending". *)
Theorem created_report_heads_its_listings (w : World) (report : ReportCreate.t)
    (caller : string) (city status : option string) :
  Forall (fun r => value_ltb (sort_key "created_at" r)
                             (VStr (isoformat (clock w (ticks w)))) = true)
         (reports (db w)) ->
  let stored := prepare_for_mongo (Report.dict (new_report_at report caller w)) in
  let w' := (create_report report (VStr caller) w).2 in
  filter_holds city "city" stored && filter_holds status "status" stored = true ->
  exists rest, get_reports city status w' = (Ok (stored :: rest), w').
Proof.
  intros Hold stored w' Hfilters.
  destruct (get_reports_query w' city status) as (q & -> & Hq).
  rewrite Hq. unfold matching.
  assert (Hreports : reports (db w') = reports (db w) ++ [stored]).
  { unfold w'. by rewrite create_report_run. }
  rewrite Hreports, List.filter_app. cbn [List.filter]. rewrite Hfilters.
  rewrite sort_desc_newest.
  - eexists. reflexivity.
  - apply filter_Forall_sub. eapply Forall_impl; [exact Hold|].
    intros r Hr. cbn beta. unfold sort_key at 2. unfold stored.
    by destruct (stored_report_fields (new_report_at report caller w))
      as (_ & _ & _ & _ & _ & _ & -> & _).
Qed.

Lemma created_report_heads_its_listings_witness :
  let stored := prepare_for_mongo
                  (Report.dict (new_report_at example_report "user-2" world1)) in
  let w' := (create_report example_report (VStr "user-2") world1).2 in
  exists rest, get_reports (Some "Paris") (Some "pending") w' = (Ok (stored :: rest), w').
Proof.
  apply (created_report_heads_its_listings world1 example_report "user-2"
           (Some "Paris") (Some "pending") world1_older).
  vm_compute. reflexivity.
Defined.

(** ** Shelters *)

Lemma create_shelter_run (shelter : ShelterCreate.t) (user_id : value) (w : World) :
  create_shelter shelter user_id w
  = if int64 (ShelterCreate.capacity shelter)
    then (Ok (new_shelter_at shelter w),
          mkWorld
            (set_shelters
               (insert_one (prepare_for_mongo (Shelter.dict (new_shelter_at shelter w))))
               (db w))
            (environ w) (clock w) (S (ticks w)) (uuid_source w) (S (drawn w))
            (emergent_auth w))
    else (Raise (OverflowError "MongoDB can only handle up to 8-byte ints"),
          mkWorld (db w) (environ w) (clock w) (S (ticks w)) (uuid_source w)
                  (S (drawn w)) (emergent_auth w)).
Proof.
  unfold create_shelter, Shelter_new, bind, uuid4, datetime_now, ret.
  cbn [fst snd Shelter.capacity]. by destruct (int64 (ShelterCreate.capacity shelter)).
Qed.

(** [POST /shelters] and [GET /shelters].  A shelter whose capacity fits
    eight bytes is added to the stored shelters under a new id; the
    listing that follows holds stored shelters only, 1000 of them at
    most, and all of them, the new one included, as long as no more than
    1000 are stored.  A shelter whose capacity does not fit is refused by
    the store: the handler raises [OverflowError] and no shelter is
    added.  The other collections are as they were in both cases. *)
Theorem created_shelter_and_listing (w : World) (shelter : ShelterCreate.t)
    (user_id : value) :
  let new := new_shelter_at shelter w in
  let stored := prepare_for_mongo (Shelter.dict new) in
  let out := create_shelter shelter user_id w in
  users (db out.2) = users (db w) /\ reports (db out.2) = reports (db w)
  /\ ai_updates (db out.2) = ai_updates (db w) /\ sessions (db out.2) = sessions (db w)
  /\ if int64 (ShelterCreate.capacity shelter)
     then out.1 = Ok new
          /\ shelters (db out.2) ≡ₚ stored :: shelters (db w)
          /\ stored !! "id" = Some (VStr (uuid_source w (drawn w)))
          /\ stored !! "name" = Some (VStr (ShelterCreate.name shelter))
          /\ stored !! "capacity" = Some (VInt (ShelterCreate.capacity shelter))
          /\ stored !! "type" = Some (VStr (ShelterCreate.type shelter))
          /\ exists listing,
               get_shelters out.2 = (Ok listing, out.2)
               /\ listing ⊆+ shelters (db out.2)
               /\ length listing = Nat.min 1000 (S (length (shelters (db w))))
     else out.1 = Raise (OverflowError "MongoDB can only handle up to 8-byte ints")
          /\ shelters (db out.2) = shelters (db w).
Proof.
  intros new stored out. unfold out. rewrite create_shelter_run.
  destruct (int64 (ShelterCreate.capacity shelter)); [|done].
  cbn [fst snd db set_shelters shelters users reports ai_updates sessions].
  unfold insert_one. do 5 (split; [reflexivity|]).
  fold new. fold stored.
  split; [by rewrite Permutation_app_comm|].
  assert (Hf : stored !! "id" = Some (VStr (uuid_source w (drawn w)))
               /\ stored !! "name" = Some (VStr (ShelterCreate.name shelter))
               /\ stored !! "capacity" = Some (VInt (ShelterCreate.capacity shelter))
               /\ stored !! "type" = Some (VStr (ShelterCreate.type shelter))).
  { unfold stored, new, prepare_for_mongo, Shelter.dict, new_shelter_at.
    cbn [list_to_map foldr uncurry Shelter.id Shelter.name Shelter.capacity
         Shelter.type]. rewrite !lookup_fmap. repeat split; by simplify_map_eq. }
  destruct Hf as (? & ? & ? & ?). do 4 (split; [done|]).
  eexists. split; [reflexivity|].
  cbn [db set_shelters shelters]. rewrite find_nil. unfold to_list. split.
  - apply sublist_submseteq, sublist_take.
  - rewrite length_take, length_app. cbn [length]. lia.
Qed.

(** On [world2] the town hall is stored and listed; an arena with a
    capacity of 2^63 is not. *)
Example create_shelter_on_world2 :
  let out := create_shelter example_shelter (VStr "admin-1") world2 in
  let big := ShelterCreate.mk "Arena" [] (2 ^ 63) "none" "general" in
  length (shelters (db out.2)) = 1%nat
  /\ (exists listing, (get_shelters out.2).1 = Ok listing /\ length listing = 1%nat)
  /\ (create_shelter big (VStr "admin-1") world2).1
     = Raise (OverflowError "MongoDB can only handle up to 8-byte ints")
  /\ shelters (db (create_shelter big (VStr "admin-1") world2).2) = [].
Proof.
  split; [vm_compute; reflexivity|]. split; [|split; vm_compute; reflexivity].
  eexists. split; [reflexivity|]. vm_compute. reflexivity.
Qed.

(** ** AI updates *)

(** [GET /ai/updates] returns the first 50 of the stored AI updates of
    the region asked for, latest [last_run_at] first; a region that is
    absent or the empty string selects them all. *)
Theorem get_ai_updates_listing (w : World) (region : option string) :
  (exists sorted,
     get_ai_updates region w = (Ok (take 50 sorted), w)
     /\ sorted ≡ₚ matching_updates w region
     /\ StronglySorted (desc_on "last_run_at") sorted)
  /\ get_ai_updates (Some "") w = get_ai_updates None w.
Proof.
  split; [|reflexivity].
  unfold get_ai_updates, matching_updates.
  destruct (given region) eqn:Eg.
  - apply given_Some in Eg as (c & -> & Hc). eexists. split; [reflexivity|].
    split; [|apply sort_desc_StronglySorted].
    rewrite sort_desc_Permutation. unfold find.
    erewrite List.filter_ext; [reflexivity|]. intros a. unfold doc_matches.
    cbn [app forallb fst snd opt_value from_option].
    by rewrite andb_true_r, cond_holds_filter_holds.
  - eexists. split; [reflexivity|]. split; [|apply sort_desc_StronglySorted].
    rewrite sort_desc_Permutation, find_nil.
    assert (List.filter (fun a => filter_holds region "region" a) (ai_updates (db w))
            = ai_updates (db w)) as ->; [|done].
    induction (ai_updates (db w)) as [|a l IH]; simpl; [done|].
    by rewrite (filter_holds_not_given region "region" a Eg), IH.
Qed.

(** ** The dashboard: errors, raw lists, projection *)

Lemma item_of_raise (report : doc) (w : World) :
  project report = None ->
  exists k, k ∈ projected_fields /\ item_of report w = (Raise (KeyError k), w).
Proof.
  unfold project, item_of, bind, getitem, projected_fields. intros H.
  destruct (report !! "id"); simpl in *; [|exists "id"; split; [set_solver|done]].
  destruct (report !! "title"); simpl in *; [|exists "title"; split; [set_solver|done]].
  destruct (report !! "severity"); simpl in *;
    [|exists "severity"; split; [set_solver|done]].
  destruct (report !! "created_at"); simpl in *;
    [|exists "created_at"; split; [set_solver|done]].
  destruct (report !! "location"); simpl in *;
    [done|exists "location"; split; [set_solver|done]].
Qed.

Lemma categorize_all_raise (rs : list doc) (b : buckets) (w : World) :
  Exists (fun r => project r = None) rs ->
  exists k, k ∈ projected_fields /\ categorize_all b rs w = (Raise (KeyError k), w).
Proof.
  revert b. induction rs as [|r rs IH]; intros b Hex; [by inversion Hex|].
  simpl. destruct (project r) as [item|] eqn:Hp.
  - destruct (project_class _ _ Hp) as [c Hc].
    rewrite (bind_ok _ _ _ _ _ (categorize_ok b r item c w Hp Hc)).
    apply IH. apply Exists_cons in Hex as [Hr|Hex]; [congruence | done].
  - destruct (item_of_raise r w Hp) as (k & Hk & Hr). exists k. split; [done|].
    unfold categorize. unfold bind at 1. unfold bind at 1. by rewrite Hr.
Qed.

(** One fetched report that lacks one of the five fields the projection
    reads makes the whole dashboard fail: the handler raises [KeyError]
    for such a field and returns no payload. *)
Theorem dashboard_fails_on_incomplete_report (w : World) :
  Exists (fun r => project r = None) (fetched_reports w) ->
  exists k, k ∈ projected_fields
            /\ get_dashboard_data w = (Raise (KeyError k), w).
Proof.
  intros Hex. unfold get_dashboard_data. rewrite !bind_gets.
  destruct (categorize_all_raise _ no_buckets w Hex) as (k & Hk & Hr).
  exists k. split; [done|]. unfold fetched_reports in Hr.
  by rewrite (bind_raise _ _ _ _ _ Hr).
Qed.

Lemma dashboard_fails_on_incomplete_report_witness :
  exists k, k ∈ projected_fields
            /\ get_dashboard_data world_untitled = (Raise (KeyError k), world_untitled).
Proof.
  apply (dashboard_fails_on_incomplete_report world_untitled).
  apply (bool_decide_unpack _). vm_compute. exact I.
Defined.

Lemma value_leb_refl (v : value) : value_leb v v = true.
Proof.
  destruct (value_leb v v) eqn:E; [done|].
  pose proof (value_leb_total _ _ E). congruence.
Qed.

Lemma sort_desc_head_max (field : string) (l : list doc) (x a : doc) :
  head (sort_desc field l) = Some x -> a ∈ l -> desc_on field x a.
Proof.
  intros Hh Ha. rewrite <- (sort_desc_Permutation field) in Ha.
  pose proof (sort_desc_StronglySorted field l) as Hs.
  destruct (sort_desc field l) as [|y s]; [discriminate|]. injection Hh as ->.
  inversion_clear Hs as [|? ? _ Hall].
  apply elem_of_cons in Ha as [->|Ha].
  - unfold desc_on. apply value_leb_refl.
  - rewrite Forall_forall in Hall. by apply Hall.
Qed.

(** Whenever the dashboard handler returns, the world is as it was; the
    raw lists are the first 100 reports (latest first), the first 100
    shelters and the first 20 AI updates (latest first); and
    [last_ai_update] is null without AI updates, otherwise the
    [last_run_at] of the first listed update, which no stored update
    exceeds. *)
Theorem dashboard_raw_lists (w w' : World) (d : dashboard) :
  get_dashboard_data w = (Ok d, w') ->
  w' = w
  /\ dash_reports d = to_list 100 (sort_desc "created_at" (reports (db w)))
  /\ dash_shelters d = to_list 100 (shelters (db w))
  /\ dash_ai_updates d = to_list 20 (sort_desc "last_run_at" (ai_updates (db w)))
  /\ match dash_ai_updates d with
     | [] => ai_updates (db w) = [] /\ last_ai_update d = VNone
     | latest :: _ =>
         latest !! "last_run_at" = Some (last_ai_update d)
         /\ forall a, a ∈ ai_updates (db w) ->
                      value_leb (sort_key "last_run_at" a) (last_ai_update d) = true
     end.
Proof.
  unfold get_dashboard_data. rewrite !bind_gets, !find_nil. intros H.
  apply bind_inv_ok in H as (b & w1 & H1 & H).
  apply categorize_all_inv in H1 as (-> & _ & _).
  apply bind_inv_ok in H as (last & w1 & H1 & H).
  set (rs := to_list 100 (sort_desc "created_at" (reports (db w)))) in *.
  set (ss := to_list 100 (shelters (db w))) in *.
  set (us := to_list 20 (sort_desc "last_run_at" (ai_updates (db w)))) in *.
  assert (Hd : d = mkDashboard rs ss us
                     (mkSeverityLists (take 5 (city_critical b)) (take 5 (city_moderate b))
                                      (take 5 (city_low b)))
                     (mkSeverityLists (take 5 (world_critical b))
                                      (take 5 (world_moderate b)) (take 5 (world_low b)))
                     last /\ w' = w1) by (unfold ret in H; split; congruence).
  destruct Hd as [-> ->]. clear H.
  cbn [dash_reports dash_shelters dash_ai_updates last_ai_update].
  destruct us as [|latest rest] eqn:Ht.
  - unfold ret in H1. assert (last = VNone /\ w1 = w) as [-> ->] by (split; congruence).
    do 4 (split; [done|]). split; [|done].
    unfold us, to_list in Ht.
    destruct (sort_desc "last_run_at" (ai_updates (db w))) as [|x s] eqn:Hs;
      [|discriminate Ht].
    apply Permutation_nil_r. by rewrite <- (sort_desc_Permutation "last_run_at"), Hs.
  - apply getitem_inv in H1 as [Hl ->]. do 4 (split; [done|]). split; [done|].
    intros a Ha.
    assert (Hh : head (sort_desc "last_run_at" (ai_updates (db w))) = Some latest).
    { unfold us, to_list in Ht.
      destruct (sort_desc "last_run_at" (ai_updates (db w))); [discriminate Ht|].
      by injection Ht as -> _. }
    pose proof (sort_desc_head_max _ _ _ _ Hh Ha) as Hmax.
    unfold desc_on in Hmax. unfold sort_key at 2 in Hmax. by rewrite Hl in Hmax.
Qed.

Lemma dashboard_raw_lists_witness :
  exists d,
    world7 = world7
    /\ dash_reports d = to_list 100 (sort_desc "created_at" (reports (db world7)))
    /\ dash_shelters d = to_list 100 (shelters (db world7))
    /\ dash_ai_updates d = to_list 20 (sort_desc "last_run_at" (ai_updates (db world7)))
    /\ match dash_ai_updates d with
       | [] => ai_updates (db world7) = [] /\ last_ai_update d = VNone
       | latest :: _ =>
           latest !! "last_run_at" = Some (last_ai_update d)
           /\ forall a, a ∈ ai_updates (db world7) ->
                        value_leb (sort_key "last_run_at" a) (last_ai_update d) = true
       end.
Proof.
  destruct (dashboard_readable_ok world7 world7_readable) as [d Hd].
  exists d. exact (dashboard_raw_lists world7 world7 d Hd).
Defined.

(** The projection of a report created through the API: the five fields
    read with [report[...]] are there, and [city] and [country] are the
    stored values, null when the creator gave none.  The default
    "Unknown" of [report.get] is never used for such a report, since its
    document has both keys. *)
Theorem created_report_projection (r : Report.t) :
  exists item,
    project (prepare_for_mongo (Report.dict r)) = Some item
    /\ item !! "id" = Some (VStr (Report.id r))
    /\ item !! "title" = Some (VStr (Report.title r))
    /\ item !! "severity" = Some (VStr (Report.severity r))
    /\ item !! "created_at" = Some (VStr (isoformat (Report.created_at r)))
    /\ item !! "city" = Some (opt_value VStr (Report.city r))
    /\ item !! "country" = Some (opt_value VStr (Report.country r))
    /\ dom item = list_to_set ["id"; "title"; "city"; "country"; "severity";
                               "created_at"; "location"].
Proof.
  unfold project, get_default, prepare_for_mongo, Report.dict.
  cbn [list_to_map foldr uncurry]. rewrite !lookup_fmap.
  simplify_map_eq. eexists. split; [reflexivity|].
  cbn [list_to_map foldr uncurry].
  repeat split; try (by simplify_map_eq).
  - simplify_map_eq. by destruct (Report.city r).
  - simplify_map_eq. by destruct (Report.country r).
Qed.

(** ** The aggregation stub: grouping by city *)

Lemma py_eqb_refl_hashable (v : value) : hashable v = true -> py_eqb v v = true.
Proof.
  destruct v; try discriminate; intros _; unfold py_eqb; simpl;
    try apply Qeq_bool_refl; try apply String.eqb_refl; try apply Z.eqb_refl; try done.
Qed.

Lemma ForallOrdPairs_snoc {A} (R : A -> A -> Prop) (l : list A) (x : A) :
  ForallOrdPairs R l -> Forall (fun y => R y x) l -> ForallOrdPairs R (l ++ [x]).
Proof.
  induction 1 as [|y l Hy Hl IH]; intros Hx; simpl.
  - constructor; constructor.
  - inversion_clear Hx. constructor; [|by apply IH].
    apply Forall_app. split; [done|]. by constructor.
Qed.

Lemma group_append_spec (g : groups) (city : value) (report : doc) :
  hashable city = true -> city = city_of report -> well_grouped g ->
  well_grouped (group_append g city report)
  /\ grouped_reports (group_append g city report) ≡ₚ report :: grouped_reports g
  /\ (length (group_append g city report) <= S (length g))%nat.
Proof.
  intros Hh Hc [Hg Hd]. unfold grouped_reports.
  induction g as [|[c rs] g IH]; simpl.
  - split; [|done]. split; [|constructor; constructor].
    constructor; [|done]. split; [done|]. constructor; [|done].
    subst city. by apply py_eqb_refl_hashable.
  - inversion_clear Hg as [|? ? [Hne Hrs] Hg']. inversion_clear Hd as [|? ? Hc' Hd'].
    destruct (py_eqb c city) eqn:E.
    + split; [split|split].
      * constructor; [|done]. cbn. split; [by destruct rs|].
        apply Forall_app. split; [done|]. constructor; [|done]. by subst city.
      * by constructor.
      * cbn. rewrite <- app_assoc. cbn. by rewrite Permutation_middle.
      * cbn. lia.
    + destruct (IH Hg' Hd') as ([Hg1 Hd1] & Hp & Hl). split; [split|split].
      * by constructor.
      * constructor; [|done].
        clear -Hc' E. induction g as [|[c' rs'] g IH]; simpl.
        -- by repeat constructor.
        -- inversion_clear Hc'. destruct (py_eqb c' city); constructor; auto.
      * cbn. rewrite Hp. by rewrite Permutation_middle.
      * cbn. lia.
Qed.

Lemma group_by_city_spec (rs : list doc) (g : groups) (w : World) :
  Forall (fun r => hashable (city_of r) = true) rs -> well_grouped g ->
  exists g', group_by_city g rs w = (Ok g', w)
             /\ well_grouped g'
             /\ grouped_reports g' ≡ₚ grouped_reports g ++ rs
             /\ (length g' <= length g + length rs)%nat.
Proof.
  intros Hrs. revert g. induction Hrs as [|r rs Hr _ IH]; intros g Hg; simpl.
  - exists g. rewrite app_nil_r. split; [done|]. split; [done|].
    split; [done | simpl; lia].
  - fold (city_of r). rewrite Hr.
    destruct (group_append_spec g (city_of r) r Hr eq_refl Hg) as (Hg1 & Hp1 & Hl1).
    destruct (IH _ Hg1) as (g' & Hrun & Hg' & Hp & Hl).
    exists g'. split; [done|]. split; [done|]. split.
    + rewrite Hp, Hp1. simpl. apply Permutation_middle.
    + simpl. lia.
Qed.

(** The grouping loop of the aggregation stub.  When the city of every
    report is hashable (null, a number, a str, ...), the loop returns
    groups that hold each report exactly once, none of them empty, each
    made of reports of the group's own city, with no city shared between
    two groups; there are at most as many groups as reports.  A report
    whose [city] key is missing goes under "Unknown", a report whose
    [city] is null under null. *)
Theorem group_by_city_partitions (rs : list doc) (w : World) :
  Forall (fun r => hashable (city_of r) = true) rs ->
  exists g, group_by_city [] rs w = (Ok g, w)
            /\ well_grouped g
            /\ grouped_reports g ≡ₚ rs
            /\ (length g <= length rs)%nat.
Proof.
  intros Hrs.
  destruct (group_by_city_spec rs [] w Hrs) as (g & Hrun & Hg & Hp & Hl).
  { split; constructor. }
  by exists g.
Qed.

Lemma group_by_city_partitions_witness :
  exists g, group_by_city [] (reports (db world7)) world7 = (Ok g, world7)
            /\ well_grouped g
            /\ grouped_reports g ≡ₚ reports (db world7)
            /\ (length g <= length (reports (db world7)))%nat.
Proof.
  apply (group_by_city_partitions (reports (db world7)) world7).
  apply (bool_decide_unpack _). vm_compute. exact I.
Defined.

(** A report whose city is a list or a dict stops the grouping with
    [TypeError]; a missing key and a null are told apart. *)
Example group_by_city_edges :
  (group_by_city [] [ {[ "city" := VList [] ]} ] world0).1
  = Raise (TypeError "unhashable type: 'list'")
  /\ (group_by_city [] [ ∅; {[ "city" := VNone ]}; ∅ ] world0).1
     = Ok [(VStr "Unknown", [∅; ∅]); (VNone, [ {[ "city" := VNone ]} ])].
Proof. split; vm_compute; reflexivity. Qed.

(** ** The aggregation stub: one city group *)

Lemma score_patch_lookup (now : Z) (k : string) :
  score_patch now !! k
  = if decide (k = "ai_severity_score") then Some (VFloat severity_score)
    else if decide (k = "ai_auto_flag") then Some (VBool false)
    else if decide (k = "updated_at") then Some (VStr (isoformat now))
    else None.
Proof.
  unfold score_patch. cbn [list_to_map foldr uncurry].
  destruct (decide (k = "ai_severity_score")) as [->|H1]; [by simplify_map_eq|].
  destruct (decide (k = "ai_auto_flag")) as [->|H2]; [by simplify_map_eq|].
  destruct (decide (k = "updated_at")) as [->|H3]; by simplify_map_eq.
Qed.

Lemma apply_score_patch (now : Z) (d : doc) :
  patched (apply_set (score_patch now) d)
  /\ patch_step d (apply_set (score_patch now) d).
Proof.
  assert (Hp : patched (apply_set (score_patch now) d)).
  { unfold patched. rewrite !apply_set_lookup, !score_patch_lookup.
    split; [done|]. split; [done|]. by exists now. }
  split; [done|]. split; [|done].
  intros k Hk. unfold patched_fields in Hk. rewrite !not_elem_of_cons in Hk.
  destruct Hk as (? & ? & ? & _).
  rewrite apply_set_lookup, score_patch_lookup. by rewrite !decide_False by done.
Qed.

Lemma patch_step_refl (d : doc) : patch_step d d.
Proof. by split. Qed.

Lemma patch_step_trans (a b c : doc) : patch_step a b -> patch_step b c -> patch_step a c.
Proof.
  intros [H1 H2] [H3 H4]. split; [|auto]. intros k Hk. by rewrite H3, H1.
Qed.

Lemma patch_step_matches (id : value) (d d' : doc) :
  patch_step d d' ->
  doc_matches [("id", Eq id)] d' = doc_matches [("id", Eq id)] d.
Proof.
  intros [H _]. unfold doc_matches, cond_holds. cbn [forallb fst snd].
  rewrite H; [done|]. unfold patched_fields. rewrite !not_elem_of_cons.
  repeat split; try done. apply not_elem_of_nil.
Qed.

Lemma patch_step_find_one (id : value) (l l' : list doc) :
  Forall2 patch_step l l' ->
  match find_one [("id", Eq id)] l, find_one [("id", Eq id)] l' with
  | Some d, Some d' => patch_step d d'
  | None, None => True
  | _, _ => False
  end.
Proof.
  unfold find_one, find. induction 1 as [|d d' l l' Hd _ IH]; [done|].
  cbn [List.filter]. rewrite (patch_step_matches id d d' Hd).
  by destruct (doc_matches [("id", Eq id)] d).
Qed.

(** The second loop of the body: every report of the group is patched. *)
Lemma patch_loop (group : list doc) (w : World) :
  Forall (fun r => is_Some (r !! "id")) group ->
  let out :=
    for_each group
      (fun report =>
         id <- getitem report "id" ;;
         now <- datetime_now ;;
         db_update_one reports set_reports [("id", Eq id)] (score_patch now) ;;;
         ret tt) w in
  out.1 = Ok tt
  /\ users (db out.2) = users (db w) /\ shelters (db out.2) = shelters (db w)
  /\ ai_updates (db out.2) = ai_updates (db w) /\ sessions (db out.2) = sessions (db w)
  /\ Forall2 patch_step (reports (db w)) (reports (db out.2))
  /\ forall r id d', r ∈ group -> r !! "id" = Some id ->
       find_one [("id", Eq id)] (reports (db out.2)) = Some d' -> patched d'.
Proof.
  intros Hids. revert w. induction Hids as [|r group [id Hid] _ IH]; intros w.
  - cbn. repeat (split; [done|]). split.
    + apply Forall2_same_length_lookup. split; [done|]. intros i x y Hx Hy.
      assert (x = y) as -> by congruence. apply patch_step_refl.
    + intros r id d' Hr. by apply elem_of_nil in Hr.
  - cbn [for_each]. cbv zeta.
    set (now := clock w (ticks w)).
    set (coll1 := (update_one [("id", Eq id)] (score_patch now) (reports (db w))).1).
    set (w1 := mkWorld (set_reports (fun _ => coll1) (db w)) (environ w) (clock w)
                       (S (ticks w)) (uuid_source w) (drawn w) (emergent_auth w)).
    assert (Hstep : (id <- getitem r "id" ;;
                     now <- datetime_now ;;
                     db_update_one reports set_reports [("id", Eq id)] (score_patch now) ;;;
                     ret tt) w = (Ok tt, w1)).
    { unfold bind at 1. rewrite (getitem_ok _ _ _ _ Hid).
      unfold bind at 1, datetime_now. unfold bind, db_update_one. cbn [db reports].
      unfold w1, coll1, now.
      by destruct (update_one [("id", Eq id)] (score_patch (clock w (ticks w)))
                              (reports (db w))). }
    rewrite (bind_ok _ _ _ _ _ Hstep).
    destruct (IH w1) as (Hok & Hu & Hsh & Hai & Hse & Hf2 & Hpat). cbv zeta in *.
    assert (Hf1 : Forall2 patch_step (reports (db w)) coll1).
    { unfold coll1. eapply Forall2_impl; [apply update_one_Forall2|].
      intros a b [->| ->]; [apply patch_step_refl | apply apply_score_patch]. }
    split; [done|]. do 4 (split; [done|]). split.
    + eapply Forall2_trans; [|exact Hf1|exact Hf2]. apply patch_step_trans.
    + intros r' id' d' Hr' Hid' Hd'.
      apply elem_of_cons in Hr' as [->|Hr']; [|by eapply Hpat].
      assert (id' = id) as -> by congruence.
      pose proof (patch_step_find_one id _ _ Hf2) as Hcorr. rewrite Hd' in Hcorr.
      cbn [db reports set_reports w1] in Hcorr.
      pose proof (update_one_spec [("id", Eq id)] (score_patch now) (reports (db w)))
        as Hspec.
      pose proof (patch_step_find_one id _ _ Hf1) as Hcorr1.
      destruct (find_one [("id", Eq id)] (reports (db w))) as [d0|] eqn:Hf0.
      * destruct Hspec as (l1 & l2 & Hc & Hl1 & Hup).
        destruct (apply_score_patch now d0) as [Hpat0 Hstep0].
        assert (Hfirst : find_one [("id", Eq id)] coll1
                         = Some (apply_set (score_patch now) d0)).
        { unfold coll1. rewrite Hup. cbn [fst].
          apply find_one_middle; [done|].
          rewrite (patch_step_matches id d0 _ Hstep0).
          by apply find_one_Some in Hf0 as [? _]. }
        rewrite Hfirst in Hcorr. destruct Hcorr as [_ Hkeep]. by apply Hkeep.
      * by destruct (find_one [("id", Eq id)] coll1).
Qed.

Lemma read_loop (group : list doc) (w : World) :
  Forall analysable group ->
  for_each group
    (fun report => getitem report "title" ;;; getitem report "description" ;;;
                   getitem report "severity" ;;; ret tt) w = (Ok tt, w).
Proof.
  induction 1 as [|r group ([t Ht] & [de Hde] & [s Hs] & _) _ IH]; [done|].
  cbn [for_each]. unfold bind at 1. unfold bind at 1. rewrite (getitem_ok _ _ _ _ Ht).
  unfold bind at 1. rewrite (getitem_ok _ _ _ _ Hde).
  unfold bind at 1. rewrite (getitem_ok _ _ _ _ Hs). exact IH.
Qed.

Lemma AIUpdate_new_run (region region_name summary : string)
    (severity_data : list value) (w : World) :
  AIUpdate_new region (VStr region_name) summary severity_data w
  = (Ok (AIUpdate.mk (uuid_source w (drawn w)) region region_name summary
                     severity_data (clock w (ticks w))),
     mkWorld (db w) (environ w) (clock w) (S (ticks w)) (uuid_source w)
             (S (drawn w)) (emergent_auth w)).
Proof. done. Qed.

Lemma db_insert_one_run (set : (list doc -> list doc) -> Database -> Database)
    (d : doc) (w : World) :
  db_insert_one set d w = (Ok tt, set_db (set (insert_one d)) w).
Proof. done. Qed.

Lemma bind_then_ret {A B} (m : M A) (b : B) (x : A) (w : World) :
  (m w).1 = Ok x -> (m ;;; ret b) w = (Ok b, (m w).2).
Proof. unfold bind. by destruct (m w) as [[?|?] ?]. Qed.

(** The body of the loop over the city groups.  For a group whose city is
    a str and whose reports can be read, it persists exactly one
    AIUpdate, with [region] "city", the city as [region_name], the
    formulaic summary and one incident taken from the first report.
    Every stored report that is first under the id of a report of the
    group ends up with the score 0.6, the flag false and a new
    [updated_at]; no stored report changes outside these three fields and
    the other collections are as they were. *)
Theorem analyze_city_persists_and_patches (w : World) (city : string)
    (first : doc) (rest : list doc) :
  Forall analysable (first :: rest) ->
  let out := analyze_city (VStr city) (first :: rest) w in
  exists title,
    first !! "title" = Some title
    /\ let a := AIUpdate.mk (uuid_source w (drawn w)) "city" city
                  ("Monitoring " ++ pretty (length (first :: rest)) ++ " incidents in "
                   ++ city ++ ". Situation under control.")%string
                  [VDict [("title", title); ("severity", VStr "moderate");
                          ("priority", VInt 1)]]
                  (clock w (ticks w)) in
       out.1 = Ok a
       /\ ai_updates (db out.2) = ai_updates (db w) ++ [prepare_for_mongo (AIUpdate.dict a)]
       /\ users (db out.2) = users (db w)
       /\ shelters (db out.2) = shelters (db w)
       /\ sessions (db out.2) = sessions (db w)
       /\ Forall2 patch_step (reports (db w)) (reports (db out.2))
       /\ forall r id d', r ∈ first :: rest -> r !! "id" = Some id ->
            find_one [("id", Eq id)] (reports (db out.2)) = Some d' -> patched d'.
Proof.
  intros Hgroup out.
  pose proof Hgroup as Hfirst. apply Forall_cons in Hfirst as [([title Ht] & _) _].
  exists title. split; [done|]. intros a.
  set (w2 := mkWorld (set_ai_updates (insert_one (prepare_for_mongo (AIUpdate.dict a)))
                                     (db w))
                     (environ w) (clock w) (S (ticks w)) (uuid_source w) (S (drawn w))
                     (emergent_auth w)).
  assert (Hids : Forall (fun r => is_Some (r !! "id")) (first :: rest)).
  { eapply Forall_impl; [exact Hgroup|]. by intros r (_ & _ & _ & ?). }
  destruct (patch_loop (first :: rest) w2 Hids) as (Hok & Hu & Hsh & Hai & Hse & Hf2 & Hp).
  cbv zeta in *.
  assert (Hout : out = (Ok a, (for_each (first :: rest)
      (fun report =>
         id <- getitem report "id" ;;
         now <- datetime_now ;;
         db_update_one reports set_reports [("id", Eq id)] (score_patch now) ;;;
         ret tt) w2).2)).
  { unfold out, analyze_city. rewrite (bind_ok _ _ _ _ _ (read_loop _ w Hgroup)).
    rewrite (bind_ok _ _ _ _ _ (getitem_ok _ _ _ _ Ht)).
    rewrite (bind_ok _ _ _ _ _ (AIUpdate_new_run "city" city _ _ w)).
    cbv beta.
    rewrite (bind_ok _ _ _ _ _ (db_insert_one_run _ _ _)).
    exact (bind_then_ret _ _ _ _ Hok). }
  rewrite Hout. cbn [fst snd]. split; [done|].
  rewrite Hai, Hu, Hsh, Hse. do 4 (split; [done|]). split; [exact Hf2 | exact Hp].
Qed.

Lemma analyze_city_persists_and_patches_witness :
  let first := prepare_for_mongo (Report.dict (new_report_at example_report "user-1" world0)) in
  let out := analyze_city (VStr "Paris") [first] world1 in
  exists title,
    first !! "title" = Some title
    /\ let a := AIUpdate.mk (uuid_source world1 (drawn world1)) "city" "Paris"
                  ("Monitoring " ++ pretty (length [first]) ++ " incidents in "
                   ++ "Paris" ++ ". Situation under control.")%string
                  [VDict [("title", title); ("severity", VStr "moderate");
                          ("priority", VInt 1)]]
                  (clock world1 (ticks world1)) in
       out.1 = Ok a
       /\ ai_updates (db out.2)
          = ai_updates (db world1) ++ [prepare_for_mongo (AIUpdate.dict a)]
       /\ users (db out.2) = users (db world1)
       /\ shelters (db out.2) = shelters (db world1)
       /\ sessions (db out.2) = sessions (db world1)
       /\ Forall2 patch_step (reports (db world1)) (reports (db out.2))
       /\ forall r id d', r ∈ [first] -> r !! "id" = Some id ->
            find_one [("id", Eq id)] (reports (db out.2)) = Some d' -> patched d'.
Proof.
  apply (analyze_city_persists_and_patches world1 "Paris").
  apply Forall_singleton. repeat split; eexists; vm_compute; reflexivity.
Defined.


(** ** [prepare_for_mongo] *)

Lemma value_nested_ind (P : value -> Prop) :
  P VNone -> (forall b, P (VBool b)) -> (forall z, P (VInt z)) ->
  (forall q, P (VFloat q)) -> (forall s, P (VStr s)) -> (forall t, P (VDatetime t)) ->
  (forall kvs, Forall (fun kv => P kv.2) kvs -> P (VDict kvs)) ->
  (forall vs, Forall P vs -> P (VList vs)) ->
  forall v, P v.
Proof.
  intros HN HB HI HF HS HT HD HL.
  refine (fix IH (v : value) : P v :=
            match v with
            | VNone => HN | VBool b => HB b | VInt z => HI z | VFloat q => HF q
            | VStr s => HS s | VDatetime t => HT t
            | VDict kvs =>
                HD kvs ((fix go (l : list (string * value)) : Forall (fun kv => P kv.2) l :=
                           match l with
                           | [] => @List.Forall_nil _ _
                           | (k, x) :: l' => @List.Forall_cons _ (fun kv => P kv.2) (k, x) l' (IH x) (go l')
                           end) kvs)
            | VList vs =>
                HL vs ((fix go (l : list value) : Forall P l :=
                          match l with
                          | [] => @List.Forall_nil _ _
                          | x :: l' => @List.Forall_cons _ P x l' (IH x) (go l')
                          end) vs)
            end).
Qed.

Lemma prepare_field_idem (v : value) :
  prepare_field (prepare_field v) = prepare_field v
  /\ prepare_nested (prepare_nested v) = prepare_nested v.
Proof.
  induction v as [| | | | | |kvs IH|vs IH] using value_nested_ind; try done.
  - assert (H : prepare_nested (prepare_nested (VDict kvs)) = prepare_nested (VDict kvs)).
    { cbn [prepare_nested]. f_equal. rewrite List.map_map. apply List.map_ext_in.
      intros [k v] Hin. f_equal.
      apply (proj1 (List.Forall_forall _ _) IH) in Hin as [Hv _]. exact Hv. }
    split; exact H.
  - split; [|done]. cbn [prepare_field]. f_equal. rewrite List.map_map.
    apply List.map_ext_in. intros item Hin.
    apply (proj1 (List.Forall_forall _ _) IH) in Hin as [_ Hn].
    by destruct item.
Qed.

(** [prepare_for_mongo] keeps the keys of the dict, leaves no field that
    is a datetime, returns every field that is neither a datetime, a dict
    nor a list as it is, and changes nothing when it is applied a second
    time. *)
Theorem prepare_for_mongo_idempotent (data : doc) :
  dom (prepare_for_mongo data) = dom data
  /\ (forall k t, prepare_for_mongo data !! k <> Some (VDatetime t))
  /\ (forall k v, data !! k = Some v ->
        match v with
        | VDatetime t => prepare_for_mongo data !! k = Some (VStr (isoformat t))
        | VDict _ | VList _ => True
        | _ => prepare_for_mongo data !! k = Some v
        end)
  /\ prepare_for_mongo (prepare_for_mongo data) = prepare_for_mongo data.
Proof.
  unfold prepare_for_mongo. split; [apply dom_fmap_L|]. split; [|split].
  - intros k t. rewrite lookup_fmap. destruct (data !! k) as [v|]; [|done].
    cbn. intros [= H]. by destruct v.
  - intros k v Hk. rewrite lookup_fmap, Hk. by destruct v.
  - rewrite <- map_fmap_compose. apply map_fmap_ext. intros k v _. cbn.
    apply prepare_field_idem.
Qed.

(** A datetime that is an item of a list is not converted:
    [prepare_for_mongo] is called on it and returns it as it is. *)
Theorem prepare_for_mongo_keeps_datetime_in_list (data : doc) (k : string)
    (items : list value) (t : Z) :
  data !! k = Some (VList items) -> VDatetime t ∈ items ->
  exists items',
    prepare_for_mongo data !! k = Some (VList items')
    /\ length items' = length items /\ VDatetime t ∈ items'.
Proof.
  intros Hk Hin. unfold prepare_for_mongo. rewrite lookup_fmap, Hk. cbn.
  eexists. split; [done|]. split; [by rewrite length_map|].
  apply list_elem_of_In, List.in_map_iff. exists (VDatetime t).
  split; [done | by apply list_elem_of_In].
Qed.

Lemma prepare_for_mongo_keeps_datetime_in_list_witness :
  exists items',
    prepare_for_mongo {[ "seen" := VList [VStr "a"; VDatetime 0] ]} !! "seen"
    = Some (VList items')
    /\ length items' = length [VStr "a"; VDatetime 0] /\ VDatetime 0 ∈ items'.
Proof.
  apply (prepare_for_mongo_keeps_datetime_in_list
           {[ "seen" := VList [VStr "a"; VDatetime 0] ]} "seen"
           [VStr "a"; VDatetime 0] 0).
  - vm_compute. reflexivity.
  - apply list_elem_of_further, list_elem_of_here.
Defined.

(** ** The aggregation stub: a group without a city *)

(** [report.get("city", "Unknown")] is None for a report filed without a
    city, since the stored document has the key; [AIUpdate] with
    [region_name=None] does not validate.  For the group of such reports
    the loop body raises before it stores anything. *)
Theorem analyze_city_needs_str_city (w : World) (first : doc) (rest : list doc) :
  Forall analysable (first :: rest) ->
  let out := analyze_city VNone (first :: rest) w in
  out.1 = Raise (ValidationError "region_name") /\ db out.2 = db w.
Proof.
  intros Hgroup out.
  pose proof Hgroup as Hfirst. apply Forall_cons in Hfirst as [([title Ht] & _) _].
  unfold out, analyze_city. rewrite (bind_ok _ _ _ _ _ (read_loop _ w Hgroup)).
  by rewrite (bind_ok _ _ _ _ _ (getitem_ok _ _ _ _ Ht)).
Qed.

Lemma analyze_city_needs_str_city_witness :
  let first := prepare_for_mongo (Report.dict (new_report_at example_report "user-1" world0)) in
  let out := analyze_city VNone [first] world1 in
  out.1 = Raise (ValidationError "region_name") /\ db out.2 = db world1.
Proof.
  apply (analyze_city_needs_str_city world1).
  apply Forall_singleton. repeat split; eexists; vm_compute; reflexivity.
Defined.
